(** * Wrapped-for-LinkedIn: the spreadsheet extraction core

    A shallow embedding of the three parser modules of the backend
    ([utils/discovery_parser.py], [utils/sheet_parser.py] and
    [utils/top_posts_parser.py]), of the service and the routes that serve
    what they extract ([services/analytics_service.py],
    [api/endpoints/analytics.py]) and of the column fallback of [eda.py],
    together with the part of the Python runtime they call: [str], [float],
    [int], [str.strip], [str.split], [str.replace], [datetime.strptime],
    [date.isoformat], ordered dictionaries, [list.sort] and object
    references.

    Conventions.
    - Text is a [string]; a character stands for the code point of the same
      number, so the model covers text whose code points are below 256.
    - A Python [float] is an IEEE 754 binary64 number, represented by the
      Standard Library's [spec_float] with precision 53 and [emax] 1024;
      roundings are the Standard Library's [binary_normalize] and
      [binary_round_aux] (round to nearest, ties to even).
    - A function that can raise returns a [result]; the exception carries a
      structured message instead of the formatted text. *)

From Stdlib Require Import ZArith List Lia Ascii String DecimalString.
From Stdlib Require DecimalPos.
From Stdlib Require Import Floats.SpecFloat.
From Stdlib Require Import Sorting.Sorted Sorting.Permutation.
From stdpp Require Import gmap strings list fin_maps.

Local Open Scope string_scope.
Local Open Scope Z_scope.

(* ===================================================================== *)
(** * Part I: the Python runtime *)
(* ===================================================================== *)

Module Py.

(** ** Text *)

(** [ord(c)] *)
Definition ord (c : ascii) : Z := Z.of_N (N_of_ascii c).

(** [chr(n)] for [0 <= n < 256] *)
Definition chr (n : Z) : ascii := ascii_of_N (Z.to_N n).

(** [c.isspace()]: below 256 the white space characters are
    9..13, 28..32, 133 and 160. *)
Definition isspace (c : ascii) : bool :=
  let n := ord c in
  ((9 <=? n) && (n <=? 13)) || ((28 <=? n) && (n <=? 32))
  || (n =? 133) || (n =? 160).

(** [s.lstrip()] *)
Fixpoint lstrip (s : string) : string :=
  match s with
  | String c s' => if isspace c then lstrip s' else s
  | EmptyString => EmptyString
  end.

(** [s.rstrip()] *)
Fixpoint rstrip (s : string) : string :=
  match s with
  | String c s' =>
      match rstrip s' with
      | EmptyString => if isspace c then EmptyString else String c EmptyString
      | r => String c r
      end
  | EmptyString => EmptyString
  end.

(** [s.strip()] *)
Definition strip (s : string) : string := lstrip (rstrip s).

(** [s.replace(c, "")] for a one-character [c] *)
Fixpoint remove_char (c : ascii) (s : string) : string :=
  match s with
  | String d s' =>
      if Ascii.eqb c d then remove_char c s' else String d (remove_char c s')
  | EmptyString => EmptyString
  end.

(** The scan of [s.split(sep)] for a non-empty [sep]: occurrences of [sep]
    are found from the left and do not overlap.  [skip] counts the
    characters of a separator just found that are still to be passed over,
    [cur] is the segment being read. *)
Fixpoint split_scan (sep : string) (skip : nat) (cur : string) (s : string)
  : list string :=
  match s with
  | EmptyString => [cur]
  | String c s' =>
      match skip with
      | S k => split_scan sep k cur s'
      | O =>
          if String.prefix sep s
          then cur :: split_scan sep (Nat.pred (String.length sep)) EmptyString s'
          else split_scan sep O (cur +:+ String c EmptyString) s'
      end
  end.

(** [s.split(sep)] *)
Definition split (sep s : string) : list string :=
  split_scan sep O EmptyString s.

(** [str(z)] for an [int] *)
Definition str_of_int (z : Z) : string := NilZero.string_of_int (Z.to_int z).

(** Decimal digits. *)
Definition is_digit (c : ascii) : bool := (48 <=? ord c) && (ord c <=? 57).
Definition digit_value (c : ascii) : Z := ord c - 48.

(** The value of a run of decimal digits, most significant first. *)
Definition digits_value (ds : list ascii) : Z :=
  fold_left (fun acc c => 10 * acc + digit_value c) ds 0.

(** The longest prefix of decimal digits, and what follows it. *)
Fixpoint span_digits (l : list ascii) : list ascii * list ascii :=
  match l with
  | c :: l' =>
      if is_digit c
      then let '(ds, rest) := span_digits l' in (c :: ds, rest)
      else ([], l)
  | [] => ([], [])
  end.

(** ASCII lower case of a letter. *)
Definition lower (c : ascii) : ascii :=
  if (65 <=? ord c) && (ord c <=? 90) then chr (ord c + 32) else c.

(** ** Values and exceptions *)

(** What a spreadsheet cell, a dictionary entry or a variable can hold:
    [None], a [bool], an [int], a [float], a [str], or an object of any
    other class (a [datetime], a [time], ...), of which only its [str()]
    text and its truth value are observed; [float()] rejects it with a
    [TypeError]. *)
Inductive value : Type :=
  | VNone
  | VBool (b : bool)
  | VInt (z : Z)
  | VFloat (f : spec_float)
  | VStr (s : string)
  | VObj (text : string) (truth : bool).

(** The text of an exception, kept structured.  The first group is raised
    by the runtime, the second by the parsers; a parser that re-raises
    with [str(e)] appended keeps the message it caught as [cause].
    [library_message] is the text of an exception raised inside a library,
    such as the spreadsheet reader on bytes that are not a workbook. *)
Inductive message : Type :=
  | library_message (text : string)
  | could_not_convert_to_float (v : value)
  | int_too_large_for_float
  | cannot_convert_float_to_integer (f : spec_float)
  | does_not_match_format (data : string)
  | unconverted_data_remains (rest : string)
  | date_out_of_range (year month day : Z)
  | wrong_operand_type
  | key_error (key : string)
  | sheet_not_found (name : string)
  | missing_required_fields (missing : gset string)
  | expected_format (got : string)
  | failed_to_parse_date_range (date_range_str : string) (cause : message)
  | failed_to_parse_integer (raw : value) (cause : message)
  | failed_to_extract_discovery (cause : message)
  | failed_to_parse_discovery_sheet (cause : message)
  | failed_to_parse_top_posts_sheet (cause : message).

(** The exception classes the code meets. *)
Inductive exn : Type :=
  | ValueError (m : message)
  | TypeError (m : message)
  | OverflowError (m : message)
  | KeyError (m : message).

(** [str(e)] *)
Definition exn_message (e : exn) : message :=
  match e with
  | ValueError m | TypeError m | OverflowError m | KeyError m => m
  end.

(** A computation that returns or raises. *)
Inductive result (A : Type) : Type :=
  | Ok (a : A)
  | Raise (e : exn).
Arguments Ok {A} a.
Arguments Raise {A} e.

#[export] Instance result_ret : MRet result := fun _ a => Ok a.
#[export] Instance result_bind : MBind result := fun _ _ k r =>
  match r with
  | Ok a => k a
  | Raise e => Raise e
  end.

(** [try: body except ValueError as e: raise ValueError(wrap(str(e)))] *)
Definition reraise_ValueError {A} (wrap : message -> message) (body : result A)
  : result A :=
  match body with
  | Raise (ValueError m) => Raise (ValueError (wrap m))
  | r => r
  end.

(** ** Floats *)

Definition prec : Z := 53.
Definition emax : Z := 1024.

(** A well-formed binary64 number. *)
Definition valid_float (f : spec_float) : bool := valid_binary prec emax f.

(** [float(z)] for an [int]: the nearest float, [OverflowError] beyond the
    largest one. *)
Definition float_of_int (z : Z) : result spec_float :=
  match binary_normalize prec emax z 0 false with
  | S754_infinity _ => Raise (OverflowError int_too_large_for_float)
  | f => Ok f
  end.

(** [int(f)] for a [float]: truncation towards zero. *)
Definition int_of_float (f : spec_float) : result Z :=
  match f with
  | S754_nan => Raise (ValueError (cannot_convert_float_to_integer f))
  | S754_infinity _ => Raise (OverflowError (cannot_convert_float_to_integer f))
  | S754_zero _ => Ok 0
  | S754_finite s m e =>
      Ok (cond_Zopp s (if 0 <=? e then Zpos m * 2 ^ e else Zpos m / 2 ^ (- e)))
  end.

(** The float nearest to [(-1)^neg * d * 10^e10], for [0 <= d]. *)
Definition float_of_decimal (neg : bool) (d e10 : Z) : spec_float :=
  if d =? 0 then S754_zero neg
  else if 0 <=? e10
  then binary_normalize prec emax (cond_Zopp neg (d * 10 ^ e10)) 0 false
  else
    let '(q, e, l) := SFdiv_core_binary prec emax d 0 (10 ^ (- e10)) 0 in
    binary_round_aux prec emax neg q e l.

(** The white space [float(s)] drops at both ends of [s]. *)
Definition float_isspace (c : ascii) : bool :=
  let n := ord c in
  ((9 <=? n) && (n <=? 13)) || (n =? 32) || (n =? 133) || (n =? 160).

Fixpoint float_lstrip (l : list ascii) : list ascii :=
  match l with
  | c :: l' => if float_isspace c then float_lstrip l' else l
  | [] => []
  end.

Definition float_strip (l : list ascii) : list ascii :=
  rev (float_lstrip (rev (float_lstrip l))).

Definition underscore : ascii := "_"%char.

(** An underscore is allowed between two digits only; [prev] is the
    character read last. *)
Fixpoint drop_underscores (prev : ascii) (l : list ascii) : option (list ascii) :=
  match l with
  | [] => if Ascii.eqb prev underscore then None else Some []
  | c :: l' =>
      if Ascii.eqb c underscore
      then if is_digit prev then drop_underscores c l' else None
      else if Ascii.eqb prev underscore && negb (is_digit c) then None
      else cons c <$> drop_underscores c l'
  end.

Definition parse_sign (l : list ascii) : bool * list ascii :=
  match l with
  | c :: l' =>
      if Ascii.eqb c "-"%char then (true, l')
      else if Ascii.eqb c "+"%char then (false, l')
      else (false, l)
  | [] => (false, [])
  end.

(** [inf], [infinity] and [nan], in any case. *)
Definition parse_special (neg : bool) (l : list ascii) : option spec_float :=
  let w := string_of_list_ascii (map lower l) in
  if String.eqb w "inf" || String.eqb w "infinity" then Some (S754_infinity neg)
  else if String.eqb w "nan" then Some S754_nan
  else None.

(** What follows the [e] of a decimal literal, up to the end of the text. *)
Definition parse_exponent (l : list ascii) : option Z :=
  let '(neg, l1) := parse_sign l in
  let '(ds, rest) := span_digits l1 in
  match ds, rest with
  | _ :: _, [] => Some (cond_Zopp neg (digits_value ds))
  | _, _ => None
  end.

(** digits [. digits] [e exponent], with a digit before or after the point. *)
Definition parse_decimal (neg : bool) (l : list ascii) : option spec_float :=
  let '(ip, l1) := span_digits l in
  let '(fp, l2) :=
    match l1 with
    | c :: l1' => if Ascii.eqb c "."%char then span_digits l1' else ([], l1)
    | [] => ([], l1)
    end in
  match (ip ++ fp)%list with
  | [] => None
  | ds =>
      let d := digits_value ds in
      let shift := Z.of_nat (List.length fp) in
      match l2 with
      | [] => Some (float_of_decimal neg d (- shift))
      | c :: l3 =>
          if Ascii.eqb (lower c) "e"%char
          then x ← parse_exponent l3; Some (float_of_decimal neg d (x - shift))
          else None
      end
  end.

(** [float(s)] for a [str] *)
Definition float_of_str (s : string) : result spec_float :=
  let fail := Raise (ValueError (could_not_convert_to_float (VStr s))) in
  match drop_underscores zero (float_strip (list_ascii_of_string s)) with
  | None => fail
  | Some l =>
      let '(neg, body) := parse_sign l in
      match parse_special neg body with
      | Some f => Ok f
      | None =>
          match parse_decimal neg body with
          | Some f => Ok f
          | None => fail
          end
      end
  end.

(** [float(v)] *)
Definition float (v : value) : result spec_float :=
  match v with
  | VBool b => float_of_int (if b then 1 else 0)
  | VInt z => float_of_int z
  | VFloat f => Ok f
  | VStr s => float_of_str s
  | VNone | VObj _ _ => Raise (TypeError (could_not_convert_to_float v))
  end.

(** [bool(v)], as [if v] tests it. *)
Definition truthy (v : value) : bool :=
  match v with
  | VNone => false
  | VBool b => b
  | VInt z => negb (z =? 0)
  | VFloat (S754_zero _) => false
  | VFloat _ => true
  | VStr s => negb (String.eqb s "")
  | VObj _ t => t
  end.

(** [v is None] *)
Definition is_None (v : value) : bool :=
  match v with VNone => true | _ => false end.

(** ** [repr] of a float

    The shortest decimal text that reads back as the same float, the
    nearest to the float's value among the shortest. *)

Definition float_eqb (x y : spec_float) : bool :=
  match x, y with
  | S754_zero a, S754_zero b => Bool.eqb a b
  | S754_infinity a, S754_infinity b => Bool.eqb a b
  | S754_nan, S754_nan => true
  | S754_finite a m e, S754_finite b n f => Bool.eqb a b && Pos.eqb m n && (e =? f)
  | _, _ => false
  end.

(** [m * 2^e] as a fraction. *)
Definition fraction_of (m : positive) (e : Z) : Z * Z :=
  if 0 <=? e then (Zpos m * 2 ^ e, 1) else (Zpos m, 2 ^ (- e)).

(** [10^k <= num / den] *)
Definition pow10_le (k num den : Z) : bool :=
  if 0 <=? k then 10 ^ k * den <=? num else den <=? num * 10 ^ (- k).

(** The [k] with [10^k <= m * 2^e < 10^(k+1)]. *)
Definition decimal_exponent (m : positive) (e : Z) : Z :=
  let '(num, den) := fraction_of m e in
  let k := (Z.log2 (Zpos m) + e) * 30103 / 100000 in
  if pow10_le (k + 1) num den then k + 1
  else if pow10_le k num den then k
  else k - 1.

(** The decimal [c * 10^x] with [nd] digits nearest to [m * 2^e] that reads
    back as [m * 2^e], if one of the two neighbours does. *)
Definition shortest_candidate (m : positive) (e : Z) (nd : Z) : option (Z * Z) :=
  let '(num, den) := fraction_of m e in
  let x := decimal_exponent m e - nd + 1 in
  let '(n, d) := if 0 <=? x then (num, den * 10 ^ x) else (num * 10 ^ (- x), den) in
  let lo := n / d in
  let r := n mod d in
  let hi := lo + 1 in
  let back c := float_eqb (float_of_decimal false c x) (S754_finite false m e) in
  let lo_first := (2 * r <? d) || ((2 * r =? d) && Z.even lo) in
  let '(c1, c2) := if lo_first then (lo, hi) else (hi, lo) in
  if back c1 then Some (c1, x)
  else if back c2 then Some (c2, x)
  else None.

Fixpoint shortest_digits (m : positive) (e : Z) (nds : list Z) : Z * Z :=
  match nds with
  | nd :: rest =>
      match shortest_candidate m e nd with
      | Some cx => cx
      | None => shortest_digits m e rest
      end
  | [] => (Zpos m, 0)
  end.

(** Trailing zeros of [c] moved into the exponent; [fuel] bounds the
    number of digits. *)
Fixpoint drop_trailing_zeros (fuel : nat) (c x : Z) : Z * Z :=
  match fuel with
  | S k => if (c mod 10 =? 0) && negb (c =? 0)
           then drop_trailing_zeros k (c / 10) (x + 1) else (c, x)
  | O => (c, x)
  end.

Fixpoint zeros (n : nat) : string :=
  match n with
  | O => EmptyString
  | S k => String "0"%char (zeros k)
  end.

(** The text of a finite non-zero magnitude, from its digits [ds] and the
    position [decpt] of the decimal point counted from the first digit. *)
Definition format_short (ds : string) (decpt : Z) : string :=
  let n := Z.of_nat (String.length ds) in
  if (decpt <=? -4) || (16 <? decpt) then
    let ex := decpt - 1 in
    let mant :=
      match ds with
      | String c EmptyString => ds
      | String c rest => String c (String "."%char rest)
      | EmptyString => ds
      end in
    let et := str_of_int (Z.abs ex) in
    let et := if Z.abs ex <? 10 then String "0"%char et else et in
    mant +:+ "e" +:+ (if ex <? 0 then "-" else "+") +:+ et
  else if decpt <=? 0 then "0." +:+ zeros (Z.to_nat (- decpt)) +:+ ds
  else if n <=? decpt then ds +:+ zeros (Z.to_nat (decpt - n)) +:+ ".0"
  else substring 0 (Z.to_nat decpt) ds +:+ "."
       +:+ substring (Z.to_nat decpt) (Z.to_nat (n - decpt)) ds.

(** [repr(f)], which is also [str(f)] *)
Definition float_repr (f : spec_float) : string :=
  match f with
  | S754_nan => "nan"
  | S754_infinity s => if s then "-inf" else "inf"
  | S754_zero s => if s then "-0.0" else "0.0"
  | S754_finite s m e =>
      let '(c, x) := shortest_digits m e (map Z.of_nat (seq 1 17)) in
      let '(c, x) := drop_trailing_zeros 20 c x in
      let ds := str_of_int c in
      (if s then "-" else "") +:+ format_short ds (Z.of_nat (String.length ds) + x)
  end.

(** [str(v)] *)
Definition str (v : value) : string :=
  match v with
  | VNone => "None"
  | VBool b => if b then "True" else "False"
  | VInt z => str_of_int z
  | VFloat f => float_repr f
  | VStr s => s
  | VObj text _ => text
  end.

(** ** Numbers and their order *)

(** An [int] or a [float], as a numeric field holds it. *)
Inductive number : Type :=
  | Int (z : Z)
  | Float (f : spec_float).

(** The value of a number: not a number, an infinity, or [m * 2^e]. *)
Inductive xreal : Type :=
  | NaN
  | NegInf
  | Finite (m e : Z)
  | PosInf.

Definition xreal_of_float (f : spec_float) : xreal :=
  match f with
  | S754_nan => NaN
  | S754_infinity s => if s then NegInf else PosInf
  | S754_zero _ => Finite 0 0
  | S754_finite s m e => Finite (cond_Zopp s (Zpos m)) e
  end.

Definition number_value (n : number) : xreal :=
  match n with
  | Int z => Finite z 0
  | Float f => xreal_of_float f
  end.

(** [m1 * 2^e1] against [m2 * 2^e2], exactly. *)
Definition finite_compare (m1 e1 m2 e2 : Z) : comparison :=
  let e := Z.min e1 e2 in
  (m1 * 2 ^ (e1 - e) ?= m2 * 2 ^ (e2 - e)).

(** [a < b] on numbers: exact on the values, false as soon as one side is
    not a number. *)
Definition xreal_ltb (a b : xreal) : bool :=
  match a, b with
  | NaN, _ | _, NaN => false
  | _, NegInf => false
  | NegInf, _ => true
  | PosInf, _ => false
  | _, PosInf => true
  | Finite m1 e1, Finite m2 e2 =>
      match finite_compare m1 e1 m2 e2 with Lt => true | _ => false end
  end.

Definition number_ltb (a b : number) : bool :=
  xreal_ltb (number_value a) (number_value b).

Definition number_is_nan (n : number) : bool :=
  match n with Float S754_nan => true | _ => false end.

(** ** Ordered dictionaries with text keys

    A [dict] keeps its keys in the order of their first insertion;
    assigning to a key that is present replaces the value in place. *)

Section Dict.
Context {V : Type}.

(** [d.get(k)] *)
Fixpoint dict_get (k : string) (d : list (string * V)) : option V :=
  match d with
  | [] => None
  | (k', v) :: d' => if decide (k' = k) then Some v else dict_get k d'
  end.

(** [k in d] *)
Definition dict_contains (k : string) (d : list (string * V)) : bool :=
  match dict_get k d with Some _ => true | None => false end.

(** [d[k] = v] *)
Fixpoint dict_set (k : string) (v : V) (d : list (string * V))
  : list (string * V) :=
  match d with
  | [] => [(k, v)]
  | (k', v') :: d' =>
      if decide (k' = k) then (k', v) :: d' else (k', v') :: dict_set k v d'
  end.

(** [list(d.values())] *)
Definition dict_values (d : list (string * V)) : list V := map snd d.

(** [list(d.keys())] *)
Definition dict_keys (d : list (string * V)) : list string := map fst d.
End Dict.

(** ** [list.sort(key=..., reverse=True)]

    The sort is stable and compares with [<] only.  When [<] orders the
    keys totally up to equality every stable sort returns the same list,
    and the insertion sort below is that list: with a reversed sort an
    element moves behind its right neighbours only past those strictly
    greater than it.  A list in which no element is below its right
    neighbour is returned as it is, whatever the keys are: there the
    runtime's sort finds one run covering the whole list and moves
    nothing, and so does the insertion sort.  Outside these two cases
    (keys that [<] does not order, such as a NaN, in a list that is not
    already such a run) the runtime's result depends on its merge
    strategy and the model does not describe it. *)

Section Sort.
Context {A : Type} (ltb : A -> A -> bool).

Fixpoint insert_reverse (x : A) (l : list A) : list A :=
  match l with
  | [] => [x]
  | y :: l' => if ltb x y then y :: insert_reverse x l' else x :: l
  end.

Definition sort_reverse (l : list A) : list A :=
  foldr insert_reverse [] l.
End Sort.

(** ** Dates and [datetime.strptime(s, "%m/%d/%Y").date()] *)

Record date : Type := { year : Z; month : Z; day : Z }.

(** [a <= b] on dates *)
Definition date_leb (a b : date) : bool :=
  (year a <? year b)
  || ((year a =? year b)
      && ((month a <? month b)
          || ((month a =? month b) && (day a <=? day b)))).

Definition is_leap (y : Z) : bool :=
  (y mod 4 =? 0) && (negb (y mod 100 =? 0) || (y mod 400 =? 0)).

Definition days_in_month (y m : Z) : Z :=
  if m =? 2 then (if is_leap y then 29 else 28)
  else if (m =? 4) || (m =? 6) || (m =? 9) || (m =? 11) then 30
  else 31.

Definition in_range (lo hi : ascii) (c : ascii) : bool :=
  (ord lo <=? ord c) && (ord c <=? ord hi).

(** The ways the directive [%m] can match a prefix of [l], in the order
    the matcher tries them: [1[0-2]], [0[1-9]], [[1-9]].  Each gives the
    month read and the text left. *)
Definition match_m (l : list ascii) : list (Z * list ascii) :=
  match l with
  | a :: b :: r =>
      (if Ascii.eqb a "1" && in_range "0" "2" b then [(10 + digit_value b, r)] else [])
      ++ (if Ascii.eqb a "0" && in_range "1" "9" b then [(digit_value b, r)] else [])
      ++ (if in_range "1" "9" a then [(digit_value a, b :: r)] else [])
  | [a] => if in_range "1" "9" a then [(digit_value a, [])] else []
  | [] => []
  end%list.

(** The same for [%d]: [3[0-1]], [[1-2]\d], [0[1-9]], [[1-9]], [ [1-9]]. *)
Definition match_d (l : list ascii) : list (Z * list ascii) :=
  match l with
  | a :: b :: r =>
      (if Ascii.eqb a "3" && in_range "0" "1" b then [(30 + digit_value b, r)] else [])
      ++ (if in_range "1" "2" a && is_digit b
          then [(10 * digit_value a + digit_value b, r)] else [])
      ++ (if Ascii.eqb a "0" && in_range "1" "9" b then [(digit_value b, r)] else [])
      ++ (if in_range "1" "9" a then [(digit_value a, b :: r)] else [])
      ++ (if Ascii.eqb a " " && in_range "1" "9" b then [(digit_value b, r)] else [])
  | [a] => if in_range "1" "9" a then [(digit_value a, [])] else []
  | [] => []
  end%list.

(** [%Y]: four digits. *)
Definition match_Y (l : list ascii) : list (Z * list ascii) :=
  match l with
  | a :: b :: c :: d :: r =>
      if is_digit a && is_digit b && is_digit c && is_digit d
      then [(digits_value [a; b; c; d], r)] else []
  | _ => []
  end.

(** A literal character of the format. *)
Definition match_char (c : ascii) (l : list ascii) : list (list ascii) :=
  match l with
  | a :: r => if Ascii.eqb a c then [r] else []
  | [] => []
  end.

(** All the matches of [%m/%d/%Y] at the start of [l], in the order of the
    matcher's search; the first one is the match. *)
Definition match_mdY (l : list ascii) : list (Z * Z * Z * list ascii) :=
  '(m, l1) ← match_m l;
  l2 ← match_char "/" l1;
  '(d, l3) ← match_d l2;
  l4 ← match_char "/" l3;
  '(y, l5) ← match_Y l4;
  [(m, d, y, l5)].

(** [date(y, m, d)] *)
Definition make_date (y m d : Z) : result date :=
  if (1 <=? y) && (y <=? 9999) && (1 <=? m) && (m <=? 12)
     && (1 <=? d) && (d <=? days_in_month y m)
  then Ok {| year := y; month := m; day := d |}
  else Raise (ValueError (date_out_of_range y m d)).

(** [datetime.strptime(s, "%m/%d/%Y").date()] *)
Definition strptime_mdY (s : string) : result date :=
  match match_mdY (list_ascii_of_string s) with
  | [] => Raise (ValueError (does_not_match_format s))
  | (m, d, y, rest) :: _ =>
      match rest with
      | [] => make_date y m d
      | _ => Raise (ValueError (unconverted_data_remains (string_of_list_ascii rest)))
      end
  end.

(** ** Objects and references

    Lists and dictionaries are objects in a heap, and a variable holds a
    reference: two references to one dictionary see each other's
    assignments. *)

Definition loc : Type := nat.

Inductive object : Type :=
  | List (items : list loc)
  | Dict (entries : gmap string value).

End Py.

Import Py.

(* ===================================================================== *)
(** * Part II: the spreadsheet reader's interface (openpyxl) *)
(* ===================================================================== *)

Module openpyxl.

(** A worksheet, as the parsers read it: [ws.max_row] and, for a row and a
    column counted from 1, [ws.cell(row, column).value]. *)
Record worksheet : Type := {
  max_row : nat;
  cell : nat -> nat -> value
}.

(** A workbook: its sheets by name, in the order of [wb.sheetnames].
    It stands for [load_workbook(io.BytesIO(file_content), data_only=True)],
    which is outside the parsers. *)
Definition workbook : Type := list (string * worksheet).

(** A worksheet from its rows, listed from row 1. *)
Definition worksheet_of_rows (rows : list (list value)) : worksheet :=
  {| max_row := List.length rows;
     cell := fun r c => nth (Nat.pred c) (nth (Nat.pred r) rows []) VNone |}.

(** The bytes of an uploaded file, by what the reader makes of them: the
    workbook it returns, or the exception it raises for bytes that are not
    a workbook.  Decoding the file format is the library's work and is not
    modelled.  Of the exception only [str(e)] is observed, since the parsers
    catch it with [except Exception]: an exception of a class outside [exn]
    (such as [zipfile.BadZipFile]) is represented by one of [exn] with the
    same text. *)
Inductive file_content : Type :=
  | xlsx (wb : workbook)
  | not_xlsx (e : exn).

(** [load_workbook(io.BytesIO(file_content), data_only=True)] *)
Definition load_workbook (file_content : file_content) : result workbook :=
  match file_content with
  | xlsx wb => Ok wb
  | not_xlsx e => Raise e
  end.

End openpyxl.
Import openpyxl.

(* ===================================================================== *)
(** * Part III: utils/discovery_parser.py *)
(* ===================================================================== *)

Module discovery_parser.

(** [class DiscoveryData] *)
Record DiscoveryData : Type := {
  start_date : date;
  end_date : date;
  total_impressions : Z;
  members_reached : Z
}.

(** [def parse_date_range(date_range_str)] *)
Definition parse_date_range (date_range_str : string) : result (date * date) :=
  reraise_ValueError (failed_to_parse_date_range date_range_str)
    (let dates := split " - " (strip date_range_str) in
     match dates with
     | [d0; d1] =>
         start_date ← strptime_mdY (strip d0);
         end_date ← strptime_mdY (strip d1);
         Ok (start_date, end_date)
     | _ => Raise (ValueError (expected_format date_range_str))
     end).

(** [def parse_integer_value(value)] *)
Definition parse_integer_value (value : value) : result Z :=
  let value :=
    match value with
    | VStr s => VStr (strip (remove_char "," s))
    | _ => value
    end in
  match f ← float value; int_of_float f with
  | Raise (ValueError m) | Raise (TypeError m) =>
      Raise (ValueError (failed_to_parse_integer value m))
  | r => r
  end.

(** [discovery_cells[key]] *)
Definition getitem (discovery_cells : gmap string value) (key : string)
  : result value :=
  match discovery_cells !! key with
  | Some v => Ok v
  | None => Raise (KeyError (key_error key))
  end.

Definition required_fields : gset string :=
  {[ "Overall Performance"; "Impressions"; "Members reached" ]}.

(** [def extract_discovery_data(discovery_cells)] *)
Definition extract_discovery_data (discovery_cells : gmap string value)
  : result DiscoveryData :=
  if negb (bool_decide
             (set_Forall (fun field => field ∈ dom discovery_cells) required_fields))
  then
    let missing := required_fields ∖ dom discovery_cells in
    Raise (ValueError (missing_required_fields missing))
  else
    reraise_ValueError failed_to_extract_discovery
      (v ← getitem discovery_cells "Overall Performance";
       let date_range_str := str v in
       '(start_date, end_date) ← parse_date_range date_range_str;
       v ← getitem discovery_cells "Impressions";
       impressions ← parse_integer_value v;
       v ← getitem discovery_cells "Members reached";
       members_reached ← parse_integer_value v;
       Ok {| start_date := start_date;
             end_date := end_date;
             total_impressions := impressions;
             members_reached := members_reached |}).

End discovery_parser.

(* ===================================================================== *)
(** * Part IV: utils/sheet_parser.py *)
(* ===================================================================== *)

Module sheet_parser.

(** [wb[name]], after the test [name in wb.sheetnames] *)
Definition sheet (wb : workbook) (name : string) : result worksheet :=
  match dict_get name wb with
  | Some ws => Ok ws
  | None => Raise (ValueError (sheet_not_found name))
  end.

(** [try: body except Exception as e: raise ValueError(wrap(str(e)))] *)
Definition reraise_Exception {A} (wrap : message -> message) (body : result A)
  : result A :=
  match body with
  | Raise e => Raise (ValueError (wrap (exn_message e)))
  | r => r
  end.

(** The loop [for row_idx in range(1, 4)] of [parse_discovery_sheet]. *)
Fixpoint read_rows (ws : worksheet) (rows : list nat)
    (discovery_data : gmap string value) : gmap string value :=
  match rows with
  | [] => discovery_data
  | row_idx :: rest =>
      let cell_label := cell ws row_idx 1 in
      let cell_value := cell ws row_idx 2 in
      read_rows ws rest
        (if negb (is_None cell_label)
         then <[str cell_label := cell_value]> discovery_data
         else discovery_data)
  end.

(** [def parse_discovery_sheet(file_content)], from the loaded workbook *)
Definition parse_discovery_sheet (wb : workbook) : result (gmap string value) :=
  reraise_Exception failed_to_parse_discovery_sheet
    (ws ← sheet wb "DISCOVERY";
     Ok (read_rows ws (seq 1 3) ∅)).

(** [def parse_discovery_sheet(file_content)], from the bytes:
    [load_workbook] is the first statement of the [try] block, so what it
    raises is re-raised by [except Exception] like every other failure. *)
Definition parse_discovery_sheet_bytes (file_content : file_content)
  : result (gmap string value) :=
  reraise_Exception failed_to_parse_discovery_sheet
    (wb ← load_workbook file_content;
     ws ← sheet wb "DISCOVERY";
     Ok (read_rows ws (seq 1 3) ∅)).

End sheet_parser.

(* ===================================================================== *)
(** * Part V: utils/top_posts_parser.py *)
(* ===================================================================== *)

Module top_posts_parser.
Import sheet_parser.

(** The dictionary built for one post, with its four keys. *)
Record post : Type := {
  url : string;
  publish_date : string;
  engagements : number;
  impressions : number
}.

(** [try: n = float(v) if v else 0  except (ValueError, TypeError): n = 0]:
    the conversion of an engagements or impressions cell. *)
Definition count_of_cell (v : value) : result number :=
  if truthy v then
    match float v with
    | Ok f => Ok (Float f)
    | Raise (ValueError _) | Raise (TypeError _) => Ok (Int 0)
    | Raise e => Raise e
    end
  else Ok (Int 0).

(** The assignment that ends the body of the first loop:
    [posts[url_str] = {"url": ..., "publish_date": ..., "engagements": ...,
    "impressions": 0}]. *)
Definition seed_engagement (posts : list (string * post))
    (row : string * string * number) : list (string * post) :=
  let '(url_str, publish_date_str, engagements_count) := row in
  dict_set url_str
    {| url := url_str;
       publish_date := publish_date_str;
       engagements := engagements_count;
       impressions := Int 0 |} posts.

(** The conditional that ends the body of the second loop: update the
    impressions of the entry of [url_str], or add an entry for it. *)
Definition merge_impression (posts : list (string * post))
    (row : string * number) : list (string * post) :=
  let '(url_str, impressions_count) := row in
  match dict_get url_str posts with
  | Some p =>
      dict_set url_str
        {| url := url p;
           publish_date := publish_date p;
           engagements := engagements p;
           impressions := impressions_count |} posts
  | None =>
      dict_set url_str
        {| url := url_str;
           publish_date := "";
           engagements := Int 0;
           impressions := impressions_count |} posts
  end.

(** The first loop: columns A to C, [for row_idx in range(4, ws.max_row + 1)]. *)
Fixpoint engagement_loop (ws : worksheet) (rows : list nat)
    (posts : list (string * post)) : result (list (string * post)) :=
  match rows with
  | [] => Ok posts
  | row_idx :: rest =>
      let url := cell ws row_idx 1 in
      let publish_date := cell ws row_idx 2 in
      let engagements := cell ws row_idx 3 in
      if (is_None url || is_None publish_date || is_None engagements)
         && (is_None (cell ws row_idx 1) && is_None (cell ws row_idx 2)
             && is_None (cell ws row_idx 3))
      then Ok posts
      else if is_None url || is_None publish_date
      then engagement_loop ws rest posts
      else
        engagements_count ← count_of_cell engagements;
        let url_str := str url in
        engagement_loop ws rest
          (seed_engagement posts (url_str, str publish_date, engagements_count))
  end.

(** The second loop: columns E and G. *)
Fixpoint impression_loop (ws : worksheet) (rows : list nat)
    (posts : list (string * post)) : result (list (string * post)) :=
  match rows with
  | [] => Ok posts
  | row_idx :: rest =>
      let url := cell ws row_idx 5 in
      let impressions := cell ws row_idx 7 in
      if is_None url || is_None impressions
      then
        if is_None (cell ws row_idx 5) && is_None (cell ws row_idx 7)
        then Ok posts
        else impression_loop ws rest posts
      else
        impressions_count ← count_of_cell impressions;
        let url_str := str url in
        impression_loop ws rest (merge_impression posts (url_str, impressions_count))
  end.

(** [posts_list.sort(key=lambda x: x["engagements"], reverse=True)] *)
Definition sort_by_engagements (posts_list : list post) : list post :=
  sort_reverse (fun x y => number_ltb (engagements x) (engagements y)) posts_list.

(** [range(4, ws.max_row + 1)] *)
Definition data_rows (ws : worksheet) : list nat := seq 4 (max_row ws - 3).

(** The body of [parse_top_posts_sheet] on the sheet [ws]. *)
Definition parse_top_posts_rows (ws : worksheet) : result (list post) :=
  posts ← engagement_loop ws (data_rows ws) [];
  posts ← impression_loop ws (data_rows ws) posts;
  let posts_list := dict_values posts in
  Ok (sort_by_engagements posts_list).

(** [def parse_top_posts_sheet(file_content)], from the loaded workbook *)
Definition parse_top_posts_sheet (wb : workbook) : result (list post) :=
  reraise_Exception failed_to_parse_top_posts_sheet
    (ws ← sheet wb "TOP POSTS";
     parse_top_posts_rows ws).

(** [def parse_top_posts_sheet(file_content)], from the bytes:
    [load_workbook] is the first statement of the [try] block, so what it
    raises is re-raised by [except Exception] like every other failure. *)
Definition parse_top_posts_sheet_bytes (file_content : file_content)
  : result (list post) :=
  reraise_Exception failed_to_parse_top_posts_sheet
    (wb ← load_workbook file_content;
     ws ← sheet wb "TOP POSTS";
     parse_top_posts_rows ws).

(** The loop of [get_top_posts]:
    [for idx, post in enumerate(top_posts, 1): post["rank"] = idx]. *)
Fixpoint set_ranks (h : gmap loc object) (top_posts : list loc) (idx : Z)
  : result (gmap loc object) :=
  match top_posts with
  | [] => Ok h
  | post :: rest =>
      match h !! post with
      | Some (Dict entries) =>
          set_ranks (<[post := Dict (<["rank" := VInt idx]> entries)]> h) rest (idx + 1)
      | _ => Raise (TypeError wrong_operand_type)
      end
  end.

(** [def get_top_posts(posts)]: [posts] refers to a list of references to
    dictionaries in the heap [h]; the slice [posts[:6]] is a new list
    object holding the same references.  Returns the heap after the call
    and the reference returned. *)
Definition get_top_posts (h : gmap loc object) (posts : loc)
  : result (gmap loc object * loc) :=
  match h !! posts with
  | Some (List items) =>
      let top_posts := fresh (dom h) in
      let h := <[top_posts := List (take 6 items)]> h in
      h ← set_ranks h (take 6 items) 1;
      Ok (h, top_posts)
  | _ => Raise (TypeError wrong_operand_type)
  end.

(** The post dictionary as an object of the heap. *)
Definition dict_of_post (p : post) : gmap string value :=
  let number_value n := match n with Int z => VInt z | Float f => VFloat f end in
  {[ "url" := VStr (url p);
     "publish_date" := VStr (publish_date p);
     "engagements" := number_value (engagements p);
     "impressions" := number_value (impressions p) ]}.

End top_posts_parser.

Import discovery_parser sheet_parser top_posts_parser.

(* ===================================================================== *)
(** * Part V-b: the rest of utils/discovery_parser.py, and the callers *)
(* ===================================================================== *)

Module datetime.

(** The decimal digit [d], for [0 <= d < 10]. *)
Definition digit_char (d : Z) : ascii := chr (48 + d).

(** ["%02d" % n] for [0 <= n < 100] *)
Definition two_digits (n : Z) : string :=
  String (digit_char (n / 10 mod 10)) (String (digit_char (n mod 10)) EmptyString).

(** ["%04d" % n] for [0 <= n < 10000] *)
Definition four_digits (n : Z) : string :=
  String (digit_char (n / 1000 mod 10))
    (String (digit_char (n / 100 mod 10)) (two_digits n)).

(** [d.isoformat()] for a date: ["%04d-%02d-%02d" % (year, month, day)]. *)
Definition isoformat (d : date) : string :=
  four_digits (year d) +:+ "-" +:+ two_digits (month d) +:+ "-"
  +:+ two_digits (day d).

End datetime.

Module DiscoveryData_class.
Import datetime.

(** [def to_dict(self)] of [class DiscoveryData] *)
Definition to_dict (self : DiscoveryData) : gmap string value :=
  {[ "start_date" := VStr (isoformat (start_date self));
     "end_date" := VStr (isoformat (end_date self));
     "total_impressions" := VInt (total_impressions self);
     "members_reached" := VInt (members_reached self) ]}.

End DiscoveryData_class.

(* ===================================================================== *)
(** * Part V-c: services/analytics_service.py *)
(* ===================================================================== *)

Module analytics_service.
Import datetime.

(** What a processed file's dictionary holds under a key: an instance of
    the parser's [DiscoveryData], an instance of the schema's
    [DiscoveryData] (the Pydantic model with the same four fields), or
    anything else, which has no attribute [start_date]. *)
Inductive stored : Type :=
  | ParserDiscoveryData (d : DiscoveryData)
  | SchemaDiscoveryData (d : DiscoveryData)
  | Other (v : value).

(** The module's [_file_data_store]: file identifier to data dictionary.
    The functions below take the store and, when they assign to it,
    return the new store. *)
Definition file_data_store : Type := gmap string (gmap string stored).

(** [def store_file_data(file_id, data)] *)
Definition store_file_data (store : file_data_store) (file_id : string)
    (data : gmap string stored) : file_data_store :=
  <[file_id := data]> store.

(** [def get_file_data(file_id)] *)
Definition get_file_data (store : file_data_store) (file_id : string)
  : option (gmap string stored) :=
  store !! file_id.

(** [bool(data)] for [data = get_file_data(...)]: false for [None] and
    for the empty dictionary. *)
Definition data_truthy (data : option (gmap string stored)) : bool :=
  match data with
  | Some d => negb (bool_decide (d = ∅))
  | None => false
  end.

(** [bool(discovery)] for a stored object. *)
Definition stored_truthy (s : stored) : bool :=
  match s with
  | ParserDiscoveryData _ | SchemaDiscoveryData _ => true
  | Other v => truthy v
  end.

(** What [get_discovery_data] hands back when it is not [None]: the
    schema's model, or the stored object as it is. *)
Inductive discovery_answer : Type :=
  | Model (d : DiscoveryData)
  | AsStored (v : value).

(** [async def get_discovery_data(file_id)] *)
Definition get_discovery_data (store : file_data_store) (file_id : string)
  : option discovery_answer :=
  let data := get_file_data store file_id in
  match data with
  | Some d =>
      if data_truthy data then
        match d !! "discovery_data" with
        | Some discovery =>
            match discovery with
            | ParserDiscoveryData p =>
                Some (Model {| start_date := start_date p;
                               end_date := end_date p;
                               total_impressions := total_impressions p;
                               members_reached := members_reached p |})
            | SchemaDiscoveryData p => Some (Model p)
            | Other VNone => None
            | Other v => Some (AsStored v)
            end
        | None => None
        end
      else None
  | None => None
  end.

(** [class EngagementMetrics] of models/schemas.py *)
Record EngagementMetrics : Type := {
  total_likes : Z;
  total_comments : Z;
  total_shares : Z;
  peak_engagement_time : option value;
  top_performing_posts : list (gmap string value);
  discovery_data : option (gmap string value)
}.

(** [class DemographicInsights] of models/schemas.py *)
Record DemographicInsights : Type := {
  job_titles : list (gmap string value);
  locations : list (gmap string value);
  industries : list (gmap string value)
}.

(** The exceptions met in the service and the routes. [detail] keeps the
    text of an [HTTPException] structured: a literal, or [str(e)] of the
    exception caught. *)
Inductive service_exn : Type :=
  | AttributeError (attribute : string)
  | HTTPException (status_code : Z) (detail : detail_text)
with detail_text : Type :=
  | literal (s : string)
  | str_of (e : service_exn).

(** A call that returns or raises. *)
Inductive outcome (A : Type) : Type :=
  | Returned (a : A)
  | Raised (e : service_exn).
Arguments Returned {A} a.
Arguments Raised {A} e.

(** The dictionary built under [discovery_data=] from an object with the
    four attributes. *)
Definition discovery_dict (p : DiscoveryData) : gmap string value :=
  {[ "start_date" := VStr (isoformat (start_date p));
     "end_date" := VStr (isoformat (end_date p));
     "total_impressions" := VInt (total_impressions p);
     "members_reached" := VInt (members_reached p) ]}.

(** [async def get_engagement_metrics(file_id)] *)
Definition get_engagement_metrics (store : file_data_store) (file_id : string)
  : outcome EngagementMetrics :=
  let data := get_file_data store file_id in
  let discovery :=
    if data_truthy data
    then match data with Some d => d !! "discovery_data" | None => None end
    else None in
  match discovery with
  | Some s =>
      if stored_truthy s then
        match s with
        | ParserDiscoveryData p | SchemaDiscoveryData p =>
            Returned {| total_likes := 0;
                        total_comments := 0;
                        total_shares := 0;
                        peak_engagement_time := None;
                        top_performing_posts := [];
                        discovery_data := Some (discovery_dict p) |}
        | Other _ => Raised (AttributeError "start_date")
        end
      else
        Returned {| total_likes := 0; total_comments := 0; total_shares := 0;
                    peak_engagement_time := None; top_performing_posts := [];
                    discovery_data := None |}
  | None =>
      Returned {| total_likes := 0; total_comments := 0; total_shares := 0;
                  peak_engagement_time := None; top_performing_posts := [];
                  discovery_data := None |}
  end.

(** [async def get_demographic_insights(file_id)] *)
Definition get_demographic_insights (store : file_data_store) (file_id : string)
  : outcome DemographicInsights :=
  Returned {| job_titles := []; locations := []; industries := [] |}.

End analytics_service.

(* ===================================================================== *)
(** * Part V-d: api/endpoints/analytics.py *)
(* ===================================================================== *)

Module analytics.
Import analytics_service.

(** [try: body except Exception as e: raise HTTPException(status_code=500,
    detail=str(e))]: [HTTPException] is itself an [Exception], so one
    raised in the body is caught as well. *)
Definition try_except_500 {A} (body : outcome A) : outcome A :=
  match body with
  | Raised e => Raised (HTTPException 500 (str_of e))
  | r => r
  end.

(** [async def get_discovery(file_id)] *)
Definition get_discovery (store : file_data_store) (file_id : string)
  : outcome discovery_answer :=
  try_except_500
    (match get_discovery_data store file_id with
     | None =>
         Raised (HTTPException 404 (literal "Discovery data not found for this file"))
     | Some discovery => Returned discovery
     end).

(** [async def get_engagement(file_id)] *)
Definition get_engagement (store : file_data_store) (file_id : string)
  : outcome EngagementMetrics :=
  try_except_500 (get_engagement_metrics store file_id).

(** [async def get_demographics(file_id)] *)
Definition get_demographics (store : file_data_store) (file_id : string)
  : outcome DemographicInsights :=
  try_except_500 (get_demographic_insights store file_id).

End analytics.

(* ===================================================================== *)
(** * Part V-e: eda.py, the fallback that builds the columns *)
(* ===================================================================== *)

Module eda.







End eda.

Import datetime DiscoveryData_class analytics_service analytics.

(* ===================================================================== *)
(** * Part VI: the error classes of the specification *)
(* ===================================================================== *)

(** The parsers raise [ValueError] throughout; the specification tells its
    error classes apart by the place that raises, which the structured
    message records. *)

(** [extract_discovery_data] stopped because required labels are absent. *)
Definition MissingFieldError {A} (r : result A) (missing : gset string) : Prop :=
  r = Raise (ValueError (missing_required_fields missing)).

(** [parse_date_range] rejected the text [literal]. *)
Definition DateRangeFormatError {A} (r : result A) (literal : string)
    (cause : message) : Prop :=
  r = Raise (ValueError (failed_to_parse_date_range literal cause)).

(** [extract_discovery_data] stopped on the date range [literal]. *)
Definition ExtractDateRangeFormatError {A} (r : result A) (literal : string)
    (cause : message) : Prop :=
  r = Raise (ValueError
               (failed_to_extract_discovery
                  (failed_to_parse_date_range literal cause))).

(** The result is a value. *)
Definition returns {A} (r : result A) : Prop := exists a, r = Ok a.

(* ===================================================================== *)
(** * Part VII: views of the code used in the statements *)
(* ===================================================================== *)

(** ** Floats *)

(** A finite float fits when its mantissa has at most 53 bits and its
    exponent is at most 971; every well-formed float does. *)
Definition fits (f : spec_float) : bool :=
  match f with
  | S754_finite _ m e => (Zpos (digits2_pos m) <=? prec) && (e <=? emax - prec)
  | _ => true
  end.

(** The integer part of the magnitude [m * 2^e]. *)
Definition magnitude_trunc (m : positive) (e : Z) : Z :=
  if 0 <=? e then Zpos m * 2 ^ e else Zpos m / 2 ^ (- e).

(** A value whose float, if it is one, is a well-formed binary64 number. *)
Definition valid_value (v : value) : Prop :=
  match v with
  | VFloat f => valid_float f = true
  | _ => True
  end.

(** ** [extract_discovery_data] past its presence test *)

(** The [try] block of [extract_discovery_data] for the values found under
    the three labels. *)
Definition extract_body (op imp mem : value) : result DiscoveryData :=
  reraise_ValueError failed_to_extract_discovery
    ('(start_date, end_date) ← parse_date_range (str op);
     impressions ← parse_integer_value imp;
     members_reached ← parse_integer_value mem;
     Ok {| start_date := start_date; end_date := end_date;
           total_impressions := impressions; members_reached := members_reached |}).

(** ** The two scans of the TOP POSTS sheet *)

(** The rows the first loop seeds an entry from, in scan order: the text of
    the URL, the text of the publish date and the converted engagements. *)
Fixpoint engagement_rows (ws : worksheet) (rows : list nat)
  : result (list (string * string * number)) :=
  match rows with
  | [] => Ok []
  | row_idx :: rest =>
      let url := cell ws row_idx 1 in
      let publish_date := cell ws row_idx 2 in
      let engagements := cell ws row_idx 3 in
      if is_None url && is_None publish_date && is_None engagements then Ok []
      else if is_None url || is_None publish_date then engagement_rows ws rest
      else
        engagements_count ← count_of_cell engagements;
        found ← engagement_rows ws rest;
        Ok ((str url, str publish_date, engagements_count) :: found)
  end.

(** The rows the second loop merges, in scan order. *)
Fixpoint impression_rows (ws : worksheet) (rows : list nat)
  : result (list (string * number)) :=
  match rows with
  | [] => Ok []
  | row_idx :: rest =>
      let url := cell ws row_idx 5 in
      let impressions := cell ws row_idx 7 in
      if is_None url && is_None impressions then Ok []
      else if is_None url || is_None impressions then impression_rows ws rest
      else
        impressions_count ← count_of_cell impressions;
        found ← impression_rows ws rest;
        Ok ((str url, impressions_count) :: found)
  end.

(** The dictionary after the engagement rows [E] and then the impression
    rows [I], as the code scans them. *)
Definition merge_views (E : list (string * string * number))
    (I : list (string * number)) : list (string * post) :=
  fold_left merge_impression I (fold_left seed_engagement E []).

(** The same rows with the impression view scanned first. *)
Definition merge_views_swapped (E : list (string * string * number))
    (I : list (string * number)) : list (string * post) :=
  fold_left seed_engagement E (fold_left merge_impression I []).

(** The publish date and engagements of the last engagement row of [u]. *)
Definition last_engagement (u : string) (E : list (string * string * number))
  : option (string * number) :=
  fold_left (fun acc '(u', d, e) => if decide (u' = u) then Some (d, e) else acc)
    E None.

(** The impressions of the last impression row of [u]. *)
Definition last_impression (u : string) (I : list (string * number))
  : option number :=
  fold_left (fun acc '(u', i) => if decide (u' = u) then Some i else acc) I None.

(** One more key met: it is appended unless it was seen before. *)
Definition see (seen : list string) (k : string) : list string :=
  if decide (k ∈ seen) then seen else (seen ++ [k])%list.

(** The keys of a list in the order of their first occurrence. *)
Definition first_seen (keys : list string) : list string :=
  fold_left see keys [].

(** Every entry of the dictionary is filed under its own URL, and no key
    occurs twice. *)
Definition keyed_by_url (posts : list (string * post)) : Prop :=
  NoDup (dict_keys posts) /\ forall k p, (k, p) ∈ posts -> url p = k.

(** ** Order on the engagements *)

(** [a] and [b] have equal engagements: neither is below the other. *)
Definition same_engagements (a b : post) : bool :=
  negb (number_ltb (engagements a) (engagements b))
  && negb (number_ltb (engagements b) (engagements a)).

(** [a] may stand before [b] in a descending list: [a] is not below [b]. *)
Definition not_below (a b : post) : Prop :=
  number_ltb (engagements a) (engagements b) = false.

Definition xreal_is_nan (a : xreal) : bool :=
  match a with NaN => true | _ => false end.

(** No engagements value of the list is a NaN. *)
Definition no_nan (l : list post) : Prop :=
  Forall (fun p => number_is_nan (engagements p) = false) l.

(** ** The rank of a record in a heap *)

(** [h[p]["rank"]], when [p] refers to a dictionary with that key. *)
Definition rank_of (h : gmap loc object) (p : loc) : option value :=
  match h !! p with
  | Some (Dict entries) => entries !! "rank"
  | _ => None
  end.

(** ** Calendar dates *)

(** A date of the calendar: year 1 to 9999, month 1 to 12, a day of that
    month. *)
Definition valid_date (d : date) : Prop :=
  1 <= year d <= 9999 /\ 1 <= month d <= 12
  /\ 1 <= day d <= days_in_month (year d) (month d).

(** ** The text of a date range *)

(** A date in the form [MM/DD/YYYY], zero padded. *)
Definition mdY (d : date) : string :=
  two_digits (month d) +:+ "/" +:+ two_digits (day d) +:+ "/"
  +:+ four_digits (year d).

(** A range in the form [MM/DD/YYYY - MM/DD/YYYY]. *)
Definition date_range_text (a b : date) : string :=
  mdY a +:+ " - " +:+ mdY b.

(** ** The DISCOVERY rows *)

(** The value read for the label [k] from the rows [rows]: column B of the
    last row whose column A is not [None] and has the text [k]. *)
Definition label_value (ws : worksheet) (rows : list nat) (k : string)
  : option value :=
  fold_left
    (fun acc row =>
       if negb (is_None (cell ws row 1)) && bool_decide (str (cell ws row 1) = k)
       then Some (cell ws row 2) else acc)
    rows None.

(** The texts of the labels of the rows [rows], [None] cells left out. *)
Definition labels (ws : worksheet) (rows : list nat) : list string :=
  omap (fun row => if is_None (cell ws row 1) then None
                   else Some (str (cell ws row 1))) rows.

(** The sheet whose row [r] is row [sigma r] of [ws]. *)
Definition permute_rows (sigma : nat -> nat) (ws : worksheet) : worksheet :=
  {| max_row := max_row ws; cell := fun r c => cell ws (sigma r) c |}.

(** The two parsers of the DISCOVERY sheet, one after the other. *)
Definition discovery_pipeline (wb : workbook) : result DiscoveryData :=
  cells ← parse_discovery_sheet wb; extract_discovery_data cells.

(** ** The TOP POSTS rows *)

(** Row [r] is empty in the engagement view: columns A, B and C. *)
Definition blank_engagement (ws : worksheet) (r : nat) : Prop :=
  cell ws r 1 = VNone /\ cell ws r 2 = VNone /\ cell ws r 3 = VNone.

(** Row [r] is empty in the impression view: columns E and G. *)
Definition blank_impression (ws : worksheet) (r : nat) : Prop :=
  cell ws r 5 = VNone /\ cell ws r 7 = VNone.

(** Row [r] is empty in both views. *)
Definition blank_row (ws : worksheet) (r : nat) : Prop :=
  blank_engagement ws r /\ blank_impression ws r.

(** The sheet cut after row [n]. *)
Definition cut_after (ws : worksheet) (n : nat) : worksheet :=
  {| max_row := n; cell := cell ws |}.

(** An [int] cell small enough for [float]: below [2^1023] in magnitude. *)
Definition convertible_cell (v : value) : Prop :=
  match v with
  | VInt z => Z.abs z < 2 ^ 1023
  | _ => True
  end.

(** ** The columns of eda.py *)


(** ** Heaps *)

(** An object of the heap with the ["rank"] key of a dictionary left out. *)
Definition without_rank (o : option object) : option object :=
  match o with
  | Some (Dict d) => Some (Dict (delete "rank" d))
  | _ => o
  end.

(** The list object at [posts] is the list [l] of post dictionaries, as
    the extraction returns it: one dictionary object for each record. *)
Definition holds_records (h : gmap loc object) (posts : loc) (l : list post) : Prop :=
  exists items,
    h !! posts = Some (List items)
    /\ NoDup items
    /\ Forall2 (fun q p => h !! q = Some (Dict (dict_of_post p))) items l.

(** The first six entries of the list at [posts] are dictionaries. *)
Definition rankable (h : gmap loc object) (posts : loc) : Prop :=
  exists items,
    h !! posts = Some (List items)
    /\ forall p, p ∈ take 6 items -> exists d, h !! p = Some (Dict d).

(* ===================================================================== *)
(** * Part VIII: sample inputs *)
(* ===================================================================== *)

(** The floats 5.0, 10.0, 12.0, 40.0, 500.0 and 857000.0. *)
Definition float_5 : spec_float := Eval vm_compute in float_of_decimal false 5 0.
Definition float_10 : spec_float := Eval vm_compute in float_of_decimal false 10 0.
Definition float_12 : spec_float := Eval vm_compute in float_of_decimal false 12 0.
Definition float_40 : spec_float := Eval vm_compute in float_of_decimal false 40 0.
Definition float_500 : spec_float := Eval vm_compute in float_of_decimal false 500 0.
Definition float_857000 : spec_float :=
  Eval vm_compute in float_of_decimal false 857000 0.

(** The DISCOVERY block of the specification's end-to-end example. *)
Definition sample_cells : gmap string value :=
  {[ "Overall Performance" := VStr "11/11/2024 - 11/10/2025";
     "Impressions" := VFloat float_857000;
     "Members reached" := VStr "297,771" ]}.

(** The same block with the two dates exchanged. *)
Definition reversed_cells : gmap string value :=
  <[ "Overall Performance" := VStr "11/10/2025 - 11/11/2024" ]> sample_cells.

(** Rows 1 to 3 of a TOP POSTS sheet: the note, an empty row, the headers. *)
Definition banner : list (list value) :=
  [ [VStr "Maximum of 50 posts available to include in this list"];
    [];
    [VStr "Post URL"; VStr "Post publish date"; VStr "Engagements"; VNone;
     VStr "Post URL"; VStr "Post publish date"; VStr "Impressions"] ].

(** One data row: both views of it. *)
Definition data_row (u d : string) (engagements : value) (u' : string)
    (impressions : value) : list value :=
  [VStr u; VStr d; engagements; VNone; VStr u'; VStr d; impressions].

(** One post, present in both views. *)
Definition sheet_one_post : worksheet :=
  worksheet_of_rows
    (banner ++ [data_row "https://x/1" "2024-12-01" (VFloat float_12)
                         "https://x/1" (VFloat float_500)]).


(** Three posts; the engagements cell of the second holds the text [nan]. *)
Definition sheet_nan : worksheet :=
  worksheet_of_rows
    (banner ++ [data_row "https://x/1" "2024-12-01" (VInt 1) "https://x/1" (VInt 7);
                data_row "https://x/2" "2024-12-02" (VStr "nan") "https://x/2" (VInt 8);
                data_row "https://x/3" "2024-12-03" (VInt 2) "https://x/3" (VInt 9)]).

(** Three posts, two of them with equal engagements. *)
Definition sheet_three_posts : worksheet :=
  worksheet_of_rows
    (banner ++ [data_row "https://x/1" "2024-12-01" (VInt 10) "https://x/3" (VInt 7);
                data_row "https://x/2" "2024-12-02" (VInt 40) "https://x/2" (VInt 8);
                data_row "https://x/3" "2024-12-03" (VFloat float_40) "https://x/1" (VInt 9)]).

(** A post record with the given URL and engagements. *)
Definition sample_post (u : string) (e : spec_float) : post :=
  {| url := u; publish_date := "2024-12-01"; engagements := Float e;
     impressions := Int 0 |}.

(** A heap with the list [posts = [a, b, c, d]] at reference 0 and four
    records with engagements 40, 40, 10 and 5 at references 1 to 4. *)
Definition heap_four : gmap loc object :=
  {[ 0%nat := List [1; 2; 3; 4]%nat;
     1%nat := Dict (dict_of_post (sample_post "https://x/a" float_40));
     2%nat := Dict (dict_of_post (sample_post "https://x/b" float_40));
     3%nat := Dict (dict_of_post (sample_post "https://x/c" float_10));
     4%nat := Dict (dict_of_post (sample_post "https://x/d" float_5)) ]}.

(** A heap with the list [posts = [a, a]] at reference 0: the same record
    twice. *)
Definition heap_alias : gmap loc object :=
  {[ 0%nat := List [1; 1]%nat;
     1%nat := Dict (dict_of_post (sample_post "https://x/a" float_40)) ]}.


(** The floats 1.0 and 2.0. *)
Definition float_1 : spec_float := Eval vm_compute in float_of_decimal false 1 0.
Definition float_2 : spec_float := Eval vm_compute in float_of_decimal false 2 0.

(** The DISCOVERY sheet of the end-to-end example. *)
Definition sheet_discovery : worksheet :=
  worksheet_of_rows
    [ [VStr "Overall Performance"; VStr "11/11/2024 - 11/10/2025"];
      [VStr "Impressions"; VFloat float_857000];
      [VStr "Members reached"; VStr "297,771"] ].

(** A workbook with both sheets. *)
Definition sample_workbook : workbook :=
  [("DISCOVERY", sheet_discovery); ("TOP POSTS", sheet_one_post)].

(** The summary read from [sample_cells]. *)
Definition sample_summary : DiscoveryData :=
  {| start_date := {| year := 2024; month := 11; day := 11 |};
     end_date := {| year := 2025; month := 11; day := 10 |};
     total_impressions := 857000;
     members_reached := 297771 |}.

(** The block of [sample_cells] with the date range [bad-format]. *)
Definition bad_format_cells : gmap string value :=
  <[ "Overall Performance" := VStr "bad-format" ]> sample_cells.

(** The block of [sample_cells] without its impressions row. *)
Definition cells_without_impressions : gmap string value :=
  delete "Impressions" sample_cells.

(** The record merged from the two views of [sheet_one_post]. *)
Definition merged_post : post :=
  {| url := "https://x/1"; publish_date := "2024-12-01";
     engagements := Float float_12; impressions := Float float_500 |}.

(** The records of [sheet_three_posts], as the extraction returns them. *)
Definition three_posts : list post :=
  [ {| url := "https://x/2"; publish_date := "2024-12-02";
       engagements := Float float_40; impressions := Float (float_of_decimal false 8 0) |};
    {| url := "https://x/3"; publish_date := "2024-12-03";
       engagements := Float float_40; impressions := Float (float_of_decimal false 7 0) |};
    {| url := "https://x/1"; publish_date := "2024-12-01";
       engagements := Float float_10; impressions := Float (float_of_decimal false 9 0) |} ].


(** Two posts, an empty row, and a third post below it. *)
Definition sheet_with_gap : worksheet :=
  worksheet_of_rows
    (banner ++ [data_row "https://x/1" "2024-12-01" (VInt 10) "https://x/1" (VInt 7);
                data_row "https://x/2" "2024-12-02" (VInt 40) "https://x/2" (VInt 8);
                [];
                data_row "https://x/3" "2024-12-03" (VInt 50) "https://x/3" (VInt 9)]).

(** The sheet of [sheet_one_post] with other cells in rows 1 to 3 and in
    columns D and F. *)
Definition sheet_other_headers : worksheet :=
  worksheet_of_rows
    [ []; [VStr "Post URL"]; [];
      [VStr "https://x/1"; VStr "2024-12-01"; VFloat float_12; VStr "note";
       VStr "https://x/1"; VStr "2019-01-01"; VFloat float_500] ].

(** A heap with the records of [three_posts] at references 1 to 3 and
    the list of them at reference 0. *)
Definition heap_three_posts : gmap loc object :=
  {[ 0%nat := List [1; 2; 3]%nat;
     1%nat := Dict (dict_of_post
                      {| url := "https://x/2"; publish_date := "2024-12-02";
                         engagements := Float float_40;
                         impressions := Float (float_of_decimal false 8 0) |});
     2%nat := Dict (dict_of_post
                      {| url := "https://x/3"; publish_date := "2024-12-03";
                         engagements := Float float_40;
                         impressions := Float (float_of_decimal false 7 0) |});
     3%nat := Dict (dict_of_post
                      {| url := "https://x/1"; publish_date := "2024-12-01";
                         engagements := Float float_10;
                         impressions := Float (float_of_decimal false 9 0) |}) ]}.

(** Three engagement rows, the first and the third with the same URL. *)
Definition sheet_repeated_url : worksheet :=
  worksheet_of_rows
    (banner ++ [data_row "https://x/1" "2024-12-01" (VInt 10) "https://x/1" (VInt 7);
                data_row "https://x/2" "2024-12-02" (VInt 40) "https://x/2" (VInt 8);
                data_row "https://x/1" "2024-12-05" (VInt 3) "https://x/3" (VInt 9)]).

(** The records of [sheet_repeated_url], as the extraction returns them:
    the record of [https://x/1] is the one of row 6, its last engagement
    row. *)
Definition repeated_url_posts : list post :=
  [ {| url := "https://x/2"; publish_date := "2024-12-02";
       engagements := Float float_40; impressions := Float (float_of_decimal false 8 0) |};
    {| url := "https://x/1"; publish_date := "2024-12-05";
       engagements := Float (float_of_decimal false 3 0);
       impressions := Float (float_of_decimal false 7 0) |};
    {| url := "https://x/3"; publish_date := "";
       engagements := Int 0; impressions := Float (float_of_decimal false 9 0) |} ].

(** One post whose engagements cell holds the integer [2^1024]. *)
Definition sheet_too_large : worksheet :=
  worksheet_of_rows
    (banner ++ [data_row "https://x/1" "2024-12-01" (VInt (2 ^ 1024))
                         "https://x/1" (VInt 7)]).

(** A heap with the list [posts = [a, b, a]] at reference 0: the record
    at reference 1 stands first and third. *)
Definition heap_aba : gmap loc object :=
  {[ 0%nat := List [1; 2; 1]%nat;
     1%nat := Dict (dict_of_post (sample_post "https://x/a" float_40));
     2%nat := Dict (dict_of_post (sample_post "https://x/b" float_10)) ]}.

(** The DISCOVERY sheet of the example with its rows in another order. *)
Definition sheet_discovery_reordered : worksheet :=
  worksheet_of_rows
    [ [VStr "Members reached"; VStr "297,771"];
      [VStr "Overall Performance"; VStr "11/11/2024 - 11/10/2025"];
      [VStr "Impressions"; VFloat float_857000] ].

(** A store with one processed file, whose discovery entry is the
    parser's summary of the example. *)
Definition sample_store : file_data_store :=
  store_file_data ∅ "file-1"
    {[ "discovery_data" := ParserDiscoveryData sample_summary ]}.

(** ** Tactics *)

(** Case analysis on the comparisons of a goal, closed by arithmetic. *)
Ltac bool_cases :=
  repeat match goal with
         | |- context [?a <=? ?b] => destruct (Z.leb_spec a b)
         | |- context [?a =? ?b] => destruct (Z.eqb_spec a b)
         end;
  cbn [andb orb negb]; try reflexivity; try lia.

(* ===================================================================== *)
(** * Part IX: facts about the runtime *)
(* ===================================================================== *)

(** ** Exceptions and date ranges *)

Lemma reraise_ValueError_inv {A} (wrap : message -> message) (body : result A) e :
  reraise_ValueError wrap body = Raise e ->
  (exists m, body = Raise (ValueError m) /\ e = ValueError (wrap m))
  \/ (body = Raise e /\ forall m, e <> ValueError m).
Proof.
  destruct body as [a | [m | m | m | m]]; simpl; intros H; inversion H; subst;
    first [ left; eexists; split; reflexivity | right; split; [reflexivity | discriminate] ].
Qed.

Lemma reraise_ValueError_Ok {A} (wrap : message -> message) (body : result A) a :
  reraise_ValueError wrap body = Ok a <-> body = Ok a.
Proof. destruct body as [b | [m | m | m | m]]; simpl; split; congruence. Qed.

Lemma strptime_raises_ValueError s e :
  strptime_mdY s = Raise e -> exists m, e = ValueError m.
Proof.
  unfold strptime_mdY, make_date.
  destruct (match_mdY _) as [| [[[m d] y] [| c rest]] ?]; intros H;
    repeat case_match; inversion H; eauto.
Qed.

Lemma parse_date_range_cases s :
  match split " - " (strip s) with
  | [s0; s1] =>
      match strptime_mdY (strip s0), strptime_mdY (strip s1) with
      | Ok a, Ok b => parse_date_range s = Ok (a, b)
      | Ok _, Raise e | Raise e, _ =>
          parse_date_range s
          = Raise (ValueError (failed_to_parse_date_range s (exn_message e)))
      end
  | _ => parse_date_range s
         = Raise (ValueError (failed_to_parse_date_range s (expected_format s)))
  end.
Proof.
  unfold parse_date_range.
  destruct (split " - " (strip s)) as [| s0 [| s1 [| s2 l]]]; try reflexivity.
  destruct (strptime_mdY (strip s0)) as [a | e] eqn:E0.
  - destruct (strptime_mdY (strip s1)) as [b | e] eqn:E1; [reflexivity |].
    destruct (strptime_raises_ValueError _ _ E1) as [m ->]. reflexivity.
  - destruct (strptime_raises_ValueError _ _ E0) as [m ->]. reflexivity.
Qed.

(** ** Floats: every float produced fits in binary64 *)

Lemma digits2_pos_log2 (p : positive) : Zpos (digits2_pos p) = Z.log2 (Zpos p) + 1.
Proof.
  induction p as [p IH | p IH |]; simpl digits2_pos; try reflexivity.
  - rewrite Pos2Z.inj_succ, IH.
    change (Zpos p~1) with (2 * Zpos p + 1). rewrite Z.log2_succ_double by lia. lia.
  - rewrite Pos2Z.inj_succ, IH.
    change (Zpos p~0) with (2 * Zpos p). rewrite Z.log2_double by lia. lia.
Qed.

Lemma Zdigits2_log2 (m : Z) : 0 < m -> Zdigits2 m = Z.log2 m + 1.
Proof. destruct m; try lia. intros _. apply digits2_pos_log2. Qed.

Lemma iter_pos_nat {A} (f : A -> A) (p : positive) (x : A) :
  SpecFloat.iter_pos f p x = Nat.iter (Pos.to_nat p) f x.
Proof.
  revert x. induction p as [p IH | p IH |]; intros x; simpl SpecFloat.iter_pos.
  - rewrite !IH, Pos2Nat.inj_xI.
    replace (S (2 * Pos.to_nat p)) with (Pos.to_nat p + (Pos.to_nat p + 1))%nat by lia.
    rewrite !Nat.iter_add. simpl. reflexivity.
  - rewrite !IH, Pos2Nat.inj_xO.
    replace (2 * Pos.to_nat p)%nat with (Pos.to_nat p + Pos.to_nat p)%nat by lia.
    rewrite Nat.iter_add. reflexivity.
  - reflexivity.
Qed.

Lemma shr_1_m (mrs : shr_record) :
  0 <= shr_m mrs -> shr_m (shr_1 mrs) = shr_m mrs / 2.
Proof.
  destruct mrs as [m r s]. simpl. intros Hm.
  destruct m as [| [p | p |] | p]; simpl; try lia; try reflexivity.
  - change (Zpos p~1) with (2 * Zpos p + 1). symmetry.
    rewrite Z.add_comm, Z.mul_comm, Z.div_add by lia. reflexivity.
  - change (Zpos p~0) with (2 * Zpos p). symmetry.
    rewrite Z.mul_comm, Z.div_mul by lia. reflexivity.
Qed.

Lemma shr_m_iter (k : nat) (mrs : shr_record) :
  0 <= shr_m mrs -> shr_m (Nat.iter k shr_1 mrs) = shr_m mrs / 2 ^ Z.of_nat k.
Proof.
  intros Hm. induction k as [| k IH].
  - simpl. rewrite Z.div_1_r. reflexivity.
  - rewrite Nat2Z.inj_succ, Z.pow_succ_r by lia. simpl Nat.iter.
    rewrite shr_1_m.
    + rewrite IH, Z.div_div by lia. f_equal. lia.
    + rewrite IH. apply Z.div_pos; lia.
Qed.

Lemma shr_exact_iter (k : nat) (m : Z) :
  0 <= m ->
  Nat.iter k shr_1 (Build_shr_record (m * 2 ^ Z.of_nat k) false false)
  = Build_shr_record m false false.
Proof.
  revert m. induction k as [| k IH]; intros m Hm.
  - simpl. f_equal. lia.
  - rewrite Nat2Z.inj_succ, Z.pow_succ_r by lia.
    replace (m * (2 * 2 ^ Z.of_nat k)) with ((2 * m) * 2 ^ Z.of_nat k) by lia.
    simpl Nat.iter. rewrite IH by lia.
    destruct m as [| p | p]; [reflexivity | reflexivity | lia].
Qed.

Lemma shr_m_shr (mrs : shr_record) (e n : Z) :
  0 <= shr_m mrs ->
  shr_m (fst (shr mrs e n)) = shr_m mrs / 2 ^ Z.max 0 n
  /\ snd (shr mrs e n) = e + Z.max 0 n.
Proof.
  intros Hm. unfold shr. destruct n as [| p | p]; simpl fst; simpl snd.
  - rewrite Z.div_1_r. lia.
  - rewrite iter_pos_nat, shr_m_iter by exact Hm.
    rewrite positive_nat_Z. replace (Z.max 0 (Zpos p)) with (Zpos p) by lia. lia.
  - rewrite Z.div_1_r. lia.
Qed.

Lemma shr_record_of_loc_m m l : shr_m (shr_record_of_loc m l) = m.
Proof. destruct l as [| []]; reflexivity. Qed.

Lemma Zdigits2_div_pow2 (m n : Z) :
  0 <= m -> 0 <= n -> Zdigits2 (m / 2 ^ n) <= Z.max 0 (Zdigits2 m - n).
Proof.
  intros Hm Hn.
  assert (H0 : 0 <= m / 2 ^ n) by (apply Z.div_pos; lia).
  destruct (Z.eq_dec (m / 2 ^ n) 0) as [E | E]; [rewrite E; simpl; lia |].
  assert (0 < m).
  { destruct (Z.eq_dec m 0) as [-> |]; [| lia]. rewrite Z.div_0_l in E; lia. }
  assert (n <= Z.log2 m).
  { destruct (Z_lt_le_dec (Z.log2 m) n) as [Hlt |]; [| lia].
    exfalso. apply E. rewrite <- Z.shiftr_div_pow2 by lia.
    apply Z.shiftr_eq_0; lia. }
  rewrite !Zdigits2_log2 by lia.
  rewrite <- Z.shiftr_div_pow2, Z.log2_shiftr by lia. lia.
Qed.

Lemma Zdigits2_nonneg m : 0 <= Zdigits2 m.
Proof. destruct m; simpl; lia. Qed.

(** After [shr_fexp] the mantissa has at most 53 bits. *)
Lemma shr_fexp_fits (m e : Z) (l : location) :
  0 <= m ->
  0 <= shr_m (fst (shr_fexp prec emax m e l))
  /\ Zdigits2 (shr_m (fst (shr_fexp prec emax m e l))) <= prec.
Proof.
  intros Hm. unfold shr_fexp.
  set (n := fexp prec emax (Zdigits2 m + e) - e).
  destruct (shr_m_shr (shr_record_of_loc m l) e n) as [Hs _].
  { rewrite shr_record_of_loc_m. exact Hm. }
  rewrite Hs, shr_record_of_loc_m. split; [apply Z.div_pos; lia |].
  pose proof (Zdigits2_div_pow2 m (Z.max 0 n) Hm ltac:(lia)) as Hd.
  pose proof (Zdigits2_nonneg m).
  assert (Zdigits2 m - prec <= n).
  { unfold n, fexp, emin, prec, emax. lia. }
  unfold prec in *. lia.
Qed.

Lemma round_nearest_even_nonneg m l : 0 <= m -> 0 <= round_nearest_even m l.
Proof. intros H. destruct l as [| []]; simpl; try lia. destruct (Z.even m); lia. Qed.

Lemma binary_round_aux_fits (s : bool) (mx ex : Z) (lx : location) :
  0 <= mx -> fits (binary_round_aux prec emax s mx ex lx) = true.
Proof.
  intros Hm. unfold binary_round_aux.
  destruct (shr_fexp prec emax mx ex lx) as [mrs' e'] eqn:E1.
  pose proof (shr_fexp_fits mx ex lx Hm) as [H1 _]. rewrite E1 in H1. simpl in H1.
  set (m1 := round_nearest_even (shr_m mrs') (loc_of_shr_record mrs')).
  assert (Hm1 : 0 <= m1) by (apply round_nearest_even_nonneg; exact H1).
  destruct (shr_fexp prec emax m1 e' loc_Exact) as [mrs'' e''] eqn:E2.
  pose proof (shr_fexp_fits m1 e' loc_Exact Hm1) as [_ H2]. rewrite E2 in H2. simpl in H2.
  destruct (shr_m mrs'') as [| m | m]; try reflexivity.
  destruct (e'' <=? emax - prec) eqn:Ee; [| reflexivity].
  simpl in H2. unfold fits. rewrite Ee.
  apply andb_true_intro. split; [apply Z.leb_le; exact H2 | reflexivity].
Qed.

Lemma binary_round_fits s m e : fits (binary_round prec emax s m e) = true.
Proof.
  unfold binary_round. destruct (shl_align _ _ _) as [mz ez].
  apply binary_round_aux_fits. lia.
Qed.

Lemma binary_normalize_fits m e sz : fits (binary_normalize prec emax m e sz) = true.
Proof. destruct m; simpl; [reflexivity | apply binary_round_fits ..]. Qed.

Lemma SFdiv_core_binary_nonneg m1 m2 :
  0 <= m1 -> 0 < m2 ->
  0 <= fst (fst (SFdiv_core_binary prec emax m1 0 m2 0)).
Proof.
  intros H1 H2. unfold SFdiv_core_binary.
  match goal with |- context [Z.div_eucl ?a ?b] =>
    pose proof (Z.div_eucl_eq a b ltac:(lia)) as Heq;
    pose proof (Z.mod_pos_bound a b ltac:(lia)) as Hmod;
    assert (Ha : 0 <= a); [| unfold Z.modulo in Hmod; destruct (Z.div_eucl a b) as [q r] eqn:E]
  end.
  { match goal with |- 0 <= match ?s with _ => _ end => destruct s eqn:Es end; try lia.
    rewrite Z.shiftl_mul_pow2 by lia. apply Z.mul_nonneg_nonneg; [lia |].
    apply Z.pow_nonneg; lia. }
  simpl. nia.
Qed.

Lemma float_of_decimal_fits neg d e10 :
  0 <= d -> fits (float_of_decimal neg d e10) = true.
Proof.
  intros Hd. unfold float_of_decimal.
  destruct (d =? 0); [reflexivity |].
  destruct (0 <=? e10) eqn:Ee; [apply binary_normalize_fits |].
  apply Z.leb_gt in Ee.
  pose proof (SFdiv_core_binary_nonneg d (10 ^ (- e10)) Hd) as Hq.
  destruct (SFdiv_core_binary prec emax d 0 (10 ^ (- e10)) 0) as [[q e] l].
  apply binary_round_aux_fits. apply Hq. apply Z.pow_pos_nonneg; lia.
Qed.

Lemma digit_value_nonneg c : is_digit c = true -> 0 <= digit_value c.
Proof. unfold is_digit, digit_value. lia. Qed.

Lemma digits_value_nonneg_from ds acc :
  0 <= acc -> Forall (fun c => is_digit c = true) ds ->
  0 <= fold_left (fun acc c => 10 * acc + digit_value c) ds acc.
Proof.
  revert acc. induction ds as [| c ds IH]; intros acc Ha Hds; simpl; [exact Ha |].
  inversion Hds; subst. apply IH; [| assumption].
  pose proof (digit_value_nonneg c ltac:(assumption)). lia.
Qed.

Lemma span_digits_digits l :
  Forall (fun c => is_digit c = true) (fst (span_digits l)).
Proof.
  induction l as [| c l IH]; simpl; [constructor |].
  destruct (is_digit c) eqn:E; [| constructor].
  destruct (span_digits l) as [ds rest]. simpl in *. constructor; assumption.
Qed.

Lemma parse_decimal_fits neg l f :
  parse_decimal neg l = Some f -> fits f = true.
Proof.
  unfold parse_decimal.
  pose proof (span_digits_digits l) as Hip.
  destruct (span_digits l) as [ip l1]. simpl in Hip.
  assert (Hfp : forall l', Forall (fun c => is_digit c = true) (fst (span_digits l')))
    by apply span_digits_digits.
  set (r := match l1 with
            | [] => ([], l1)
            | c :: l1' => if Ascii.eqb c "." then span_digits l1' else ([], l1)
            end).
  assert (Hr : Forall (fun c => is_digit c = true) (fst r)).
  { unfold r. destruct l1 as [| c l1']; [constructor |].
    destruct (Ascii.eqb c "."); [apply Hfp | constructor]. }
  destruct r as [fp l2]. simpl in Hr.
  assert (Hd : 0 <= digits_value (ip ++ fp)).
  { apply digits_value_nonneg_from; [lia |]. apply Forall_app. split; assumption. }
  destruct (ip ++ fp)%list as [| c0 ds] eqn:Eds; [discriminate |].
  destruct l2 as [| c l3].
  - intros H. injection H as <-. apply float_of_decimal_fits. exact Hd.
  - destruct (Ascii.eqb (lower c) "e"); [| discriminate].
    destruct (parse_exponent l3) as [x |]; simpl; [| discriminate].
    intros H. injection H as <-. apply float_of_decimal_fits. exact Hd.
Qed.

Lemma parse_special_fits neg l f : parse_special neg l = Some f -> fits f = true.
Proof.
  unfold parse_special. repeat case_match; intros E; inversion E; reflexivity.
Qed.

Lemma float_of_str_fits s f : float_of_str s = Ok f -> fits f = true.
Proof.
  unfold float_of_str.
  destruct (drop_underscores _ _) as [l |]; [| discriminate].
  destruct (parse_sign l) as [neg body].
  destruct (parse_special neg body) as [g |] eqn:Es.
  - intros H. injection H as <-. eapply parse_special_fits. exact Es.
  - destruct (parse_decimal neg body) as [g |] eqn:Ed; [| discriminate].
    intros H. injection H as <-. eapply parse_decimal_fits. exact Ed.
Qed.

Lemma float_of_int_fits z f : float_of_int z = Ok f -> fits f = true.
Proof.
  unfold float_of_int. pose proof (binary_normalize_fits z 0 false) as H.
  destruct (binary_normalize prec emax z 0 false); intros E; inversion E; subst; exact H.
Qed.

Lemma valid_float_fits f : valid_float f = true -> fits f = true.
Proof.
  destruct f as [| | | s m e]; try reflexivity.
  unfold valid_float, valid_binary, bounded, canonical_mantissa, fits, fexp, emin, prec, emax.
  intros H. apply andb_prop in H as [H1 H2].
  apply Z.eqb_eq in H1. apply Z.leb_le in H2.
  apply andb_true_intro. split; apply Z.leb_le; lia.
Qed.


Lemma float_fits v f : valid_value v -> float v = Ok f -> fits f = true.
Proof.
  destruct v as [| b | z | g | s | t tr]; simpl; intros Hv H; try discriminate.
  - eapply float_of_int_fits. exact H.
  - eapply float_of_int_fits. exact H.
  - injection H as <-. apply valid_float_fits. exact Hv.
  - eapply float_of_str_fits. exact H.
Qed.

(** ** Floats: integers of at most 53 significant bits convert exactly *)

Lemma shift_left_pos (p d : positive) :
  Zpos (Pos.iter xO p d) = Zpos p * 2 ^ Zpos d.
Proof.
  rewrite (Pos.iter_swap_gen _ _ Zpos xO (Z.mul 2)) by reflexivity.
  change (Pos.iter (Z.mul 2) (Zpos p) d) with (Z.shiftl (Zpos p) (Zpos d)).
  apply Z.shiftl_mul_pow2. lia.
Qed.

Lemma binary_round_aux_canonical (s : bool) (m : positive) (e : Z) :
  fexp prec emax (Zpos (digits2_pos m) + e) = e ->
  e <= emax - prec ->
  binary_round_aux prec emax s (Zpos m) e loc_Exact = S754_finite s m e.
Proof.
  intros Hc He. unfold binary_round_aux, shr_fexp. simpl Zdigits2.
  rewrite Hc, Z.sub_diag. simpl. rewrite Hc, Z.sub_diag. simpl.
  apply Z.leb_le in He. rewrite He. reflexivity.
Qed.

Lemma binary_round_exact (s : bool) (p : positive) (a j : Z) :
  Zpos p = a * 2 ^ j -> 0 <= j -> 0 < a < 2 ^ 53 -> Zpos p < 2 ^ 1024 ->
  exists m e,
    binary_round prec emax s p 0 = S754_finite s m e
    /\ magnitude_trunc m e = Zpos p.
Proof.
  intros Hp Hj Ha Hlt.
  pose proof (digits2_pos_log2 p) as HD.
  assert (Hlog : Z.log2 (Zpos p) = j + Z.log2 a)
    by (rewrite Hp; apply Z.log2_mul_pow2; lia).
  assert (Hla : Z.log2 a < 53) by (apply Z.log2_lt_pow2; lia).
  assert (Hlp : Z.log2 (Zpos p) < 1024) by (apply Z.log2_lt_pow2; lia).
  pose proof (Z.log2_nonneg a) as Hla0.
  unfold binary_round. rewrite Z.add_0_r.
  set (D := Zpos (digits2_pos p)) in *.
  destruct (Z_le_gt_dec D 53) as [Hsmall | Hbig].
  - (* at most 53 bits: the mantissa is shifted left to 53 bits *)
    assert (Hf : fexp prec emax D = D - 53) by (unfold fexp, emin, prec, emax; lia).
    unfold shl_align. rewrite Hf, Z.sub_0_r.
    destruct (D - 53) as [| d | d] eqn:Ed; try lia.
    + exists p, 0. split.
      * apply binary_round_aux_canonical; [| unfold emax, prec; lia].
        fold D. rewrite Z.add_0_r, Hf. lia.
      * unfold magnitude_trunc. simpl. lia.
    + exists (Pos.iter xO p d), (Zneg d).
      assert (Hm : Zpos (Pos.iter xO p d) = Zpos p * 2 ^ Zpos d) by apply shift_left_pos.
      split.
      * apply binary_round_aux_canonical; [| unfold emax, prec; lia].
        rewrite digits2_pos_log2, Hm, Z.log2_mul_pow2 by lia.
        unfold fexp, emin, prec, emax. lia.
      * unfold magnitude_trunc. change (0 <=? Zneg d) with false. cbv iota.
        rewrite Hm. change (- Zneg d) with (Zpos d).
        apply Z.div_mul. apply Z.pow_nonzero; lia.
  - (* more than 53 bits: the low bits shifted out are all zero *)
    assert (Hf : fexp prec emax D = D - 53) by (unfold fexp, emin, prec, emax; lia).
    unfold shl_align. rewrite Hf, Z.sub_0_r.
    destruct (D - 53) as [| n | n] eqn:En; try lia.
    assert (Hn : Zpos n <= j) by lia.
    set (q := a * 2 ^ (j - Zpos n)).
    assert (Hq : Zpos p = q * 2 ^ Zpos n).
    { unfold q. rewrite <- Z.mul_assoc, <- Z.pow_add_r by lia.
      rewrite Hp. do 2 f_equal. lia. }
    assert (Hq0 : 0 < q) by (unfold q; apply Z.mul_pos_pos; [lia | apply Z.pow_pos_nonneg; lia]).
    destruct q as [| q' | q'] eqn:Eq; try lia.
    exists q', (Zpos n). split.
    + unfold binary_round_aux, shr_fexp. simpl Zdigits2. fold D.
      rewrite Z.add_0_r, Hf, Z.sub_0_r. unfold shr at 1.
      change (0 + Z.pos n) with (Z.pos n).
      rewrite iter_pos_nat. simpl shr_record_of_loc.
      rewrite Hq, <- (positive_nat_Z n), shr_exact_iter by lia.
      rewrite positive_nat_Z. simpl loc_of_shr_record. simpl round_nearest_even.
      simpl Zdigits2.
      assert (Hdq : Zpos (digits2_pos q') = 53).
      { rewrite digits2_pos_log2.
        assert (Z.log2 (Zpos p) = Zpos n + Z.log2 (Zpos q'))
          by (rewrite Hq; apply Z.log2_mul_pow2; lia).
        lia. }
      rewrite Hdq.
      replace (fexp prec emax (53 + Zpos n) - Zpos n) with 0
        by (unfold fexp, emin, prec, emax; lia).
      simpl.
      assert (Hle : (Zpos n <=? emax - prec) = true)
        by (apply Z.leb_le; unfold emax, prec; lia).
      rewrite Hle. reflexivity.
    + unfold magnitude_trunc. change (0 <=? Zpos n) with true. cbv iota.
      symmetry. exact Hq.
Qed.

Lemma float_of_int_exact (s : bool) (p : positive) (a j : Z) :
  Zpos p = a * 2 ^ j -> 0 <= j -> 0 < a < 2 ^ 53 -> Zpos p < 2 ^ 1024 ->
  exists f,
    float_of_int (cond_Zopp s (Zpos p)) = Ok f
    /\ int_of_float f = Ok (cond_Zopp s (Zpos p)).
Proof.
  intros Hp Hj Ha Hlt.
  destruct (binary_round_exact s p a j Hp Hj Ha Hlt) as (m & e & Hr & Ht).
  exists (S754_finite s m e). unfold float_of_int.
  assert (Hn : binary_normalize prec emax (cond_Zopp s (Zpos p)) 0 false
               = S754_finite s m e).
  { destruct s; simpl; exact Hr. }
  rewrite Hn. split; [reflexivity |].
  unfold int_of_float. unfold magnitude_trunc in Ht. rewrite Ht. reflexivity.
Qed.

(** Converting the integer part of a float back to a float and truncating
    again returns the same integer. *)
Lemma int_of_float_round_trip (f : spec_float) (n : Z) :
  fits f = true -> int_of_float f = Ok n ->
  exists g, float_of_int n = Ok g /\ int_of_float g = Ok n.
Proof.
  intros Hf Hn. destruct f as [sg | sg | | s m e]; simpl in Hn; try discriminate.
  - injection Hn as <-. exists (S754_zero false). split; reflexivity.
  - injection Hn as <-.
    unfold fits in Hf. apply andb_prop in Hf as [Hd He].
    apply Z.leb_le in Hd, He. unfold prec, emax in *.
    rewrite digits2_pos_log2 in Hd.
    assert (Hm : Zpos m < 2 ^ 53).
    { apply Z.log2_lt_pow2; lia. }
    destruct (0 <=? e) eqn:Ee.
    + apply Z.leb_le in Ee.
      assert (Hpos : 0 < Zpos m * 2 ^ e)
        by (apply Z.mul_pos_pos; [lia | apply Z.pow_pos_nonneg; lia]).
      destruct (Zpos m * 2 ^ e) as [| p | p] eqn:Ep; try lia.
      apply (float_of_int_exact s p (Zpos m) e); try lia.
      rewrite <- Ep. apply Z.log2_lt_pow2; [lia |].
      rewrite Z.log2_mul_pow2 by lia. lia.
    + apply Z.leb_gt in Ee.
      assert (Hq : 0 <= Zpos m / 2 ^ (- e)) by (apply Z.div_pos; [lia | apply Z.pow_pos_nonneg; lia]).
      assert (Hle : Zpos m / 2 ^ (- e) <= Zpos m).
      { apply Z.div_le_upper_bound; [apply Z.pow_pos_nonneg; lia |].
        assert (0 < 2 ^ (- e)) by (apply Z.pow_pos_nonneg; lia). nia. }
      destruct (Zpos m / 2 ^ (- e)) as [| p | p] eqn:Ep; try lia.
      * exists (S754_zero false). destruct s; split; reflexivity.
      * apply (float_of_int_exact s p (Zpos p) 0); lia.
Qed.

(** ** Ordered dictionaries *)

Section DictFacts.
Context {V : Type}.
Implicit Types (d : list (string * V)) (k : string) (v : V).

Lemma dict_get_set k k' v d :
  dict_get k' (dict_set k v d) = if decide (k = k') then Some v else dict_get k' d.
Proof.
  induction d as [| [k0 v0] d IH]; simpl.
  - destruct (decide (k = k')); reflexivity.
  - destruct (decide (k0 = k)) as [-> | Hne]; simpl.
    + destruct (decide (k = k')); reflexivity.
    + destruct (decide (k0 = k')) as [-> | Hne'].
      * destruct (decide (k = k')); [congruence | reflexivity].
      * exact IH.
Qed.

Lemma dict_get_set_eq k v d : dict_get k (dict_set k v d) = Some v.
Proof. rewrite dict_get_set. destruct (decide (k = k)); congruence. Qed.

Lemma dict_get_None_keys k d : dict_get k d = None <-> k ∉ dict_keys d.
Proof.
  induction d as [| [k0 v0] d IH]; simpl.
  - split; [intros _; apply not_elem_of_nil | reflexivity].
  - rewrite not_elem_of_cons. destruct (decide (k0 = k)) as [-> | Hne].
    + split; [discriminate | intros [H _]; congruence].
    + rewrite IH. split; [intros H; split; [congruence | exact H] | tauto].
Qed.

Lemma dict_keys_set k v d :
  dict_keys (dict_set k v d)
  = if dict_contains k d then dict_keys d else (dict_keys d ++ [k])%list.
Proof.
  unfold dict_contains. induction d as [| [k0 v0] d IH]; simpl; [reflexivity |].
  destruct (decide (k0 = k)) as [-> | Hne]; simpl; [reflexivity |].
  rewrite IH. destruct (dict_get k d); reflexivity.
Qed.

Lemma dict_keys_set_NoDup k v d :
  NoDup (dict_keys d) -> NoDup (dict_keys (dict_set k v d)).
Proof.
  intros H. rewrite dict_keys_set. unfold dict_contains.
  destruct (dict_get k d) eqn:E; [exact H |].
  apply NoDup_app. split; [exact H | split].
  - intros x Hx Hx'. apply list_elem_of_singleton in Hx'. subst.
    apply dict_get_None_keys in E. contradiction.
  - apply NoDup_singleton.
Qed.

Lemma elem_of_dict_set k v d k' v' :
  (k', v') ∈ dict_set k v d -> (k', v') = (k, v) \/ (k', v') ∈ d.
Proof.
  induction d as [| [k0 v0] d IH]; simpl.
  - intros H. apply list_elem_of_singleton in H. left. exact H.
  - destruct (decide (k0 = k)) as [-> | Hne]; rewrite !elem_of_cons.
    + intros [H | H]; [left; exact H | right; right; exact H].
    + intros [H | H]; [right; left; exact H |].
      destruct (IH H) as [? | ?]; [left | right; right]; assumption.
Qed.

Lemma dict_get_elem_of k v d : dict_get k d = Some v -> (k, v) ∈ d.
Proof.
  induction d as [| [k0 v0] d IH]; simpl; [discriminate |].
  destruct (decide (k0 = k)) as [-> | Hne].
  - intros H. injection H as ->. apply list_elem_of_here.
  - intros H. apply list_elem_of_further, IH, H.
Qed.

Lemma elem_of_dict_values v d : v ∈ dict_values d <-> exists k, (k, v) ∈ d.
Proof.
  unfold dict_values. rewrite list_elem_of_fmap. split.
  - intros ([k v'] & -> & H). exists k. exact H.
  - intros [k H]. exists (k, v). split; [reflexivity | exact H].
Qed.
End DictFacts.


(** ** The order on numbers and the reversed insertion sort *)

Section SortFacts.
Context {A : Type} (ltb : A -> A -> bool).

Lemma insert_reverse_Permutation x l :
  Permutation (insert_reverse ltb x l) (x :: l).
Proof.
  induction l as [| y l IH]; simpl; [reflexivity |].
  destruct (ltb x y); [| reflexivity].
  rewrite IH. apply perm_swap.
Qed.

Lemma sort_reverse_Permutation l : Permutation (sort_reverse ltb l) l.
Proof.
  induction l as [| x l IH]; simpl; [reflexivity |].
  rewrite insert_reverse_Permutation. constructor. exact IH.
Qed.

(** A list in which no element is below its right neighbour is returned
    as it is. *)
Lemma sort_reverse_already_descending l :
  Sorted (fun a b => ltb a b = false) l -> sort_reverse ltb l = l.
Proof.
  induction 1 as [| x l Hs IH Hhd]; [reflexivity |].
  simpl. rewrite IH. destruct Hhd as [| y l' Hxy]; [reflexivity |].
  simpl. rewrite Hxy. reflexivity.
Qed.
End SortFacts.

(** ** The order on numbers *)

Lemma finite_compare_scaled (m1 e1 m2 e2 e0 : Z) :
  e0 <= e1 -> e0 <= e2 ->
  finite_compare m1 e1 m2 e2 = (m1 * 2 ^ (e1 - e0) ?= m2 * 2 ^ (e2 - e0)).
Proof.
  intros H1 H2. unfold finite_compare.
  set (e := Z.min e1 e2).
  assert (Hk : 0 < 2 ^ (e - e0)) by (apply Z.pow_pos_nonneg; lia).
  replace (2 ^ (e1 - e0)) with (2 ^ (e1 - e) * 2 ^ (e - e0))
    by (rewrite <- Z.pow_add_r by lia; f_equal; lia).
  replace (2 ^ (e2 - e0)) with (2 ^ (e2 - e) * 2 ^ (e - e0))
    by (rewrite <- Z.pow_add_r by lia; f_equal; lia).
  rewrite !Z.mul_assoc. apply Zmult_compare_compat_r. lia.
Qed.

Lemma xreal_ltb_asym a b : xreal_ltb a b = true -> xreal_ltb b a = false.
Proof.
  destruct a as [| | m1 e1 |], b as [| | m2 e2 |]; simpl; try congruence.
  unfold finite_compare. rewrite Z.min_comm.
  rewrite (Z.compare_antisym (m1 * _) (m2 * _)).
  destruct (m1 * _ ?= m2 * _); simpl; congruence.
Qed.

Lemma xreal_ltb_negtrans a b c :
  xreal_is_nan b = false ->
  xreal_ltb a b = false -> xreal_ltb b c = false -> xreal_ltb a c = false.
Proof.
  destruct a as [| | m1 e1 |], b as [| | m2 e2 |], c as [| | m3 e3 |];
    simpl; try congruence.
  intros _.
  set (e0 := Z.min e1 (Z.min e2 e3)).
  rewrite (finite_compare_scaled m1 e1 m2 e2 e0),
          (finite_compare_scaled m2 e2 m3 e3 e0),
          (finite_compare_scaled m1 e1 m3 e3 e0) by lia.
  destruct (Z.compare_spec (m1 * 2 ^ (e1 - e0)) (m2 * 2 ^ (e2 - e0)));
    destruct (Z.compare_spec (m2 * 2 ^ (e2 - e0)) (m3 * 2 ^ (e3 - e0)));
    destruct (Z.compare_spec (m1 * 2 ^ (e1 - e0)) (m3 * 2 ^ (e3 - e0)));
    try congruence; lia.
Qed.

Lemma number_is_nan_value n : number_is_nan n = xreal_is_nan (number_value n).
Proof. destruct n as [z | [| | |]]; try reflexivity. destruct s; reflexivity. Qed.

(** ** The reversed insertion sort *)

Section StableSort.
Context {A : Type} (ltb : A -> A -> bool) (ok : A -> Prop).
Hypothesis ltb_asym : forall a b, ltb a b = true -> ltb b a = false.
Hypothesis ltb_negtrans :
  forall a b c, ok b -> ltb a b = false -> ltb b c = false -> ltb a c = false.

Lemma insert_reverse_sorted x l :
  Forall ok l -> StronglySorted (fun a b => ltb a b = false) l ->
  StronglySorted (fun a b => ltb a b = false) (insert_reverse ltb x l).
Proof.
  intros Hok Hs. induction l as [| y l IH]; simpl.
  - constructor; constructor.
  - apply StronglySorted_inv in Hs as [Hs Hy].
    apply Forall_cons in Hok as [Hoky Hok].
    destruct (ltb x y) eqn:E.
    + constructor; [apply IH; assumption |].
      rewrite insert_reverse_Permutation. constructor; [| exact Hy].
      apply ltb_asym, E.
    + constructor; [constructor; assumption |].
      constructor; [exact E |].
      eapply Forall_impl; [exact Hy |].
      intros z Hz. eapply ltb_negtrans; [exact Hoky | exact E | exact Hz].
Qed.

Lemma sort_reverse_sorted l :
  Forall ok l -> StronglySorted (fun a b => ltb a b = false) (sort_reverse ltb l).
Proof.
  induction l as [| x l IH]; intros Hok; simpl; [constructor |].
  apply Forall_cons in Hok as [_ Hok].
  apply insert_reverse_sorted; [| apply IH, Hok].
  rewrite sort_reverse_Permutation. exact Hok.
Qed.

(** Elements of one class, none below another, keep their order. *)
Lemma insert_reverse_filter (P : A -> bool) x l :
  (forall a b, P a = true -> P b = true -> ltb a b = false) ->
  List.filter P (insert_reverse ltb x l) = List.filter P (x :: l).
Proof.
  intros HP. induction l as [| y l IH]; [reflexivity |].
  simpl insert_reverse. destruct (ltb x y) eqn:E; [| reflexivity].
  simpl List.filter in *. rewrite IH.
  destruct (P x) eqn:Px, (P y) eqn:Py; try reflexivity.
  rewrite (HP x y Px Py) in E. discriminate.
Qed.

Lemma sort_reverse_filter (P : A -> bool) l :
  (forall a b, P a = true -> P b = true -> ltb a b = false) ->
  List.filter P (sort_reverse ltb l) = List.filter P l.
Proof.
  intros HP. induction l as [| x l IH]; [reflexivity |].
  simpl sort_reverse. rewrite insert_reverse_filter by exact HP.
  simpl. rewrite IH. reflexivity.
Qed.
End StableSort.


(* ===================================================================== *)
(** * Part X: discovery_parser.py *)
(* ===================================================================== *)

Lemma required_fields_spec (X : gset string) :
  set_Forall (fun field => field ∈ X) required_fields
  <-> "Overall Performance" ∈ X /\ "Impressions" ∈ X /\ "Members reached" ∈ X.
Proof.
  unfold required_fields, set_Forall. split.
  - intros H. repeat split; apply H; set_solver.
  - intros (H1 & H2 & H3) x Hx.
    apply elem_of_union in Hx as [Hx | Hx]; [apply elem_of_union in Hx as [Hx | Hx] |];
      apply elem_of_singleton in Hx; subst; assumption.
Qed.


Lemma extract_present (cells : gmap string value) op imp mem :
  cells !! "Overall Performance" = Some op ->
  cells !! "Impressions" = Some imp ->
  cells !! "Members reached" = Some mem ->
  extract_discovery_data cells = extract_body op imp mem.
Proof.
  intros Hop Himp Hmem. unfold extract_discovery_data, extract_body.
  rewrite bool_decide_true.
  2:{ apply required_fields_spec. rewrite !elem_of_dom, Hop, Himp, Hmem. eauto. }
  simpl. unfold getitem. rewrite Hop, Himp, Hmem. reflexivity.
Qed.

Lemma extract_absent (cells : gmap string value) :
  ~ set_Forall (fun field => field ∈ dom cells) required_fields ->
  extract_discovery_data cells
  = Raise (ValueError (missing_required_fields (required_fields ∖ dom cells))).
Proof.
  intros H. unfold extract_discovery_data. rewrite bool_decide_false by exact H.
  reflexivity.
Qed.

Lemma parse_integer_value_raises v e :
  parse_integer_value v = Raise e ->
  (exists raw cause, e = ValueError (failed_to_parse_integer raw cause))
  \/ (exists m, e = OverflowError m) \/ (exists m, e = KeyError m).
Proof.
  unfold parse_integer_value.
  match goal with |- context [mbind ?k ?r] => destruct (mbind k r) as [z | [m | m | m | m]] end;
    intros H; inversion H; subst; eauto.
Qed.

Lemma extract_body_date_error op imp mem literal cause :
  extract_body op imp mem
  = Raise (ValueError (failed_to_extract_discovery
                         (failed_to_parse_date_range literal cause)))
  <-> parse_date_range (str op)
      = Raise (ValueError (failed_to_parse_date_range literal cause)).
Proof.
  unfold extract_body. split.
  - intros H. apply reraise_ValueError_inv in H as [(m & Hb & Hm) | (Hb & Hne)].
    2:{ exfalso. eapply Hne. reflexivity. }
    injection Hm as <-.
    destruct (parse_date_range (str op)) as [[a b] | e]; simpl in Hb; [| congruence].
    destruct (parse_integer_value imp) as [i | e] eqn:Ei; simpl in Hb.
    + destruct (parse_integer_value mem) as [j | e] eqn:Ej; simpl in Hb; [discriminate |].
      injection Hb as ->.
      apply parse_integer_value_raises in Ej as [(? & ? & ?) | [[? ?] | [? ?]]]; discriminate.
    + injection Hb as ->.
      apply parse_integer_value_raises in Ei as [(? & ? & ?) | [[? ?] | [? ?]]]; discriminate.
  - intros ->. reflexivity.
Qed.

(** C6.  [parse_date_range] strips its text and splits it on [" - "].  It
    returns or fails with the date range error carrying the very text it
    was given, and with nothing else; it fails exactly when the split does
    not give two segments or one of the two (stripped) segments is not
    read by [strptime] under [%m/%d/%Y]; the cause is the wrong-format
    note or the message of the segment's [strptime] error.  Through
    [extract_discovery_data], on a mapping with the three labels, the
    wrapped date range error is raised exactly when [parse_date_range]
    raises it on [str] of the "Overall Performance" value, whose text it
    carries.  ["bad-format"] fails with the date range error. *)
Theorem C6_date_range_format_error :
  (forall s : string,
      let segments := split " - " (strip s) in
      (returns (parse_date_range s)
       \/ exists cause, DateRangeFormatError (parse_date_range s) s cause)
      /\ ((exists cause, DateRangeFormatError (parse_date_range s) s cause)
          <-> (List.length segments <> 2%nat
               \/ exists s0 s1, segments = [s0; s1]
                    /\ (~ returns (strptime_mdY (strip s0))
                        \/ ~ returns (strptime_mdY (strip s1)))))
      /\ (forall cause, DateRangeFormatError (parse_date_range s) s cause ->
            (List.length segments <> 2%nat /\ cause = expected_format s)
            \/ exists segment e, segment ∈ segments
                 /\ strptime_mdY (strip segment) = Raise e
                 /\ cause = exn_message e))
  /\ (forall (cells : gmap string value) (op imp mem : value) literal cause,
        cells !! "Overall Performance" = Some op ->
        cells !! "Impressions" = Some imp ->
        cells !! "Members reached" = Some mem ->
        (ExtractDateRangeFormatError (extract_discovery_data cells) literal cause
         <-> DateRangeFormatError (parse_date_range (str op)) literal cause)
        /\ (DateRangeFormatError (parse_date_range (str op)) literal cause ->
            literal = str op))
  /\ DateRangeFormatError (parse_date_range "bad-format") "bad-format"
       (expected_format "bad-format").
Proof.
  split; [| split].
  - intros s segments. unfold DateRangeFormatError, returns.
    pose proof (parse_date_range_cases s) as H. fold segments in H.
    destruct segments as [| s0 [| s1 [| s2 l]]] eqn:Eseg.
    1,2,4: (rewrite H; split; [right; eauto | split];
            [ split; [intros _; left; simpl; lia | eauto]
            | intros cause Hc; injection Hc as <-; left; split; [simpl; lia | reflexivity] ]).
    destruct (strptime_mdY (strip s0)) as [a | e0] eqn:E0;
      [destruct (strptime_mdY (strip s1)) as [b | e1] eqn:E1 |]; rewrite H.
    + split; [left; eauto | split; [split |]].
      * intros [c Hc]. discriminate.
      * intros [Hl | (t0 & t1 & Ht & Hor)]; [simpl in Hl; lia |].
        injection Ht as <- <-. rewrite E0, E1 in Hor.
        destruct Hor as [Hn | Hn]; exfalso; apply Hn; eauto.
      * intros c Hc. discriminate.
    + split; [right; eauto | split; [split |]].
      * intros _. right. exists s0, s1. split; [reflexivity |].
        right. rewrite E1. intros [? ?]. discriminate.
      * eauto.
      * intros c Hc. injection Hc as <-. right. exists s1, e1.
        split; [set_solver | split; [exact E1 | reflexivity]].
    + split; [right; eauto | split; [split |]].
      * intros _. right. exists s0, s1. split; [reflexivity |].
        left. rewrite E0. intros [? ?]. discriminate.
      * eauto.
      * intros c Hc. injection Hc as <-. right. exists s0, e0.
        split; [set_solver | split; [exact E0 | reflexivity]].
  - intros cells op imp mem literal cause Hop Himp Hmem.
    unfold ExtractDateRangeFormatError, DateRangeFormatError.
    rewrite (extract_present _ _ _ _ Hop Himp Hmem). split.
    + apply extract_body_date_error.
    + intros H. pose proof (parse_date_range_cases (str op)) as Hc.
      repeat case_match; rewrite Hc in H; try discriminate; congruence.
  - reflexivity.
Qed.

Lemma extract_body_not_missing op imp mem missing :
  extract_body op imp mem <> Raise (ValueError (missing_required_fields missing)).
Proof.
  unfold extract_body. intros H.
  apply reraise_ValueError_inv in H as [(m & _ & Hm) | (_ & Hne)].
  - discriminate.
  - eapply Hne. reflexivity.
Qed.

Lemma required_present_lookup (cells : gmap string value) :
  set_Forall (fun field => field ∈ dom cells) required_fields ->
  exists op imp mem,
    cells !! "Overall Performance" = Some op
    /\ cells !! "Impressions" = Some imp
    /\ cells !! "Members reached" = Some mem.
Proof.
  intros H. apply required_fields_spec in H as (H1 & H2 & H3).
  apply elem_of_dom in H1 as [op Hop], H2 as [imp Himp], H3 as [mem Hmem]. eauto 10.
Qed.

Lemma elem_of_required_fields label :
  label ∈ required_fields
  <-> label = "Overall Performance" \/ label = "Impressions" \/ label = "Members reached".
Proof.
  unfold required_fields. rewrite !elem_of_union, !elem_of_singleton. tauto.
Qed.

(** C5.  [extract_discovery_data] fails with the missing-fields error if
    and only if one of the three required labels is not a key of the
    mapping; the set the error names holds a label exactly when the label
    is required and absent; a label present with the value [None] is not
    in it; the required labels are the three of the specification. *)
Theorem C5_missing_field_error (cells : gmap string value) :
  ((exists missing, MissingFieldError (extract_discovery_data cells) missing)
   <-> exists label, label ∈ required_fields /\ cells !! label = None)
  /\ (forall missing, MissingFieldError (extract_discovery_data cells) missing ->
      forall label,
        label ∈ missing <-> label ∈ required_fields /\ cells !! label = None)
  /\ (forall label missing,
        cells !! label = Some VNone ->
        MissingFieldError (extract_discovery_data cells) missing ->
        label ∉ missing)
  /\ (forall label,
        label ∈ required_fields
        <-> label = "Overall Performance" \/ label = "Impressions"
            \/ label = "Members reached").
Proof.
  unfold MissingFieldError.
  assert (Hnames : forall missing,
            extract_discovery_data cells
            = Raise (ValueError (missing_required_fields missing)) ->
            forall label,
              label ∈ missing <-> label ∈ required_fields /\ cells !! label = None).
  { intros missing H label.
    destruct (decide (set_Forall (fun field => field ∈ dom cells) required_fields))
      as [Hall | Hnot].
    - destruct (required_present_lookup _ Hall) as (op & imp & mem & Hop & Himp & Hmem).
      rewrite (extract_present _ _ _ _ Hop Himp Hmem) in H.
      exfalso. eapply extract_body_not_missing. exact H.
    - rewrite (extract_absent _ Hnot) in H. injection H as <-.
      rewrite elem_of_difference, not_elem_of_dom. reflexivity. }
  split; [| split; [exact Hnames | split; [| exact elem_of_required_fields]]].
  - split.
    + intros [missing H].
      destruct (decide (set_Forall (fun field => field ∈ dom cells) required_fields))
        as [Hall | Hnot].
      * destruct (required_present_lookup _ Hall) as (op & imp & mem & Hop & Himp & Hmem).
        rewrite (extract_present _ _ _ _ Hop Himp Hmem) in H.
        exfalso. eapply extract_body_not_missing. exact H.
      * apply not_set_Forall_Exists in Hnot as (label & Hin & Hout); [| apply _].
        exists label. split; [exact Hin |]. apply not_elem_of_dom. exact Hout.
    + intros (label & Hin & Hnone). eexists. apply extract_absent.
      intros Hall. apply not_elem_of_dom in Hnone. apply Hnone, Hall, Hin.
  - intros label missing Hsome H Hin.
    apply (Hnames _ H) in Hin as [_ Hnone]. congruence.
Qed.

(** C2, as amended.  When [extract_discovery_data] returns, its
    [start_date] and [end_date] are the dates read from the first and the
    second segment of the "Overall Performance" text, in that order: no
    order between them is checked. *)
Theorem C2_dates_in_source_order :
  forall (cells : gmap string value) (d : DiscoveryData),
    extract_discovery_data cells = Ok d ->
    exists op s0 s1,
      cells !! "Overall Performance" = Some op
      /\ split " - " (strip (str op)) = [s0; s1]
      /\ strptime_mdY (strip s0) = Ok (start_date d)
      /\ strptime_mdY (strip s1) = Ok (end_date d).
Proof.
  intros cells d H.
  destruct (decide (set_Forall (fun field => field ∈ dom cells) required_fields))
    as [Hall | Hnot].
  2:{ rewrite (extract_absent _ Hnot) in H. discriminate. }
  destruct (required_present_lookup _ Hall) as (op & imp & mem & Hop & Himp & Hmem).
  rewrite (extract_present _ _ _ _ Hop Himp Hmem) in H.
  unfold extract_body in H. apply reraise_ValueError_Ok in H.
  pose proof (parse_date_range_cases (str op)) as Hc.
  exists op.
  destruct (split " - " (strip (str op))) as [| s0 [| s1 [| s2 l]]];
    try (rewrite Hc in H; discriminate).
  exists s0, s1. split; [exact Hop | split; [reflexivity |]].
  destruct (strptime_mdY (strip s0)) as [a | e0];
    [destruct (strptime_mdY (strip s1)) as [b | e1] |];
    rewrite Hc in H; try discriminate.
  simpl in H.
  destruct (parse_integer_value imp); simpl in H; [| discriminate].
  destruct (parse_integer_value mem); simpl in H; [| discriminate].
  injection H as <-. simpl. split; reflexivity.
Qed.

Lemma parse_integer_value_Ok v n :
  parse_integer_value v = Ok n ->
  exists v' f,
    v' = match v with VStr s => VStr (strip (remove_char "," s)) | _ => v end
    /\ float v' = Ok f /\ int_of_float f = Ok n.
Proof.
  unfold parse_integer_value.
  set (v' := match v with VStr s => VStr (strip (remove_char "," s)) | _ => v end).
  intros H. exists v'.
  destruct (float v') as [f | e] eqn:Ef; simpl in H.
  - exists f. split; [reflexivity | split; [reflexivity |]].
    destruct (int_of_float f) as [k | [m | m | m | m]]; simpl in H;
      try discriminate; exact H.
  - destruct e; discriminate.
Qed.

Lemma parse_integer_value_of_float v f n :
  float (match v with VStr s => VStr (strip (remove_char "," s)) | _ => v end) = Ok f ->
  int_of_float f = Ok n ->
  parse_integer_value v = Ok n.
Proof. intros Hf Hn. unfold parse_integer_value. rewrite Hf. simpl. rewrite Hn. reflexivity. Qed.

Lemma magnitude_trunc_bounds m e :
  0 <= magnitude_trunc m e
  /\ if 0 <=? e then magnitude_trunc m e = Zpos m * 2 ^ e
     else magnitude_trunc m e * 2 ^ (- e) <= Zpos m
          < (magnitude_trunc m e + 1) * 2 ^ (- e).
Proof.
  unfold magnitude_trunc. destruct (0 <=? e) eqn:E.
  - apply Z.leb_le in E. split; [| reflexivity].
    apply Z.mul_nonneg_nonneg; [lia | apply Z.pow_nonneg; lia].
  - apply Z.leb_gt in E.
    assert (Hd : 0 < 2 ^ (- e)) by (apply Z.pow_pos_nonneg; lia).
    split; [apply Z.div_pos; lia |].
    pose proof (Z.mul_div_le (Zpos m) (2 ^ (- e)) Hd).
    pose proof (Z.mul_succ_div_gt (Zpos m) (2 ^ (- e)) Hd).
    lia.
Qed.

(** C4.  [parse_integer_value] gives 857000 on the text ["857,000"], on
    the float 857000.0 and on the text ["857000"]; on a text it returns
    [n] exactly when the text without its commas, stripped, reads as a
    float whose truncation is [n]; [int] of a finite float truncates
    towards zero; and on its own output it returns that output again
    (float cells holding well-formed binary64 numbers). *)
Theorem C4_integer_coercion :
  (parse_integer_value (VStr "857,000") = Ok 857000
   /\ parse_integer_value (VFloat float_857000) = Ok 857000
   /\ parse_integer_value (VStr "857000") = Ok 857000)
  /\ (forall s n,
        parse_integer_value (VStr s) = Ok n
        <-> exists f, float_of_str (strip (remove_char "," s)) = Ok f
                      /\ int_of_float f = Ok n)
  /\ (forall sign m e n,
        int_of_float (S754_finite sign m e) = Ok n ->
        n = cond_Zopp sign (Z.abs n)
        /\ if 0 <=? e then Z.abs n = Zpos m * 2 ^ e
           else Z.abs n * 2 ^ (- e) <= Zpos m < (Z.abs n + 1) * 2 ^ (- e))
  /\ (forall v n,
        valid_value v ->
        parse_integer_value v = Ok n ->
        parse_integer_value (VInt n) = Ok n).
Proof.
  split; [| split; [| split]].
  - repeat split; vm_compute; reflexivity.
  - intros s n. split.
    + intros H. apply parse_integer_value_Ok in H as (v' & f & -> & Hf & Hn).
      exists f. split; assumption.
    + intros (f & Hf & Hn). eapply parse_integer_value_of_float; eassumption.
  - intros sign m e n H. simpl in H. injection H as <-.
    fold (magnitude_trunc m e).
    pose proof (magnitude_trunc_bounds m e) as [H0 Hb].
    assert (Ha : Z.abs (cond_Zopp sign (magnitude_trunc m e)) = magnitude_trunc m e)
      by (destruct sign; simpl; lia).
    rewrite Ha. split; [reflexivity | exact Hb].
  - intros v n Hv H.
    apply parse_integer_value_Ok in H as (v' & f & -> & Hf & Hn).
    assert (Hfits : fits f = true).
    { eapply float_fits; [| exact Hf]. destruct v; simpl; trivial. }
    destruct (int_of_float_round_trip f n Hfits Hn) as (g & Hg & Hgn).
    eapply (parse_integer_value_of_float (VInt n)); [exact Hg | exact Hgn].
Qed.

(** C4 at the text [" 1,234.9 "]: coerced to 1234, which coerces to
    itself. *)
Lemma C4_integer_coercion_witness :
  valid_value (VStr " 1,234.9 ")
  /\ parse_integer_value (VStr " 1,234.9 ") = Ok 1234
  /\ parse_integer_value (VInt 1234) = Ok 1234.
Proof.
  split; [exact I |]. split; [vm_compute; reflexivity |].
  apply (proj2 (proj2 (proj2 C4_integer_coercion)) (VStr " 1,234.9 ") 1234).
  - exact I.
  - vm_compute. reflexivity.
Defined.

(* ===================================================================== *)
(** * Part XI: top_posts_parser.py, the extraction *)
(* ===================================================================== *)

(** The loops are the folds of their bodies over the rows they reach. *)
Lemma engagement_loop_rows ws rows posts :
  engagement_loop ws rows posts
  = (E ← engagement_rows ws rows; Ok (fold_left seed_engagement E posts)).
Proof.
  revert posts. induction rows as [| row_idx rest IH]; intros posts; [reflexivity |].
  simpl engagement_loop. simpl engagement_rows.
  destruct (is_None (cell ws row_idx 1)), (is_None (cell ws row_idx 2)),
    (is_None (cell ws row_idx 3)); simpl; try reflexivity; try apply IH;
    (destruct (count_of_cell (cell ws row_idx 3)) as [n | e]; simpl; [| reflexivity]);
    rewrite IH; destruct (engagement_rows ws rest); reflexivity.
Qed.

Lemma impression_loop_rows ws rows posts :
  impression_loop ws rows posts
  = (I ← impression_rows ws rows; Ok (fold_left merge_impression I posts)).
Proof.
  revert posts. induction rows as [| row_idx rest IH]; intros posts; [reflexivity |].
  simpl impression_loop. simpl impression_rows.
  destruct (is_None (cell ws row_idx 5)), (is_None (cell ws row_idx 7));
    simpl; try reflexivity; try apply IH;
    (destruct (count_of_cell (cell ws row_idx 7)) as [n | e]; simpl; [| reflexivity]);
    rewrite IH; destruct (impression_rows ws rest); reflexivity.
Qed.

Lemma parse_top_posts_rows_views ws :
  parse_top_posts_rows ws
  = (E ← engagement_rows ws (data_rows ws);
     I ← impression_rows ws (data_rows ws);
     Ok (sort_by_engagements (dict_values (merge_views E I)))).
Proof.
  unfold parse_top_posts_rows. rewrite engagement_loop_rows.
  destruct (engagement_rows ws (data_rows ws)) as [E | e]; simpl; [| reflexivity].
  rewrite impression_loop_rows.
  destruct (impression_rows ws (data_rows ws)) as [I | e]; reflexivity.
Qed.

Lemma last_engagement_snoc u E u' d e :
  last_engagement u (E ++ [(u', d, e)])
  = if decide (u' = u) then Some (d, e) else last_engagement u E.
Proof. unfold last_engagement. rewrite fold_left_app. reflexivity. Qed.

Lemma last_impression_snoc u I u' i :
  last_impression u (I ++ [(u', i)])
  = if decide (u' = u) then Some i else last_impression u I.
Proof. unfold last_impression. rewrite fold_left_app. reflexivity. Qed.

Lemma seeded_get u E :
  dict_get u (fold_left seed_engagement E [])
  = match last_engagement u E with
    | Some (d, e) =>
        Some {| url := u; publish_date := d; engagements := e; impressions := Int 0 |}
    | None => None
    end.
Proof.
  induction E as [| [[u' d] e] E IH] using rev_ind; [reflexivity |].
  rewrite fold_left_app, last_engagement_snoc. simpl fold_left.
  unfold seed_engagement at 1. rewrite dict_get_set.
  destruct (decide (u' = u)) as [-> | Hne]; [reflexivity | exact IH].
Qed.

Lemma merge_views_get u E I :
  dict_get u (merge_views E I)
  = match last_engagement u E, last_impression u I with
    | Some (d, e), Some i =>
        Some {| url := u; publish_date := d; engagements := e; impressions := i |}
    | Some (d, e), None =>
        Some {| url := u; publish_date := d; engagements := e; impressions := Int 0 |}
    | None, Some i =>
        Some {| url := u; publish_date := ""; engagements := Int 0; impressions := i |}
    | None, None => None
    end.
Proof.
  unfold merge_views.
  induction I as [| [u' i] I IH] using rev_ind.
  - simpl. rewrite seeded_get. destruct (last_engagement u E) as [[d e] |]; reflexivity.
  - rewrite fold_left_app, last_impression_snoc. simpl fold_left.
    set (posts := fold_left merge_impression I (fold_left seed_engagement E [])) in *.
    unfold merge_impression.
    destruct (decide (u' = u)) as [-> | Hne].
    + rewrite IH.
      destruct (last_engagement u E) as [[d e] |], (last_impression u I) as [j |];
        rewrite dict_get_set_eq; reflexivity.
    + destruct (dict_get u' posts); rewrite dict_get_set;
        (destruct (decide (u' = u)); [contradiction | exact IH]).
Qed.

Lemma keyed_by_url_set k p posts :
  keyed_by_url posts -> url p = k -> keyed_by_url (dict_set k p posts).
Proof.
  intros [Hnd Hk] Hp. split; [apply dict_keys_set_NoDup, Hnd |].
  intros k' p' Hin. apply elem_of_dict_set in Hin as [Hin | Hin].
  - injection Hin as -> ->. exact Hp.
  - apply Hk, Hin.
Qed.

Lemma keyed_by_url_seed posts row :
  keyed_by_url posts -> keyed_by_url (seed_engagement posts row).
Proof.
  destruct row as [[u d] e]. intros H. apply keyed_by_url_set; [exact H | reflexivity].
Qed.

Lemma keyed_by_url_merge posts row :
  keyed_by_url posts -> keyed_by_url (merge_impression posts row).
Proof.
  destruct row as [u i]. intros H. unfold merge_impression.
  destruct (dict_get u posts) as [p |] eqn:E.
  - apply keyed_by_url_set; [exact H |]. simpl.
    apply H, dict_get_elem_of, E.
  - apply keyed_by_url_set; [exact H | reflexivity].
Qed.

Lemma keyed_by_url_fold {R} (f : list (string * post) -> R -> list (string * post))
    (rows : list R) posts :
  (forall posts row, keyed_by_url posts -> keyed_by_url (f posts row)) ->
  keyed_by_url posts -> keyed_by_url (fold_left f rows posts).
Proof.
  intros Hf. revert posts. induction rows as [| r rows IH]; intros posts H; simpl.
  - exact H.
  - apply IH, Hf, H.
Qed.

Lemma keyed_by_url_merge_views E I : keyed_by_url (merge_views E I).
Proof.
  unfold merge_views.
  apply keyed_by_url_fold; [apply keyed_by_url_merge |].
  apply keyed_by_url_fold; [apply keyed_by_url_seed |].
  split; [constructor | intros k p H; inversion H].
Qed.

Lemma keyed_by_url_values posts :
  keyed_by_url posts -> map url (dict_values posts) = dict_keys posts.
Proof.
  intros [_ Hk]. unfold dict_values, dict_keys.
  induction posts as [| [k p] posts IH]; [reflexivity |]. simpl. f_equal.
  - apply Hk. apply list_elem_of_here.
  - apply IH. intros k' p' H. apply Hk. apply list_elem_of_further, H.
Qed.


Lemma elem_of_dict_get {V} k (v : V) d :
  NoDup (dict_keys d) -> (k, v) ∈ d -> dict_get k d = Some v.
Proof.
  induction d as [| [k0 v0] d IH]; simpl; intros Hnd Hin; [inversion Hin |].
  apply NoDup_cons in Hnd as [Hk0 Hnd].
  apply elem_of_cons in Hin as [Hin | Hin].
  - injection Hin as -> ->. destruct (decide (k0 = k0)); congruence.
  - destruct (decide (k0 = k)) as [-> | Hne]; [| apply IH; assumption].
    exfalso. apply Hk0. unfold dict_keys. apply list_elem_of_fmap.
    exists (k, v). split; [reflexivity | exact Hin].
Qed.





Lemma parse_top_posts_rows_inv ws l :
  parse_top_posts_rows ws = Ok l ->
  exists E I,
    engagement_rows ws (data_rows ws) = Ok E
    /\ impression_rows ws (data_rows ws) = Ok I
    /\ l = sort_by_engagements (dict_values (merge_views E I)).
Proof.
  rewrite parse_top_posts_rows_views.
  destruct (engagement_rows ws (data_rows ws)) as [E | e]; [| discriminate].
  destruct (impression_rows ws (data_rows ws)) as [I | e]; [| discriminate].
  simpl. intros H. injection H as <-. eauto.
Qed.

Lemma sort_by_engagements_Permutation l : Permutation (sort_by_engagements l) l.
Proof. apply sort_reverse_Permutation. Qed.

Lemma elem_of_merged E I p :
  p ∈ sort_by_engagements (dict_values (merge_views E I)) ->
  dict_get (url p) (merge_views E I) = Some p.
Proof.
  intros Hin. rewrite sort_by_engagements_Permutation in Hin.
  apply elem_of_dict_values in Hin as [k Hin].
  destruct (keyed_by_url_merge_views E I) as [Hnd Hk].
  rewrite (Hk _ _ Hin). apply elem_of_dict_get; assumption.
Qed.

Lemma parse_top_posts_sheet_inv wb l :
  parse_top_posts_sheet wb = Ok l ->
  exists ws, dict_get "TOP POSTS" wb = Some ws /\ parse_top_posts_rows ws = Ok l.
Proof.
  unfold parse_top_posts_sheet, sheet.
  destruct (dict_get "TOP POSTS" wb) as [ws |]; simpl; [| discriminate].
  destruct (parse_top_posts_rows ws) as [l' | e] eqn:E; simpl; [| discriminate].
  intros H. injection H as <-. eauto.
Qed.

(** C1, as amended.  The extraction returns the sorted values of the
    dictionary built from the engagement rows and then the impression
    rows, and in that dictionary the record of a URL has the publish date
    and engagements of its last engagement row (the empty text and 0 when
    it has none) and the impressions of its last impression row (0 when it
    has none): in this scan order neither view overwrites a field the
    other supplied. *)
Theorem C1_merge_engagement_then_impression :
  (forall ws l, parse_top_posts_rows ws = Ok l ->
     exists E I,
       engagement_rows ws (data_rows ws) = Ok E
       /\ impression_rows ws (data_rows ws) = Ok I
       /\ l = sort_by_engagements (dict_values (merge_views E I)))
  /\ (forall E I u,
        dict_get u (merge_views E I)
        = match last_engagement u E, last_impression u I with
          | Some (d, e), Some i =>
              Some {| url := u; publish_date := d; engagements := e; impressions := i |}
          | Some (d, e), None =>
              Some {| url := u; publish_date := d; engagements := e;
                      impressions := Int 0 |}
          | None, Some i =>
              Some {| url := u; publish_date := ""; engagements := Int 0;
                      impressions := i |}
          | None, None => None
          end).
Proof. split; [exact parse_top_posts_rows_inv | exact (fun E I u => merge_views_get u E I)]. Qed.


(** ** The order of the keys *)

Lemma dict_keys_set_see {V} k (v : V) d :
  dict_keys (dict_set k v d) = see (dict_keys d) k.
Proof.
  rewrite dict_keys_set. unfold see, dict_contains.
  destruct (dict_get k d) eqn:E.
  - destruct (decide (k ∈ dict_keys d)) as [| Hn]; [reflexivity |].
    apply dict_get_None_keys in Hn. congruence.
  - apply dict_get_None_keys in E. destruct (decide (k ∈ dict_keys d)); [contradiction |].
    reflexivity.
Qed.

Lemma dict_keys_seeded E posts :
  dict_keys (fold_left seed_engagement E posts)
  = fold_left see (map (fun row => row.1.1) E) (dict_keys posts).
Proof.
  revert posts. induction E as [| [[u d] e] E IH]; intros posts; [reflexivity |].
  simpl. rewrite IH. unfold seed_engagement. rewrite dict_keys_set_see. reflexivity.
Qed.

Lemma dict_keys_merged I posts :
  dict_keys (fold_left merge_impression I posts)
  = fold_left see (map fst I) (dict_keys posts).
Proof.
  revert posts. induction I as [| [u i] I IH]; intros posts; [reflexivity |].
  simpl. rewrite IH. f_equal. unfold merge_impression.
  destruct (dict_get u posts); apply dict_keys_set_see.
Qed.

Lemma dict_keys_merge_views E I :
  dict_keys (merge_views E I)
  = first_seen (map (fun row => row.1.1) E ++ map fst I).
Proof.
  unfold merge_views, first_seen. rewrite dict_keys_merged, dict_keys_seeded.
  rewrite fold_left_app. reflexivity.
Qed.

Lemma no_nan_ok (l : list post) :
  no_nan l -> Forall (fun p => xreal_is_nan (number_value (engagements p)) = false) l.
Proof.
  unfold no_nan. intros H. eapply Forall_impl; [exact H |].
  intros p Hp. rewrite <- number_is_nan_value. exact Hp.
Qed.

(** C8 away from a NaN.  Without a NaN among the engagements the list
    returned is sorted in descending order, records with equal engagements
    stand in the order of the dictionary, and the dictionary lists the
    URLs in the order in which the two scans met them first. *)
Theorem sorted_and_stable_without_nan :
  forall ws l,
    parse_top_posts_rows ws = Ok l ->
    no_nan l ->
    StronglySorted not_below l
    /\ exists E I,
         engagement_rows ws (data_rows ws) = Ok E
         /\ impression_rows ws (data_rows ws) = Ok I
         /\ Permutation l (dict_values (merge_views E I))
         /\ (forall z, z ∈ l ->
               List.filter (same_engagements z) l
               = List.filter (same_engagements z) (dict_values (merge_views E I)))
         /\ map url (dict_values (merge_views E I))
            = first_seen (map (fun row => row.1.1) E ++ map fst I).
Proof.
  intros ws l H Hnan.
  apply parse_top_posts_rows_inv in H as (E & I & HE & HI & ->).
  set (posts_list := dict_values (merge_views E I)) in *.
  pose proof (sort_by_engagements_Permutation posts_list) as Hperm.
  set (ltb := fun x y : post => number_ltb (engagements x) (engagements y)).
  set (ok := fun p : post => xreal_is_nan (number_value (engagements p)) = false).
  assert (Hasym : forall a b, ltb a b = true -> ltb b a = false)
    by (intros a b; apply xreal_ltb_asym).
  assert (Hneg : forall a b c, ok b -> ltb a b = false -> ltb b c = false
                               -> ltb a c = false)
    by (intros a b c; apply xreal_ltb_negtrans).
  assert (Hok : Forall ok posts_list).
  { rewrite <- Hperm. apply no_nan_ok, Hnan. }
  split.
  - apply (sort_reverse_sorted ltb ok Hasym Hneg). exact Hok.
  - exists E, I. split; [exact HE | split; [exact HI | split; [exact Hperm | split]]].
    + intros z Hz. apply (sort_reverse_filter ltb).
      intros a b Ha Hb. unfold same_engagements in Ha, Hb.
      apply andb_prop in Ha as [Ha1 Ha2], Hb as [Hb1 Hb2].
      apply negb_true_iff in Ha1, Ha2, Hb1, Hb2.
      apply (Hneg a z b); [| exact Ha2 | exact Hb1].
      eapply Forall_forall in Hnan; [| exact Hz].
      unfold ok. rewrite <- number_is_nan_value. exact Hnan.
    + unfold posts_list.
      rewrite keyed_by_url_values by apply keyed_by_url_merge_views.
      apply dict_keys_merge_views.
Qed.

(* ===================================================================== *)
(** * Part XII: top_posts_parser.py, get_top_posts *)
(* ===================================================================== *)

Lemma set_ranks_frame (l : list loc) :
  forall (h h' : gmap loc object) (idx : Z),
    set_ranks h l idx = Ok h' ->
    (forall q, q ∉ l -> h' !! q = h !! q)
    /\ (forall q, q ∈ l ->
          exists d d',
            h !! q = Some (Dict d) /\ h' !! q = Some (Dict d')
            /\ (forall k, k <> "rank" -> d' !! k = d !! k)
            /\ exists i, d' !! "rank" = Some (VInt i)
                         /\ idx <= i < idx + Z.of_nat (List.length l)).
Proof.
  induction l as [| p rest IH]; intros h h' idx H.
  - simpl in H. injection H as <-. split; [reflexivity |].
    intros q Hq. inversion Hq.
  - simpl in H. destruct (h !! p) as [[items | d] |] eqn:Hp; try discriminate.
    apply IH in H as [Hout Hin]. split.
    + intros q Hq. apply not_elem_of_cons in Hq as [Hne Hq].
      rewrite (Hout q Hq). apply lookup_insert_ne. congruence.
    + intros q Hq. destruct (decide (q ∈ rest)) as [Hr | Hr].
      * destruct (Hin q Hr) as (d1 & d' & H1 & H' & Hk & i & Hi & Hb).
        destruct (decide (q = p)) as [-> | Hne].
        -- rewrite lookup_insert_eq in H1. injection H1 as <-.
           exists d, d'. split; [exact Hp | split; [exact H' | split]].
           ++ intros k Hk'. rewrite (Hk k Hk'). apply lookup_insert_ne. congruence.
           ++ exists i. split; [exact Hi |]. simpl List.length. lia.
        -- rewrite lookup_insert_ne in H1 by congruence.
           exists d1, d'. split; [exact H1 | split; [exact H' | split; [exact Hk |]]].
           exists i. split; [exact Hi |]. simpl List.length. lia.
      * apply elem_of_cons in Hq as [-> | Hq]; [| contradiction].
        exists d, (<["rank" := VInt idx]> d).
        split; [exact Hp | split; [| split]].
        -- rewrite (Hout p Hr). apply lookup_insert_eq.
        -- intros k Hk. apply lookup_insert_ne. congruence.
        -- exists idx. split; [apply lookup_insert_eq |]. simpl List.length. lia.
Qed.

Lemma set_ranks_distinct (l : list loc) :
  forall (h : gmap loc object) (idx : Z),
    NoDup l ->
    (forall p, p ∈ l -> exists d, h !! p = Some (Dict d)) ->
    exists h',
      set_ranks h l idx = Ok h'
      /\ forall (i : nat) p, l !! i = Some p ->
           exists d, h !! p = Some (Dict d)
                     /\ h' !! p = Some (Dict (<["rank" := VInt (idx + Z.of_nat i)]> d)).
Proof.
  induction l as [| p rest IH]; intros h idx Hnd Hd.
  - exists h. split; [reflexivity |]. intros i p Hi. discriminate.
  - apply NoDup_cons in Hnd as [Hp Hnd].
    destruct (Hd p) as [d Hpd]; [apply list_elem_of_here |].
    simpl. rewrite Hpd.
    destruct (IH (<[p := Dict (<["rank" := VInt idx]> d)]> h) (idx + 1) Hnd)
      as (h' & Hrun & Hranks).
    { intros q Hq. rewrite lookup_insert_ne by (intros ->; contradiction).
      apply Hd. apply list_elem_of_further, Hq. }
    exists h'. split; [exact Hrun |].
    intros [| i] q Hi; simpl in Hi.
    + injection Hi as <-. exists d. split; [exact Hpd |].
      destruct (set_ranks_frame _ _ _ _ Hrun) as [Hout _].
      rewrite (Hout p Hp), lookup_insert_eq, Z.add_0_r. reflexivity.
    + destruct (Hranks i q Hi) as (d1 & H1 & H').
      assert (Hne : p <> q).
      { intros ->. apply Hp. eapply list_elem_of_lookup_2. exact Hi. }
      rewrite lookup_insert_ne in H1 by exact Hne.
      exists d1. split; [exact H1 |]. rewrite H'. do 4 f_equal. lia.
Qed.

Lemma fresh_not_in_heap (h : gmap loc object) : h !! fresh (dom h) = None.
Proof. apply not_elem_of_dom. apply is_fresh. Qed.

Lemma get_top_posts_inv h posts h' top_posts :
  get_top_posts h posts = Ok (h', top_posts) ->
  exists items,
    h !! posts = Some (List items)
    /\ top_posts = fresh (dom h)
    /\ set_ranks (<[top_posts := List (take 6 items)]> h) (take 6 items) 1 = Ok h'.
Proof.
  unfold get_top_posts.
  destruct (h !! posts) as [[items | d] |]; try discriminate.
  destruct (set_ranks _ _ _) as [h1 | e] eqn:E; simpl; [| discriminate].
  intros H. injection H as <- <-. eauto.
Qed.


(** The loop of [get_top_posts] on a list of records, with repetitions or
    without: every record of the list ends with the rank of its last
    position in the list, its other keys untouched. *)
Lemma set_ranks_last (l : list loc) :
  forall (h : gmap loc object) (idx : Z),
    (forall p, p ∈ l -> exists d, h !! p = Some (Dict d)) ->
    exists h',
      set_ranks h l idx = Ok h'
      /\ forall p, p ∈ l ->
           exists d (j : nat),
             h !! p = Some (Dict d)
             /\ l !! j = Some p
             /\ (forall j' : nat, (j < j')%nat -> l !! j' <> Some p)
             /\ h' !! p = Some (Dict (<["rank" := VInt (idx + Z.of_nat j)]> d)).
Proof.
  induction l as [| p rest IH]; intros h idx Hd.
  - exists h. split; [reflexivity |]. intros p Hp. inversion Hp.
  - destruct (Hd p) as [d Hpd]; [apply list_elem_of_here |].
    simpl. rewrite Hpd.
    destruct (IH (<[p := Dict (<["rank" := VInt idx]> d)]> h) (idx + 1))
      as (h' & Hrun & Hlast).
    { intros q Hq. destruct (decide (q = p)) as [-> | Hne].
      - rewrite lookup_insert_eq. eauto.
      - rewrite lookup_insert_ne by congruence.
        apply Hd, list_elem_of_further, Hq. }
    exists h'. split; [exact Hrun |].
    intros q Hq. destruct (decide (q ∈ rest)) as [Hr | Hr].
    + destruct (Hlast q Hr) as (d1 & j & H1 & Hj & Hafter & H').
      assert (Hafter' : forall j' : nat, (S j < j')%nat -> (p :: rest) !! j' <> Some q).
      { intros [| j'] Hlt; [lia |]. simpl. apply Hafter. lia. }
      destruct (decide (q = p)) as [-> | Hne].
      * rewrite lookup_insert_eq in H1. injection H1 as <-.
        exists d, (S j). split; [exact Hpd |]. split; [exact Hj |].
        split; [exact Hafter' |].
        rewrite H', insert_insert_eq. do 4 f_equal. lia.
      * rewrite lookup_insert_ne in H1 by congruence.
        exists d1, (S j). split; [exact H1 |]. split; [exact Hj |].
        split; [exact Hafter' |].
        rewrite H'. do 4 f_equal. lia.
    + apply elem_of_cons in Hq as [-> | Hq]; [| contradiction].
      exists d, 0%nat. split; [exact Hpd |]. split; [reflexivity |]. split.
      * intros [| j'] Hlt; [lia |]. simpl. intros Hj. apply Hr.
        eapply list_elem_of_lookup_2. exact Hj.
      * destruct (set_ranks_frame _ _ _ _ Hrun) as [Hout _].
        rewrite (Hout p Hr), lookup_insert_eq, Z.add_0_r. reflexivity.
Qed.

(** C3, as amended.  On a list whose first six entries are records,
    [get_top_posts] returns a list object that did not exist before,
    holding exactly the first [min 6 (length items)] entries in their
    order, and leaves the list it was given as it was.  Every record among
    these entries has its rank set to its last position among them (from
    1), its other keys untouched; hence, when the entries are pairwise
    distinct, the [i]-th of them has rank [i].  On the four records with
    engagements 40, 40, 10 and 5 all four are returned, with ranks 1, 2, 3
    and 4. *)
Theorem C3_top_posts_ranks :
  (forall (h : gmap loc object) (posts : loc) (items : list loc),
      h !! posts = Some (List items) ->
      (forall p, p ∈ take 6 items -> exists d, h !! p = Some (Dict d)) ->
      exists h' top_posts,
        get_top_posts h posts = Ok (h', top_posts)
        /\ h !! top_posts = None
        /\ h' !! top_posts = Some (List (take 6 items))
        /\ h' !! posts = Some (List items)
        /\ List.length (take 6 items) = Nat.min 6 (List.length items)
        /\ (forall p, p ∈ take 6 items ->
              exists d (j : nat),
                h !! p = Some (Dict d)
                /\ take 6 items !! j = Some p
                /\ (forall j' : nat, (j < j')%nat -> take 6 items !! j' <> Some p)
                /\ h' !! p = Some (Dict (<["rank" := VInt (Z.of_nat j + 1)]> d)))
        /\ (NoDup (take 6 items) ->
            forall (i : nat) p, take 6 items !! i = Some p ->
              exists d,
                h !! p = Some (Dict d)
                /\ h' !! p = Some (Dict (<["rank" := VInt (Z.of_nat i + 1)]> d))))
  /\ (exists h' top_posts,
        get_top_posts heap_four 0%nat = Ok (h', top_posts)
        /\ h' !! top_posts = Some (List [1; 2; 3; 4]%nat)
        /\ rank_of h' 1%nat = Some (VInt 1) /\ rank_of h' 2%nat = Some (VInt 2)
        /\ rank_of h' 3%nat = Some (VInt 3) /\ rank_of h' 4%nat = Some (VInt 4)).
Proof.
  split.
  - intros h posts items Hposts Hdicts.
    unfold get_top_posts. rewrite Hposts.
    set (r := fresh (dom h)).
    assert (Hr : h !! r = None) by apply fresh_not_in_heap.
    assert (Hne : forall p, p ∈ take 6 items -> r <> p).
    { intros p Hp ->. destruct (Hdicts p Hp) as [d Hd]. congruence. }
    destruct (set_ranks_last (take 6 items) (<[r := List (take 6 items)]> h) 1)
      as (h' & Hrun & Hlast).
    { intros p Hp. rewrite lookup_insert_ne by (apply Hne, Hp). apply Hdicts, Hp. }
    exists h', r. rewrite Hrun. split; [reflexivity |].
    destruct (set_ranks_frame _ _ _ _ Hrun) as [Hout _].
    assert (Hgen : forall p, p ∈ take 6 items ->
              exists d (j : nat),
                h !! p = Some (Dict d)
                /\ take 6 items !! j = Some p
                /\ (forall j' : nat, (j < j')%nat -> take 6 items !! j' <> Some p)
                /\ h' !! p = Some (Dict (<["rank" := VInt (Z.of_nat j + 1)]> d))).
    { intros p Hp. destruct (Hlast p Hp) as (d & j & Hd & Hj & Hafter & Hd').
      rewrite lookup_insert_ne in Hd by (apply Hne, Hp).
      exists d, j. split; [exact Hd |]. split; [exact Hj |].
      split; [exact Hafter |]. rewrite Hd'. do 4 f_equal. lia. }
    split; [exact Hr |]. split; [| split; [| split; [| split]]].
    + rewrite Hout; [apply lookup_insert_eq |].
      intros Hin. eapply Hne; [exact Hin | reflexivity].
    + assert (Hrp : r <> posts) by (intros E; rewrite E in Hr; congruence).
      rewrite Hout; [rewrite lookup_insert_ne by exact Hrp; exact Hposts |].
      intros Hin. destruct (Hdicts posts Hin) as [d Hd]. congruence.
    + apply length_take.
    + exact Hgen.
    + intros Hnd i p Hi.
      assert (Hp : p ∈ take 6 items) by (eapply list_elem_of_lookup_2; exact Hi).
      destruct (Hgen p Hp) as (d & j & Hd & Hj & _ & Hd').
      assert (j = i) by (eapply NoDup_lookup; eassumption).
      subst j. exists d. split; assumption.
  - eexists _, _. split; [vm_compute; reflexivity |].
    repeat split; vm_compute; reflexivity.
Qed.

(** C3, as amended, at the heap with the list [[a, b, a]]: the list
    returned is new and holds the three entries, and the record [a] has
    the rank of its last position, 3. *)
Lemma C3_ranks_witness :
  heap_aba !! 0%nat = Some (List [1; 2; 1]%nat)
  /\ exists h' top_posts,
       get_top_posts heap_aba 0%nat = Ok (h', top_posts)
       /\ heap_aba !! top_posts = None
       /\ h' !! top_posts = Some (List [1; 2; 1]%nat)
       /\ h' !! 0%nat = Some (List [1; 2; 1]%nat)
       /\ rank_of heap_aba 1%nat = None
       /\ rank_of h' 1%nat = Some (VInt 3)
       /\ rank_of h' 2%nat = Some (VInt 2).
Proof.
  assert (Hposts : heap_aba !! 0%nat = Some (List [1; 2; 1]%nat))
    by (vm_compute; reflexivity).
  split; [exact Hposts |].
  destruct (proj1 C3_top_posts_ranks heap_aba 0%nat [1; 2; 1]%nat Hposts)
    as (h' & top_posts & Hrun & Hnew & Hlist & Hsame & _ & Hlast & _).
  - intros p Hp. simpl in Hp.
    repeat (apply elem_of_cons in Hp as [-> | Hp];
            [eexists; vm_compute; reflexivity |]).
    inversion Hp.
  - exists h', top_posts.
    split; [exact Hrun |]. split; [exact Hnew |]. split; [exact Hlist |].
    split; [exact Hsame |]. split; [vm_compute; reflexivity |]. split.
    + destruct (Hlast 1%nat) as (d & j & Hd & Hj & Hafter & Hd').
      { simpl. apply list_elem_of_here. }
      assert (j = 2%nat) as ->.
      { destruct j as [| [| [| j]]]; simpl in Hj; try discriminate; [| reflexivity].
        exfalso. apply (Hafter 2%nat); [lia | reflexivity]. }
      unfold rank_of. rewrite Hd'. apply lookup_insert_eq.
    + destruct (Hlast 2%nat) as (d & j & Hd & Hj & Hafter & Hd').
      { simpl. apply list_elem_of_further, list_elem_of_here. }
      assert (j = 1%nat) as ->.
      { destruct j as [| [| [| j]]]; simpl in Hj; try discriminate. reflexivity. }
      unfold rank_of. rewrite Hd'. apply lookup_insert_eq.
Defined.

(** C3 fails on a list holding one record twice: both entries returned
    are that record, whose rank is 2, so the first entry does not carry
    rank 1.  And the slice is of six, not of three: of the four records
    with engagements 40, 40, 10 and 5 the fourth is returned too, with
    rank 4. *)
Lemma C3_aliased_records_share_rank :
  (exists h' top_posts,
     get_top_posts heap_alias 0%nat = Ok (h', top_posts)
     /\ h' !! top_posts = Some (List [1; 1]%nat)
     /\ rank_of h' 1%nat = Some (VInt 2))
  /\ (exists h' top_posts,
        get_top_posts heap_four 0%nat = Ok (h', top_posts)
        /\ h' !! top_posts = Some (List [1; 2; 3; 4]%nat)
        /\ rank_of h' 4%nat = Some (VInt 4)).
Proof.
  split; eexists _, _; (split; [vm_compute; reflexivity |]);
    split; vm_compute; reflexivity.
Qed.


(* ===================================================================== *)
(** * Part XIII: the sample inputs, evaluated *)
(* ===================================================================== *)

(** C1 fails: on the sheet with one post in both views, scanning the
    engagement view first gives impressions 500, scanning the impression
    view first gives impressions 0: seeding an entry resets the impressions
    the other view supplied. *)
Lemma C1_scan_order_matters :
  (posts ← engagement_loop sheet_one_post (data_rows sheet_one_post) [];
   impression_loop sheet_one_post (data_rows sheet_one_post) posts)
  = Ok [("https://x/1",
         {| url := "https://x/1"; publish_date := "2024-12-01";
            engagements := Float float_12; impressions := Float float_500 |})]
  /\ (posts ← impression_loop sheet_one_post (data_rows sheet_one_post) [];
      engagement_loop sheet_one_post (data_rows sheet_one_post) posts)
     = Ok [("https://x/1",
            {| url := "https://x/1"; publish_date := "2024-12-01";
               engagements := Float float_12; impressions := Int 0 |})]
  /\ dict_get "https://x/1"
       (merge_views [("https://x/1", "2024-12-01", Float float_12)]
                    [("https://x/1", Float float_500)])
     <> dict_get "https://x/1"
          (merge_views_swapped [("https://x/1", "2024-12-01", Float float_12)]
                               [("https://x/1", Float float_500)]).
Proof.
  split; [vm_compute; reflexivity |]. split; [vm_compute; reflexivity |].
  vm_compute. discriminate.
Qed.

(** C1, as amended, at the sheet with one post in both views. *)
Lemma C1_merge_witness :
  parse_top_posts_rows sheet_one_post = Ok [merged_post]
  /\ exists E I,
       engagement_rows sheet_one_post (data_rows sheet_one_post) = Ok E
       /\ impression_rows sheet_one_post (data_rows sheet_one_post) = Ok I
       /\ [merged_post] = sort_by_engagements (dict_values (merge_views E I)).
Proof.
  split; [vm_compute; reflexivity |].
  apply (proj1 C1_merge_engagement_then_impression sheet_one_post [merged_post]).
  vm_compute. reflexivity.
Defined.

(** C2 fails: the range "11/10/2025 - 11/11/2024" is accepted and the
    start date is after the end date. *)
Lemma C2_reversed_range_is_accepted :
  exists d,
    extract_discovery_data reversed_cells = Ok d
    /\ date_leb (start_date d) (end_date d) = false.
Proof. eexists. split; vm_compute; reflexivity. Qed.

(** C2, as amended, at the block of the end-to-end example. *)
Lemma C2_dates_witness :
  extract_discovery_data sample_cells = Ok sample_summary
  /\ exists op s0 s1,
       sample_cells !! "Overall Performance" = Some op
       /\ split " - " (strip (str op)) = [s0; s1]
       /\ strptime_mdY (strip s0) = Ok (start_date sample_summary)
       /\ strptime_mdY (strip s1) = Ok (end_date sample_summary).
Proof.
  split; [vm_compute; reflexivity |].
  apply (C2_dates_in_source_order sample_cells sample_summary).
  vm_compute. reflexivity.
Defined.

(** C5 at the block without its impressions row. *)
Lemma C5_missing_field_witness :
  MissingFieldError (extract_discovery_data cells_without_impressions)
    (required_fields ∖ dom cells_without_impressions)
  /\ forall label,
       label ∈ required_fields ∖ dom cells_without_impressions
       <-> label ∈ required_fields /\ cells_without_impressions !! label = None.
Proof.
  assert (H : MissingFieldError (extract_discovery_data cells_without_impressions)
                (required_fields ∖ dom cells_without_impressions))
    by (vm_compute; reflexivity).
  split; [exact H |].
  exact (proj1 (proj2 (C5_missing_field_error cells_without_impressions)) _ H).
Defined.

(** C6 at the block whose date range is ["bad-format"]. *)
Lemma C6_bad_format_witness :
  bad_format_cells !! "Overall Performance" = Some (VStr "bad-format")
  /\ ExtractDateRangeFormatError (extract_discovery_data bad_format_cells)
       "bad-format" (expected_format "bad-format").
Proof.
  split; [vm_compute; reflexivity |].
  apply (proj1 (proj1 (proj2 C6_date_range_format_error)
                  bad_format_cells (VStr "bad-format") (VFloat float_857000)
                  (VStr "297,771") "bad-format" (expected_format "bad-format")
                  ltac:(vm_compute; reflexivity) ltac:(vm_compute; reflexivity)
                  ltac:(vm_compute; reflexivity))).
  exact (proj2 (proj2 C6_date_range_format_error)).
Defined.



(** C8 on a sheet whose second engagements cell holds the text [nan]: the
    records are met with engagements 1.0, NaN, 2.0; no one is below its
    right neighbour, since every comparison with the NaN is false, so the
    sort returns them in this order: a record with engagements 1.0 stands
    before one with engagements 2.0 and the list is not in descending
    order. *)
Theorem C8_nan_breaks_descending_order :
  exists p1 p2 p3,
    parse_top_posts_rows sheet_nan = Ok [p1; p2; p3]
    /\ engagements p1 = Float float_1
    /\ engagements p2 = Float S754_nan
    /\ engagements p3 = Float float_2
    /\ Sorted not_below [p1; p2; p3]
    /\ number_ltb (engagements p1) (engagements p3) = true
    /\ ~ StronglySorted not_below [p1; p2; p3].
Proof.
  eexists _, _, _. split; [vm_compute; reflexivity |].
  repeat (split; [vm_compute; reflexivity |]).
  split; [repeat constructor |].
  split; [vm_compute; reflexivity |].
  intros Hs. apply StronglySorted_inv in Hs as [_ Hall].
  apply Forall_cons in Hall as [_ Hall]. apply Forall_cons in Hall as [H _].
  vm_compute in H. discriminate.
Qed.

(** The sorted and stable order at the sheet with three posts. *)
Lemma sorted_and_stable_witness :
  parse_top_posts_rows sheet_three_posts = Ok three_posts
  /\ no_nan three_posts
  /\ StronglySorted not_below three_posts.
Proof.
  assert (H : parse_top_posts_rows sheet_three_posts = Ok three_posts)
    by (vm_compute; reflexivity).
  assert (Hnan : no_nan three_posts) by (repeat constructor).
  split; [exact H | split; [exact Hnan |]].
  exact (proj1 (sorted_and_stable_without_nan sheet_three_posts three_posts H Hnan)).
Defined.


(** ** Further properties of the specification *)

(** The extraction fails with the sheet-not-found message, wrapped by the
    parser's own, when the workbook has no sheet of the expected name. *)
Theorem sheet_not_found_errors :
  forall wb : workbook,
    (dict_get "TOP POSTS" wb = None ->
     parse_top_posts_sheet wb
     = Raise (ValueError (failed_to_parse_top_posts_sheet (sheet_not_found "TOP POSTS"))))
    /\ (dict_get "DISCOVERY" wb = None ->
        parse_discovery_sheet wb
        = Raise (ValueError
                   (failed_to_parse_discovery_sheet (sheet_not_found "DISCOVERY")))).
Proof.
  intros wb. split; intros H.
  - unfold parse_top_posts_sheet, sheet. rewrite H. reflexivity.
  - unfold parse_discovery_sheet, sheet. rewrite H. reflexivity.
Qed.

(** The end-to-end example of the DISCOVERY block: the three rows are read
    into the label map and the map into the summary with the dates
    2024-11-11 and 2025-11-10 and the counters 857000 and 297771. *)
Theorem discovery_end_to_end :
  parse_discovery_sheet sample_workbook = Ok sample_cells
  /\ extract_discovery_data sample_cells = Ok sample_summary.
Proof. split; vm_compute; reflexivity. Qed.

(** The end-to-end example of the TOP POSTS sheet: the engagement row and
    the impression row of one URL merge into a single record. *)
Theorem top_posts_end_to_end :
  parse_top_posts_sheet sample_workbook = Ok [merged_post].
Proof. vm_compute. reflexivity. Qed.

(* ===================================================================== *)
(** * Part XIV: DiscoveryData.to_dict *)
(* ===================================================================== *)

Lemma ord_chr (n : Z) : 0 <= n < 256 -> ord (chr n) = n.
Proof.
  intros Hn. unfold ord, chr.
  rewrite N_ascii_embedding by lia. lia.
Qed.

Lemma digit_char_inj (a b : Z) :
  0 <= a < 10 -> 0 <= b < 10 -> digit_char a = digit_char b -> a = b.
Proof.
  intros Ha Hb Heq. unfold digit_char in Heq.
  apply (f_equal ord) in Heq.
  rewrite !ord_chr in Heq by lia. lia.
Qed.

Lemma two_digits_inj (a b : Z) :
  0 <= a < 100 -> 0 <= b < 100 -> two_digits a = two_digits b -> a = b.
Proof.
  intros Ha Hb Heq. unfold two_digits in Heq.
  injection Heq as H1 H0.
  apply digit_char_inj in H1, H0;
    Z.to_euclidean_division_equations; lia.
Qed.

Lemma four_digits_inj (a b : Z) :
  0 <= a < 10000 -> 0 <= b < 10000 -> four_digits a = four_digits b -> a = b.
Proof.
  intros Ha Hb Heq. unfold four_digits, two_digits in Heq.
  injection Heq as H3 H2 H1 H0.
  apply digit_char_inj in H3, H2, H1, H0;
    Z.to_euclidean_division_equations; lia.
Qed.

Lemma days_in_month_le (y m : Z) : days_in_month y m <= 31.
Proof.
  unfold days_in_month.
  destruct (m =? 2); [destruct (is_leap y); lia |].
  destruct ((m =? 4) || (m =? 6) || (m =? 9) || (m =? 11)); lia.
Qed.

Lemma isoformat_length (d : date) : String.length (isoformat d) = 10%nat.
Proof. reflexivity. Qed.

Lemma isoformat_inj (d1 d2 : date) :
  valid_date d1 -> valid_date d2 -> isoformat d1 = isoformat d2 -> d1 = d2.
Proof.
  intros (Hy1 & Hm1 & Hd1) (Hy2 & Hm2 & Hd2) Heq.
  pose proof (days_in_month_le (year d1) (month d1)).
  pose proof (days_in_month_le (year d2) (month d2)).
  destruct d1 as [y1 m1 d1], d2 as [y2 m2 d2]; simpl in *.
  unfold isoformat, four_digits, two_digits in Heq; simpl in Heq.
  injection Heq as Y3 Y2 Y1 Y0 M1 M0 D1 D0.
  assert (y1 = y2).
  { apply four_digits_inj; [lia | lia |].
    unfold four_digits, two_digits. congruence. }
  assert (m1 = m2).
  { apply two_digits_inj; [lia | lia |]. unfold two_digits. congruence. }
  assert (d1 = d2).
  { apply two_digits_inj; [lia | lia |]. unfold two_digits. congruence. }
  congruence.
Qed.

Lemma to_dict_lookup (d : DiscoveryData) :
  to_dict d !! "start_date" = Some (VStr (isoformat (start_date d)))
  /\ to_dict d !! "end_date" = Some (VStr (isoformat (end_date d)))
  /\ to_dict d !! "total_impressions" = Some (VInt (total_impressions d))
  /\ to_dict d !! "members_reached" = Some (VInt (members_reached d)).
Proof. unfold to_dict. repeat split; by simplify_map_eq. Qed.

(** [to_dict] loses nothing: two summaries with calendar dates and the same
    dictionary are the same summary, and the dictionary has exactly the
    four keys, the dates as ten-character texts. *)
Theorem to_dict_injective (a b : DiscoveryData) :
  valid_date (start_date a) -> valid_date (end_date a) ->
  valid_date (start_date b) -> valid_date (end_date b) ->
  (to_dict a = to_dict b -> a = b)
  /\ dom (to_dict a)
     = {[ "start_date"; "end_date"; "total_impressions"; "members_reached" ]}
  /\ (exists s e,
        to_dict a !! "start_date" = Some (VStr s)
        /\ to_dict a !! "end_date" = Some (VStr e)
        /\ String.length s = 10%nat /\ String.length e = 10%nat).
Proof.
  intros Ha1 Ha2 Hb1 Hb2.
  destruct (to_dict_lookup a) as (As & Ae & Ai & Am).
  destruct (to_dict_lookup b) as (Bs & Be & Bi & Bm).
  split; [| split].
  - intros Heq. rewrite Heq in As, Ae, Ai, Am.
    assert (Hs : isoformat (start_date a) = isoformat (start_date b)) by congruence.
    assert (He : isoformat (end_date a) = isoformat (end_date b)) by congruence.
    apply isoformat_inj in Hs, He; try assumption.
    assert (total_impressions a = total_impressions b) by congruence.
    assert (members_reached a = members_reached b) by congruence.
    destruct a, b; simpl in *; congruence.
  - unfold to_dict. rewrite !dom_insert_L, dom_singleton_L. set_solver.
  - exists (isoformat (start_date a)), (isoformat (end_date a)).
    repeat split; assumption.
Qed.

(** The dictionary of the example's summary. *)
Lemma to_dict_injective_witness :
  valid_date (start_date sample_summary) /\ valid_date (end_date sample_summary)
  /\ dom (to_dict sample_summary)
     = {[ "start_date"; "end_date"; "total_impressions"; "members_reached" ]}
  /\ to_dict sample_summary !! "start_date" = Some (VStr "2024-11-11")
  /\ to_dict sample_summary !! "end_date" = Some (VStr "2025-11-10").
Proof.
  assert (Hs : valid_date (start_date sample_summary))
    by (unfold valid_date; simpl; repeat split; vm_compute; congruence).
  assert (He : valid_date (end_date sample_summary))
    by (unfold valid_date; simpl; repeat split; vm_compute; congruence).
  split; [exact Hs |]. split; [exact He |]. split.
  - exact (proj1 (proj2 (to_dict_injective sample_summary sample_summary
                           Hs He Hs He))).
  - split; reflexivity.
Defined.

(* ===================================================================== *)
(** * Part XV: the service and the routes *)
(* ===================================================================== *)

(** The metrics with every counter at zero and the given discovery block. *)
Lemma get_engagement_metrics_cases (store : file_data_store) (file_id : string) :
  match store !! file_id with
  | Some data =>
      match data !! "discovery_data" with
      | Some (ParserDiscoveryData p) | Some (SchemaDiscoveryData p) =>
          get_engagement_metrics store file_id
          = Returned {| total_likes := 0; total_comments := 0; total_shares := 0;
                        peak_engagement_time := None; top_performing_posts := [];
                        discovery_data := Some (to_dict p) |}
      | Some (Other v) =>
          if truthy v
          then get_engagement_metrics store file_id
               = Raised (AttributeError "start_date")
          else get_engagement_metrics store file_id
               = Returned {| total_likes := 0; total_comments := 0; total_shares := 0;
                             peak_engagement_time := None; top_performing_posts := [];
                             discovery_data := None |}
      | None =>
          get_engagement_metrics store file_id
          = Returned {| total_likes := 0; total_comments := 0; total_shares := 0;
                        peak_engagement_time := None; top_performing_posts := [];
                        discovery_data := None |}
      end
  | None =>
      get_engagement_metrics store file_id
      = Returned {| total_likes := 0; total_comments := 0; total_shares := 0;
                    peak_engagement_time := None; top_performing_posts := [];
                    discovery_data := None |}
  end.
Proof.
  unfold get_engagement_metrics, get_file_data, data_truthy.
  destruct (store !! file_id) as [data |] eqn:Hd; [| reflexivity].
  cbn beta iota.
  destruct (data !! "discovery_data") as [s |] eqn:Hs.
  - assert (Hne : data <> ∅) by (intros ->; rewrite lookup_empty in Hs; discriminate).
    rewrite bool_decide_eq_false_2 by exact Hne. cbn [negb].
    destruct s as [p | p | v]; cbn [stored_truthy]; try reflexivity.
    destruct (truthy v); reflexivity.
  - destruct (negb (bool_decide (data = ∅))); reflexivity.
Qed.

Lemma get_discovery_data_cases (store : file_data_store) (file_id : string) :
  get_discovery_data store file_id
  = match store !! file_id with
    | Some data =>
        match data !! "discovery_data" with
        | Some (ParserDiscoveryData p) | Some (SchemaDiscoveryData p) => Some (Model p)
        | Some (Other VNone) => None
        | Some (Other v) => Some (AsStored v)
        | None => None
        end
    | None => None
    end.
Proof.
  unfold get_discovery_data, get_file_data, data_truthy.
  destruct (store !! file_id) as [data |] eqn:Hd; [| reflexivity].
  cbn beta iota.
  destruct (data !! "discovery_data") as [s |] eqn:Hs.
  - assert (Hne : data <> ∅) by (intros ->; rewrite lookup_empty in Hs; discriminate).
    rewrite bool_decide_eq_false_2 by exact Hne. cbn [negb].
    destruct s as [[] | p | v]; reflexivity.
  - destruct (negb (bool_decide (data = ∅))); reflexivity.
Qed.

(** The three routes fail with status 500 only.  In particular the 404 of
    the discovery route never leaves it: it is raised inside the [try]
    and caught by [except Exception], so a file without discovery data is
    answered with a 500 whose detail is the text of the 404. *)
Theorem routes_fail_with_500_only (store : file_data_store) (file_id : string) :
  (forall e, get_discovery store file_id = Raised e ->
     get_discovery_data store file_id = None
     /\ e = HTTPException 500
              (str_of (HTTPException 404
                         (literal "Discovery data not found for this file"))))
  /\ (forall a, get_discovery store file_id = Returned a
                <-> get_discovery_data store file_id = Some a)
  /\ (forall e, get_engagement store file_id = Raised e ->
        e = HTTPException 500 (str_of (AttributeError "start_date")))
  /\ (forall m, get_engagement store file_id = Returned m
                <-> get_engagement_metrics store file_id = Returned m)
  /\ get_demographics store file_id
     = Returned {| job_titles := []; locations := []; industries := [] |}.
Proof.
  unfold get_discovery, get_engagement, get_demographics, try_except_500.
  split; [| split; [| split; [| split]]].
  - intros e He.
    destruct (get_discovery_data store file_id); [discriminate |].
    split; congruence.
  - intros a. destruct (get_discovery_data store file_id); split; congruence.
  - intros e He.
    pose proof (get_engagement_metrics_cases store file_id) as Hc.
    destruct (store !! file_id) as [data |];
      [destruct (data !! "discovery_data") as [[p | p | v] |];
       [| | destruct (truthy v) |] |];
      rewrite Hc in He; congruence.
  - intros m. destruct (get_engagement_metrics store file_id); split; congruence.
  - reflexivity.
Qed.

(** What the service answers, from what the store holds.
    [get_discovery_data] is [None] exactly when the file is unknown, its
    dictionary has no discovery entry, or the entry is [None] (the test
    that the dictionary is not empty adds nothing).  [get_engagement_metrics]
    raises exactly when the entry is a true object other than a summary, and
    what it returns has every counter at zero, no post, and the discovery
    block of [to_dict] exactly when [get_discovery_data] hands out a model. *)
Theorem service_answers (store : file_data_store) (file_id : string) :
  (get_discovery_data store file_id = None
   <-> store !! file_id = None
       \/ exists data, store !! file_id = Some data
            /\ (data !! "discovery_data" = None
                \/ data !! "discovery_data" = Some (Other VNone)))
  /\ (forall e, get_engagement_metrics store file_id = Raised e
        <-> e = AttributeError "start_date"
            /\ exists data v, store !! file_id = Some data
                 /\ data !! "discovery_data" = Some (Other v) /\ truthy v = true)
  /\ (forall m, get_engagement_metrics store file_id = Returned m ->
        total_likes m = 0 /\ total_comments m = 0 /\ total_shares m = 0
        /\ peak_engagement_time m = None /\ top_performing_posts m = []
        /\ forall block,
             discovery_data m = Some block
             <-> exists p, get_discovery_data store file_id = Some (Model p)
                           /\ block = to_dict p).
Proof.
  rewrite get_discovery_data_cases.
  pose proof (get_engagement_metrics_cases store file_id) as Hc.
  destruct (store !! file_id) as [data |] eqn:Hd.
  - destruct (data !! "discovery_data") as [[p | p | v] |] eqn:Hs.
    + split; [| split].
      * split; [discriminate |].
        intros [? | (d' & [= <-] & [? | ?])]; congruence.
      * intros e. rewrite Hc. split; [discriminate |].
        intros (_ & d' & v & [= <-] & ? & _). congruence.
      * intros m Hm. rewrite Hc in Hm. injection Hm as <-. simpl.
        repeat split; try reflexivity.
        -- intros [= <-]. eauto.
        -- intros (q & [= <-] & ->). reflexivity.
    + split; [| split].
      * split; [discriminate |].
        intros [? | (d' & [= <-] & [? | ?])]; congruence.
      * intros e. rewrite Hc. split; [discriminate |].
        intros (_ & d' & v & [= <-] & ? & _). congruence.
      * intros m Hm. rewrite Hc in Hm. injection Hm as <-. simpl.
        repeat split; try reflexivity.
        -- intros [= <-]. eauto.
        -- intros (q & [= <-] & ->). reflexivity.
    + destruct (truthy v) eqn:Ht.
      * split; [| split].
        -- split.
           ++ destruct v; try discriminate; intros _; right; eauto.
           ++ intros [? | (d' & [= <-] & [? | ?])]; try congruence.
              assert (v = VNone) by congruence. subst v. reflexivity.
        -- intros e. rewrite Hc. split.
           ++ intros [= <-]. split; [reflexivity |]. eauto.
           ++ intros (-> & _). reflexivity.
        -- intros m Hm. rewrite Hc in Hm. discriminate.
      * split; [| split].
        -- split.
           ++ destruct v; try discriminate; intros _; right; eauto.
           ++ intros [? | (d' & [= <-] & [? | ?])]; try congruence.
              assert (v = VNone) by congruence. subst v. reflexivity.
        -- intros e. rewrite Hc. split; [discriminate |].
           intros (_ & d' & v' & [= <-] & Hv & Ht').
           assert (v' = v) by congruence. congruence.
        -- intros m Hm. rewrite Hc in Hm. injection Hm as <-. simpl.
           repeat split; try reflexivity; try discriminate.
           intros (q & Hq & _). destruct v; discriminate.
    + split; [| split].
      * split; [| reflexivity]. intros _. right. eauto.
      * intros e. rewrite Hc. split; [discriminate |].
        intros (_ & d' & v & [= <-] & ? & _). congruence.
      * intros m Hm. rewrite Hc in Hm. injection Hm as <-. simpl.
        repeat split; try reflexivity; try discriminate.
        intros (q & Hq & _). discriminate.
  - split; [| split].
    + split; [| reflexivity]. intros _. left. reflexivity.
    + intros e. rewrite Hc. split; [discriminate |].
      intros (_ & d' & v & ? & _). congruence.
    + intros m Hm. rewrite Hc in Hm. injection Hm as <-. simpl.
      repeat split; try reflexivity; try discriminate.
      intros (q & Hq & _). discriminate.
Qed.

(** Storing and asking: once [store_file_data] has filed a dictionary whose
    discovery entry is the parser's summary [d], the service hands out the
    model with the fields of [d], the metrics carry [to_dict d], the
    discovery route returns the model, and every other file identifier is
    answered as before; a second [store_file_data] for the same identifier
    replaces the first. *)
Theorem stored_summary_is_served (store : file_data_store) (file_id : string)
    (data : gmap string stored) (d : DiscoveryData) :
  data !! "discovery_data" = Some (ParserDiscoveryData d) ->
  let store' := store_file_data store file_id data in
  get_file_data store' file_id = Some data
  /\ get_discovery_data store' file_id = Some (Model d)
  /\ get_discovery store' file_id = Returned (Model d)
  /\ (exists m, get_engagement store' file_id = Returned m
                /\ discovery_data m = Some (to_dict d))
  /\ (forall other, other <> file_id ->
        get_file_data store' other = get_file_data store other
        /\ get_discovery_data store' other = get_discovery_data store other
        /\ get_engagement_metrics store' other = get_engagement_metrics store other)
  /\ (forall data', store_file_data store' file_id data'
                    = store_file_data store file_id data').
Proof.
  intros Hs store'.
  assert (Hg : store' !! file_id = Some data) by apply lookup_insert_eq.
  assert (Hd : get_discovery_data store' file_id = Some (Model d)).
  { rewrite get_discovery_data_cases, Hg, Hs. reflexivity. }
  split; [exact Hg |]. split; [exact Hd |]. split; [| split; [| split]].
  - unfold get_discovery. rewrite Hd. reflexivity.
  - pose proof (get_engagement_metrics_cases store' file_id) as Hc.
    rewrite Hg, Hs in Hc. unfold get_engagement. rewrite Hc. simpl.
    eexists. split; reflexivity.
  - intros other Hne.
    assert (Ho : store' !! other = store !! other)
      by (apply lookup_insert_ne; congruence).
    split; [exact Ho |]. split.
    + rewrite !get_discovery_data_cases, Ho. reflexivity.
    + unfold get_engagement_metrics, get_file_data. rewrite Ho. reflexivity.
  - intros data'. apply insert_insert_eq.
Qed.

(** The store with the example's summary: its file is served, another one is not. *)
Lemma stored_summary_is_served_witness :
  get_file_data sample_store "file-1"
  = Some {[ "discovery_data" := ParserDiscoveryData sample_summary ]}
  /\ get_discovery sample_store "file-1" = Returned (Model sample_summary)
  /\ get_discovery sample_store "file-2"
     = Raised (HTTPException 500
                 (str_of (HTTPException 404
                            (literal "Discovery data not found for this file")))).
Proof.
  destruct (stored_summary_is_served ∅ "file-1"
              {[ "discovery_data" := ParserDiscoveryData sample_summary ]}
              sample_summary (lookup_singleton_eq _ _)) as (Hf & _ & Hd & _).
  split; [exact Hf |]. split; [exact Hd |]. reflexivity.
Defined.

(* ===================================================================== *)
(** * Part XVI: discovery_parser.py, further properties *)
(* ===================================================================== *)

Lemma make_date_valid (y m d : Z) (r : date) :
  make_date y m d = Ok r -> valid_date r.
Proof.
  unfold make_date.
  destruct ((1 <=? y) && (y <=? 9999) && (1 <=? m) && (m <=? 12)
            && (1 <=? d) && (d <=? days_in_month y m)) eqn:Hc; [| discriminate].
  intros [= <-]. unfold valid_date. simpl.
  repeat (apply andb_prop in Hc; destruct Hc as [Hc ?]). lia.
Qed.

Lemma strptime_mdY_valid (s : string) (r : date) :
  strptime_mdY s = Ok r -> valid_date r.
Proof.
  unfold strptime_mdY.
  destruct (match_mdY (list_ascii_of_string s)) as [| [[[m d] y] rest] l];
    [discriminate |].
  destruct rest; [| discriminate].
  apply make_date_valid.
Qed.

Lemma parse_date_range_Ok (s : string) (a b : date) :
  parse_date_range s = Ok (a, b) ->
  exists s0 s1,
    split " - " (strip s) = [s0; s1]
    /\ strptime_mdY (strip s0) = Ok a /\ strptime_mdY (strip s1) = Ok b.
Proof.
  intros H. pose proof (parse_date_range_cases s) as Hc.
  destruct (split " - " (strip s)) as [| s0 [| s1 [| s2 l]]];
    try (rewrite Hc in H; discriminate).
  exists s0, s1. split; [reflexivity |].
  destruct (strptime_mdY (strip s0)) as [a' | e0];
    [destruct (strptime_mdY (strip s1)) as [b' | e1] |];
    rewrite Hc in H; try discriminate.
  injection H as <- <-. split; reflexivity.
Qed.

Lemma parse_date_range_raises (s : string) (e : exn) :
  parse_date_range s = Raise e ->
  exists cause, e = ValueError (failed_to_parse_date_range s cause).
Proof.
  intros H. pose proof (parse_date_range_cases s) as Hc.
  destruct (split " - " (strip s)) as [| s0 [| s1 [| s2 l]]];
    try (rewrite Hc in H; injection H as <-; eauto).
  destruct (strptime_mdY (strip s0)) as [a' | e0];
    [destruct (strptime_mdY (strip s1)) as [b' | e1] |];
    rewrite Hc in H; try discriminate; injection H as <-; eauto.
Qed.

Lemma extract_discovery_data_Ok (cells : gmap string value) (d : DiscoveryData) :
  extract_discovery_data cells = Ok d ->
  exists op imp mem,
    cells !! "Overall Performance" = Some op
    /\ cells !! "Impressions" = Some imp
    /\ cells !! "Members reached" = Some mem
    /\ parse_date_range (str op) = Ok (start_date d, end_date d)
    /\ parse_integer_value imp = Ok (total_impressions d)
    /\ parse_integer_value mem = Ok (members_reached d).
Proof.
  intros H.
  destruct (decide (set_Forall (fun field => field ∈ dom cells) required_fields))
    as [Hall | Hnot].
  2:{ rewrite (extract_absent _ Hnot) in H. discriminate. }
  destruct (required_present_lookup _ Hall) as (op & imp & mem & Hop & Himp & Hmem).
  rewrite (extract_present _ _ _ _ Hop Himp Hmem) in H.
  unfold extract_body in H. apply reraise_ValueError_Ok in H.
  exists op, imp, mem. repeat (split; [assumption |]).
  destruct (parse_date_range (str op)) as [[a b] |]; simpl in H; [| discriminate].
  destruct (parse_integer_value imp); simpl in H; [| discriminate].
  destruct (parse_integer_value mem); simpl in H; [| discriminate].
  injection H as <-. simpl. repeat split; reflexivity.
Qed.

(** Every summary that [extract_discovery_data] returns has two dates of
    the calendar (year 1 to 9999, month 1 to 12, a day that the month has),
    and so has every pair that [parse_date_range] returns: [strptime]
    matched digits, and [date()] checked them. *)
Theorem extracted_dates_are_calendar_dates :
  (forall s a b, parse_date_range s = Ok (a, b) -> valid_date a /\ valid_date b)
  /\ (forall cells d,
        extract_discovery_data cells = Ok d ->
        valid_date (start_date d) /\ valid_date (end_date d)).
Proof.
  assert (Hp : forall s a b, parse_date_range s = Ok (a, b) ->
                             valid_date a /\ valid_date b).
  { intros s a b H.
    destruct (parse_date_range_Ok _ _ _ H) as (s0 & s1 & _ & Ha & Hb).
    split; eapply strptime_mdY_valid; eassumption. }
  split; [exact Hp |].
  intros cells d H.
  destruct (extract_discovery_data_Ok _ _ H) as (op & _ & _ & _ & _ & _ & Hd & _).
  exact (Hp _ _ _ Hd).
Qed.

(** The dates of the example's summary. *)
Lemma extracted_dates_witness :
  extract_discovery_data sample_cells = Ok sample_summary
  /\ valid_date (start_date sample_summary)
  /\ valid_date (end_date sample_summary).
Proof.
  assert (H : extract_discovery_data sample_cells = Ok sample_summary)
    by (vm_compute; reflexivity).
  split; [exact H |].
  exact (proj2 extracted_dates_are_calendar_dates sample_cells sample_summary H).
Defined.

(** *** What [extract_discovery_data] raises *)

Lemma float_of_int_raises (z : Z) (e : exn) :
  float_of_int z = Raise e -> e = OverflowError int_too_large_for_float.
Proof.
  unfold float_of_int.
  destruct (binary_normalize prec emax z 0 false); congruence.
Qed.

Lemma float_of_str_raises (s : string) (e : exn) :
  float_of_str s = Raise e -> e = ValueError (could_not_convert_to_float (VStr s)).
Proof.
  unfold float_of_str.
  destruct (drop_underscores _ _) as [l |]; [| congruence].
  destruct (parse_sign l) as [neg body].
  destruct (parse_special neg body); [discriminate |].
  destruct (parse_decimal neg body); congruence.
Qed.

Lemma float_raises (v : value) (e : exn) :
  float v = Raise e ->
  e = ValueError (could_not_convert_to_float v)
  \/ e = TypeError (could_not_convert_to_float v)
  \/ e = OverflowError int_too_large_for_float.
Proof.
  destruct v; simpl; intros H.
  - injection H as <-. auto.
  - apply float_of_int_raises in H. auto.
  - apply float_of_int_raises in H. auto.
  - discriminate.
  - apply float_of_str_raises in H. auto.
  - injection H as <-. auto.
Qed.

Lemma int_of_float_raises (f : spec_float) (e : exn) :
  int_of_float f = Raise e ->
  e = ValueError (cannot_convert_float_to_integer S754_nan)
  \/ exists s, e = OverflowError (cannot_convert_float_to_integer (S754_infinity s)).
Proof.
  destruct f; simpl; intros H; try discriminate; injection H as <-; eauto.
Qed.

Lemma parse_integer_value_failures (v : value) (e : exn) :
  parse_integer_value v = Raise e ->
  (exists raw cause, e = ValueError (failed_to_parse_integer raw cause))
  \/ e = OverflowError int_too_large_for_float
  \/ exists s, e = OverflowError (cannot_convert_float_to_integer (S754_infinity s)).
Proof.
  unfold parse_integer_value.
  set (v' := match v with VStr s => VStr (strip (remove_char "," s)) | _ => v end).
  destruct (float v') as [f | e0] eqn:Hf; simpl.
  - destruct (int_of_float f) as [n | e1] eqn:Hi; simpl; [discriminate |].
    destruct (int_of_float_raises _ _ Hi) as [-> | (s & ->)];
      intros [= <-]; eauto.
  - destruct (float_raises _ _ Hf) as [-> | [-> | ->]]; intros [= <-]; eauto.
Qed.

Lemma parse_integer_value_infinite (v : value) (s : bool) :
  float (match v with VStr t => VStr (strip (remove_char "," t)) | _ => v end)
  = Ok (S754_infinity s) ->
  parse_integer_value v
  = Raise (OverflowError (cannot_convert_float_to_integer (S754_infinity s))).
Proof. intros H. unfold parse_integer_value. rewrite H. reflexivity. Qed.

(** What [extract_discovery_data] raises: the [ValueError] for missing
    labels, a [ValueError] whose text starts with that of the [try]
    block and goes on with that of the date range or of an integer, or,
    against the docstring, an [OverflowError], which the [except
    ValueError] clauses let through: for an [int] too large for a float
    and for an infinite float.  An infinite count under [Impressions]
    (such as the text [inf]) does raise it when the date range is good. *)
Theorem extract_discovery_data_failures :
  (forall cells e,
      extract_discovery_data cells = Raise e ->
      e = ValueError (missing_required_fields (required_fields ∖ dom cells))
      \/ (exists literal cause,
            e = ValueError (failed_to_extract_discovery
                              (failed_to_parse_date_range literal cause)))
      \/ (exists raw cause,
            e = ValueError (failed_to_extract_discovery
                              (failed_to_parse_integer raw cause)))
      \/ e = OverflowError int_too_large_for_float
      \/ (exists s,
            e = OverflowError (cannot_convert_float_to_integer (S754_infinity s))))
  /\ (forall cells op imp mem s,
        cells !! "Overall Performance" = Some op ->
        cells !! "Impressions" = Some imp ->
        cells !! "Members reached" = Some mem ->
        returns (parse_date_range (str op)) ->
        float (match imp with VStr t => VStr (strip (remove_char "," t)) | _ => imp end)
        = Ok (S754_infinity s) ->
        extract_discovery_data cells
        = Raise (OverflowError
                   (cannot_convert_float_to_integer (S754_infinity s)))).
Proof.
  split.
  - intros cells e H.
    destruct (decide (set_Forall (fun field => field ∈ dom cells) required_fields))
      as [Hall | Hnot].
    2:{ rewrite (extract_absent _ Hnot) in H. left. congruence. }
    right.
    destruct (required_present_lookup _ Hall) as (op & imp & mem & Hop & Himp & Hmem).
    rewrite (extract_present _ _ _ _ Hop Himp Hmem) in H.
    unfold extract_body in H.
    destruct (parse_date_range (str op)) as [[a b] | e0] eqn:Hd; simpl in H.
    2:{ destruct (parse_date_range_raises _ _ Hd) as (cause & ->).
        simpl in H. injection H as <-. left. eauto. }
    right.
    destruct (parse_integer_value imp) as [i | e1] eqn:Hi; simpl in H.
    2:{ destruct (parse_integer_value_failures _ _ Hi)
          as [(raw & cause & ->) | [-> | (s & ->)]];
          simpl in H; injection H as <-; eauto. }
    destruct (parse_integer_value mem) as [r | e2] eqn:Hr; simpl in H;
      [discriminate |].
    destruct (parse_integer_value_failures _ _ Hr)
      as [(raw & cause & ->) | [-> | (s & ->)]];
      simpl in H; injection H as <-; eauto.
  - intros cells op imp mem s Hop Himp Hmem [[a b] Hd] Hf.
    rewrite (extract_present _ _ _ _ Hop Himp Hmem).
    unfold extract_body. rewrite Hd. simpl.
    rewrite (parse_integer_value_infinite _ _ Hf). reflexivity.
Qed.

(** The example's block with the text [inf] under [Impressions]. *)
Lemma extract_discovery_data_failures_witness :
  extract_discovery_data (<["Impressions" := VStr "inf"]> sample_cells)
  = Raise (OverflowError (cannot_convert_float_to_integer (S754_infinity false))).
Proof.
  apply (proj2 extract_discovery_data_failures
           (<["Impressions" := VStr "inf"]> sample_cells)
           (VStr "11/11/2024 - 11/10/2025") (VStr "inf") (VStr "297,771") false);
    try (vm_compute; reflexivity).
  eexists. vm_compute. reflexivity.
Defined.

(** *** Integers that [parse_integer_value] returns unchanged *)

Lemma parse_integer_value_int_exact (z a j : Z) :
  Z.abs z = a * 2 ^ j -> 0 <= j -> 0 <= a < 2 ^ 53 -> Z.abs z < 2 ^ 1024 ->
  parse_integer_value (VInt z) = Ok z.
Proof.
  intros Hz Hj Ha Hlt.
  destruct z as [| p | p].
  - vm_compute. reflexivity.
  - assert (Ha' : 0 < a) by (simpl in Hz; nia).
    destruct (float_of_int_exact false p a j) as (f & Hf & Hi); try lia.
    eapply parse_integer_value_of_float; [exact Hf | exact Hi].
  - assert (Ha' : 0 < a) by (simpl in Hz; nia).
    destruct (float_of_int_exact true p a j) as (f & Hf & Hi); try lia.
    eapply parse_integer_value_of_float; [exact Hf | exact Hi].
Qed.

Lemma pow2_decompose (n : Z) :
  0 < n <= 2 ^ 53 -> exists a j, n = a * 2 ^ j /\ 0 <= j /\ 0 <= a < 2 ^ 53.
Proof.
  intros Hn. destruct (Z.eq_dec n (2 ^ 53)) as [-> | Hne].
  - exists 1, 53. lia.
  - exists n, 0. lia.
Qed.

(** An [int] of magnitude at most [2^53], negative ones included, comes
    back from [parse_integer_value] unchanged, and so does every [int]
    with at most 53 significant bits below [2^1024]; beyond, the passage
    through [float] rounds: [2^53 + 1] comes back as [2^53]. *)
Theorem parse_integer_value_exact_on_small_ints :
  (forall z, Z.abs z <= 2 ^ 53 -> parse_integer_value (VInt z) = Ok z)
  /\ (forall z a j,
        Z.abs z = a * 2 ^ j -> 0 <= j -> 0 <= a < 2 ^ 53 -> Z.abs z < 2 ^ 1024 ->
        parse_integer_value (VInt z) = Ok z)
  /\ parse_integer_value (VInt (2 ^ 53 + 1)) = Ok (2 ^ 53).
Proof.
  split; [| split].
  - intros z Hz. destruct (Z.eq_dec z 0) as [-> | Hne]; [vm_compute; reflexivity |].
    destruct (pow2_decompose (Z.abs z)) as (a & j & Hd & Hj & Ha); [lia |].
    apply (parse_integer_value_int_exact z a j Hd Hj Ha).
    assert (2 ^ 53 < 2 ^ 1024) by (apply Z.pow_lt_mono_r; lia). lia.
  - exact parse_integer_value_int_exact.
  - vm_compute. reflexivity.
Qed.

(** A negative count. *)
Lemma parse_integer_value_exact_witness :
  Z.abs (-297771) <= 2 ^ 53 /\ parse_integer_value (VInt (-297771)) = Ok (-297771).
Proof.
  split; [vm_compute; congruence |].
  apply (proj1 parse_integer_value_exact_on_small_ints). vm_compute. congruence.
Defined.

(** *** Text that differs by commas and outer white space *)

Lemma lstrip_idem (s : string) : lstrip (lstrip s) = lstrip s.
Proof.
  induction s as [| c s IH]; [reflexivity |].
  simpl. destruct (isspace c) eqn:Hc; [exact IH |].
  simpl. rewrite Hc. reflexivity.
Qed.

Lemma rstrip_cons (c : ascii) (s : string) :
  rstrip (String c s)
  = if String.eqb (rstrip s) "" && isspace c then "" else String c (rstrip s).
Proof.
  simpl. destruct (rstrip s); simpl; [destruct (isspace c) |]; reflexivity.
Qed.

Lemma rstrip_idem (s : string) : rstrip (rstrip s) = rstrip s.
Proof.
  induction s as [| c s IH]; [reflexivity |].
  rewrite rstrip_cons.
  destruct (String.eqb (rstrip s) "" && isspace c) eqn:Hc; [reflexivity |].
  rewrite rstrip_cons, IH, Hc. reflexivity.
Qed.

Lemma rstrip_lstrip (s : string) : rstrip (lstrip s) = lstrip (rstrip s).
Proof.
  induction s as [| c s IH]; [reflexivity |].
  rewrite rstrip_cons. cbn [lstrip].
  destruct (isspace c) eqn:Hc.
  - rewrite IH. destruct (String.eqb_spec (rstrip s) "") as [-> | Hne]; simpl.
    + reflexivity.
    + rewrite Hc. reflexivity.
  - rewrite Bool.andb_false_r, rstrip_cons, Hc, Bool.andb_false_r.
    simpl. rewrite Hc. reflexivity.
Qed.

Lemma strip_idem (s : string) : strip (strip s) = strip s.
Proof.
  unfold strip.
  rewrite rstrip_lstrip, rstrip_idem, lstrip_idem. reflexivity.
Qed.

(** [c] does not occur in [s]. *)
Lemma remove_char_absent (c : ascii) (s : string) :
  Forall (fun d => Ascii.eqb c d = false) (list_ascii_of_string s) ->
  remove_char c s = s.
Proof.
  induction s as [| d s IH]; [reflexivity |].
  simpl. intros H. inversion H as [| ? ? Hd Hs]; subst.
  rewrite Hd, (IH Hs). reflexivity.
Qed.

Lemma remove_char_free (c : ascii) (s : string) :
  Forall (fun d => Ascii.eqb c d = false) (list_ascii_of_string (remove_char c s)).
Proof.
  induction s as [| d s IH]; [constructor |].
  simpl. destruct (Ascii.eqb c d) eqn:Hd; [exact IH |].
  simpl. constructor; assumption.
Qed.

Lemma lstrip_Forall (P : ascii -> Prop) (s : string) :
  Forall P (list_ascii_of_string s) -> Forall P (list_ascii_of_string (lstrip s)).
Proof.
  induction s as [| d s IH]; [trivial |].
  simpl. intros H. destruct (isspace d); [| exact H].
  apply IH. inversion H; assumption.
Qed.

Lemma rstrip_Forall (P : ascii -> Prop) (s : string) :
  Forall P (list_ascii_of_string s) -> Forall P (list_ascii_of_string (rstrip s)).
Proof.
  induction s as [| d s IH]; [trivial |].
  intros H. inversion H as [| ? ? Hd Hs]; subst.
  rewrite rstrip_cons.
  destruct (String.eqb (rstrip s) "" && isspace d); [constructor |].
  simpl. constructor; [exact Hd | exact (IH Hs)].
Qed.

Lemma strip_Forall (P : ascii -> Prop) (s : string) :
  Forall P (list_ascii_of_string s) -> Forall P (list_ascii_of_string (strip s)).
Proof. intros H. apply lstrip_Forall, rstrip_Forall, H. Qed.

Lemma clean_idem (s : string) :
  strip (remove_char "," (strip (remove_char "," s))) = strip (remove_char "," s).
Proof.
  rewrite (remove_char_absent "," (strip (remove_char "," s))).
  - apply strip_idem.
  - apply strip_Forall, remove_char_free.
Qed.

Lemma clean_remove (s : string) :
  strip (remove_char "," (remove_char "," s)) = strip (remove_char "," s).
Proof.
  rewrite (remove_char_absent "," (remove_char "," s)); [reflexivity |].
  apply remove_char_free.
Qed.

(** The cleaning of [parse_integer_value] is idempotent, and so is
    [strip]: a text, the text without its commas and the cleaned text give
    the same result, errors included (the message quotes the cleaned text);
    a date range and the stripped range are accepted alike, with the same
    dates, and rejected alike. *)
Theorem outer_blanks_and_commas_are_ignored (s : string) :
  parse_integer_value (VStr (strip (remove_char "," s)))
  = parse_integer_value (VStr s)
  /\ parse_integer_value (VStr (remove_char "," s)) = parse_integer_value (VStr s)
  /\ (forall r, parse_date_range (strip s) = Ok r <-> parse_date_range s = Ok r)
  /\ (returns (parse_date_range (strip s)) <-> returns (parse_date_range s)).
Proof.
  assert (Hd : forall r, parse_date_range (strip s) = Ok r <-> parse_date_range s = Ok r).
  { intros r. unfold parse_date_range.
    rewrite !reraise_ValueError_Ok, strip_idem.
    destruct (split " - " (strip s)) as [| s0 [| s1 [| s2 l]]];
      try (split; discriminate).
    reflexivity. }
  split; [| split; [| split]].
  - unfold parse_integer_value. rewrite clean_idem. reflexivity.
  - unfold parse_integer_value. rewrite clean_remove. reflexivity.
  - exact Hd.
  - split; intros [r Hr]; exists r; apply Hd; exact Hr.
Qed.

(** *** Every well-formed date range is accepted *)

Lemma digit_cases (k : Z) :
  0 <= k < 10 ->
  k = 0 \/ k = 1 \/ k = 2 \/ k = 3 \/ k = 4 \/ k = 5 \/ k = 6 \/ k = 7 \/ k = 8
  \/ k = 9.
Proof. lia. Qed.

Lemma is_digit_digit_char (k : Z) : 0 <= k < 10 -> is_digit (digit_char k) = true.
Proof.
  intros Hk. unfold is_digit, digit_char. rewrite ord_chr by lia.
  apply andb_true_intro. split; apply Z.leb_le; lia.
Qed.

Lemma digit_value_digit_char (k : Z) : 0 <= k < 10 -> digit_value (digit_char k) = k.
Proof. intros Hk. unfold digit_value, digit_char. rewrite ord_chr by lia. lia. Qed.

Lemma isspace_digit_char (k : Z) : 0 <= k < 10 -> isspace (digit_char k) = false.
Proof.
  intros Hk.
  destruct (digit_cases k Hk) as [-> | [-> | [-> | [-> | [-> | [-> | [-> | [-> | [-> | ->]]]]]]]]];
    reflexivity.
Qed.

Lemma append_cons (c : ascii) (s t : string) :
  String c s +:+ t = String c (s +:+ t).
Proof. reflexivity. Qed.

Lemma append_empty_l (t : string) : "" +:+ t = t.
Proof. reflexivity. Qed.

Lemma append_snoc (cur s : string) (c : ascii) :
  (cur +:+ String c EmptyString) +:+ s = cur +:+ String c s.
Proof.
  induction cur as [| d cur IH]; [reflexivity |].
  rewrite !append_cons, IH. reflexivity.
Qed.

Lemma append_empty_r (s : string) : s +:+ "" = s.
Proof.
  induction s as [| c s IH]; [reflexivity |]. rewrite append_cons, IH. reflexivity.
Qed.

Lemma split_scan_no_space (cur s t : string) :
  Forall (fun c => isspace c = false) (list_ascii_of_string s) ->
  split_scan " - " 0 cur (s +:+ t) = split_scan " - " 0 (cur +:+ s) t.
Proof.
  revert cur. induction s as [| c s IH]; intros cur H.
  - rewrite append_empty_l, append_empty_r. reflexivity.
  - inversion H as [| ? ? Hc Hs]; subst.
    rewrite append_cons. cbn [split_scan String.prefix].
    destruct (ascii_dec " " c) as [<- | Hne]; [discriminate Hc |].
    rewrite (IH _ Hs), append_snoc. reflexivity.
Qed.

Lemma split_range (A B : string) :
  Forall (fun c => isspace c = false) (list_ascii_of_string A) ->
  Forall (fun c => isspace c = false) (list_ascii_of_string B) ->
  split " - " (A +:+ " - " +:+ B) = [A; B].
Proof.
  intros HA HB. unfold split.
  rewrite (split_scan_no_space _ _ _ HA), append_empty_l.
  rewrite !append_cons, append_empty_l.
  cbn [split_scan String.prefix String.length Nat.pred].
  destruct (ascii_dec " " " ") as [_ | Hne]; [| congruence].
  destruct (ascii_dec "-" "-") as [_ | Hne]; [| congruence].
  replace (String.prefix "" B) with true by (destruct B; reflexivity).
  f_equal.
  rewrite <- (append_empty_r B) at 1.
  rewrite (split_scan_no_space _ _ _ HB), append_empty_l. reflexivity.
Qed.

Lemma rstrip_no_space (s : string) :
  Forall (fun c => isspace c = false) (list_ascii_of_string s) -> rstrip s = s.
Proof.
  induction s as [| c s IH]; [reflexivity |].
  intros H. inversion H as [| ? ? Hc Hs]; subst.
  rewrite rstrip_cons, (IH Hs), Hc, Bool.andb_false_r. reflexivity.
Qed.

Lemma rstrip_append (s t : string) :
  rstrip t = t -> t <> "" -> rstrip (s +:+ t) = s +:+ t.
Proof.
  intros Ht Hne. induction s as [| c s IH]; [exact Ht |].
  rewrite append_cons, rstrip_cons, IH.
  destruct (String.eqb_spec (s +:+ t) "") as [Heq | _]; [| reflexivity].
  destruct s; [rewrite append_empty_l in Heq; congruence |].
  rewrite append_cons in Heq. discriminate.
Qed.

Lemma lstrip_no_space (s : string) :
  Forall (fun c => isspace c = false) (list_ascii_of_string s) -> lstrip s = s.
Proof.
  destruct s as [| c s]; [reflexivity |].
  intros H. inversion H as [| ? ? Hc Hs]; subst. simpl. rewrite Hc. reflexivity.
Qed.

Lemma strip_no_space (s : string) :
  Forall (fun c => isspace c = false) (list_ascii_of_string s) -> strip s = s.
Proof.
  intros H. unfold strip. rewrite (rstrip_no_space _ H). apply lstrip_no_space, H.
Qed.

Lemma strip_range (A B : string) :
  Forall (fun c => isspace c = false) (list_ascii_of_string A) -> A <> "" ->
  Forall (fun c => isspace c = false) (list_ascii_of_string B) -> B <> "" ->
  strip (A +:+ " - " +:+ B) = A +:+ " - " +:+ B.
Proof.
  intros HA HAne HB HBne. unfold strip.
  rewrite rstrip_append.
  - destruct A as [| c A]; [congruence |].
    inversion HA as [| ? ? Hc Hs]; subst.
    rewrite append_cons. cbn [lstrip]. rewrite Hc. reflexivity.
  - apply (rstrip_append " - " B); [apply rstrip_no_space, HB | exact HBne].
  - discriminate.
Qed.

Lemma mdY_no_space (d : date) :
  valid_date d ->
  Forall (fun c => isspace c = false) (list_ascii_of_string (mdY d)) /\ mdY d <> "".
Proof.
  intros (Hy & Hm & Hd).
  pose proof (days_in_month_le (year d) (month d)).
  split; [| discriminate].
  unfold mdY, four_digits, two_digits. simpl.
  repeat constructor;
    try (apply isspace_digit_char; Z.to_euclidean_division_equations; lia).
Qed.

Lemma match_m_padded (m : Z) (r : list ascii) :
  1 <= m <= 12 ->
  exists others,
    match_m (list_ascii_of_string (two_digits m) ++ r)%list = (m, r) :: others.
Proof.
  intros Hm.
  assert (Hc : m = 1 \/ m = 2 \/ m = 3 \/ m = 4 \/ m = 5 \/ m = 6 \/ m = 7 \/ m = 8
               \/ m = 9 \/ m = 10 \/ m = 11 \/ m = 12) by lia.
  repeat (destruct Hc as [-> | Hc]; [eexists; reflexivity |]).
  subst m. eexists. reflexivity.
Qed.

Lemma match_d_padded (d : Z) (r : list ascii) :
  1 <= d <= 31 ->
  exists others,
    match_d (list_ascii_of_string (two_digits d) ++ r)%list = (d, r) :: others.
Proof.
  intros Hd.
  assert (Hc : d = 1 \/ d = 2 \/ d = 3 \/ d = 4 \/ d = 5 \/ d = 6 \/ d = 7 \/ d = 8
               \/ d = 9 \/ d = 10 \/ d = 11 \/ d = 12 \/ d = 13 \/ d = 14 \/ d = 15
               \/ d = 16 \/ d = 17 \/ d = 18 \/ d = 19 \/ d = 20 \/ d = 21 \/ d = 22
               \/ d = 23 \/ d = 24 \/ d = 25 \/ d = 26 \/ d = 27 \/ d = 28 \/ d = 29
               \/ d = 30 \/ d = 31) by lia.
  repeat (destruct Hc as [-> | Hc]; [eexists; reflexivity |]).
  subst d. eexists. reflexivity.
Qed.

Lemma match_Y_padded (y : Z) :
  0 <= y <= 9999 ->
  match_Y (list_ascii_of_string (four_digits y)) = [(y, [])].
Proof.
  intros Hy. unfold four_digits, two_digits. cbn [list_ascii_of_string match_Y].
  rewrite !is_digit_digit_char by (Z.to_euclidean_division_equations; lia).
  cbn [andb]. unfold digits_value. cbn [fold_left].
  rewrite !digit_value_digit_char by (Z.to_euclidean_division_equations; lia).
  do 2 f_equal. Z.to_euclidean_division_equations; lia.
Qed.

Lemma list_ascii_of_string_append (s t : string) :
  list_ascii_of_string (s +:+ t)
  = (list_ascii_of_string s ++ list_ascii_of_string t)%list.
Proof.
  induction s as [| c s IH]; [reflexivity |].
  rewrite append_cons. cbn [list_ascii_of_string app]. rewrite IH. reflexivity.
Qed.

Lemma match_char_same (c : ascii) (r : list ascii) : match_char c (c :: r) = [r].
Proof. unfold match_char. rewrite Ascii.eqb_refl. reflexivity. Qed.

Lemma list_bind_cons {A B} (f : A -> list B) (x : A) (l : list A) :
  (x :: l) ≫= f = (f x ++ (l ≫= f))%list.
Proof. reflexivity. Qed.

Lemma match_mdY_padded (d : date) :
  valid_date d ->
  exists others,
    match_mdY (list_ascii_of_string (mdY d))
    = (month d, day d, year d, []) :: others.
Proof.
  intros (Hy & Hm & Hd).
  pose proof (days_in_month_le (year d) (month d)) as Hle.
  unfold match_mdY, mdY.
  rewrite !list_ascii_of_string_append.
  change (list_ascii_of_string "/") with ["/"%char]. cbn [app].
  destruct (match_m_padded (month d)
              ("/"%char :: list_ascii_of_string (two_digits (day d))
               ++ "/"%char :: list_ascii_of_string (four_digits (year d)))%list Hm)
    as (om & ->).
  rewrite list_bind_cons. cbv beta iota.
  rewrite match_char_same, list_bind_cons. cbv beta iota.
  destruct (match_d_padded (day d)
              ("/"%char :: list_ascii_of_string (four_digits (year d)))
              ltac:(lia)) as (od & ->).
  rewrite list_bind_cons. cbv beta iota.
  rewrite match_char_same, list_bind_cons. cbv beta iota.
  rewrite (match_Y_padded (year d)) by lia.
  rewrite list_bind_cons. cbv beta iota. cbn [app].
  eexists. reflexivity.
Qed.

Lemma strptime_mdY_padded (d : date) :
  valid_date d -> strptime_mdY (mdY d) = Ok d.
Proof.
  intros Hv. destruct (match_mdY_padded d Hv) as (others & Hmatch).
  destruct Hv as (Hy & Hm & Hd).
  unfold strptime_mdY. rewrite Hmatch.
  unfold make_date.
  assert (Hc : (1 <=? year d) && (year d <=? 9999) && (1 <=? month d)
               && (month d <=? 12) && (1 <=? day d)
               && (day d <=? days_in_month (year d) (month d)) = true).
  { repeat (apply andb_true_intro; split); apply Z.leb_le; lia. }
  rewrite Hc. destruct d; reflexivity.
Qed.

(** Every range in the form [MM/DD/YYYY - MM/DD/YYYY] of two calendar
    dates is accepted, and the dates returned are the dates written; with
    such a range under [Overall Performance] and two counts that
    [parse_integer_value] accepts, [extract_discovery_data] returns the
    summary with these dates and counts. *)
Theorem well_formed_ranges_are_parsed (a b : date) :
  valid_date a -> valid_date b ->
  parse_date_range (date_range_text a b) = Ok (a, b)
  /\ forall (cells : gmap string value) imp mem i m,
       cells !! "Overall Performance" = Some (VStr (date_range_text a b)) ->
       cells !! "Impressions" = Some imp ->
       cells !! "Members reached" = Some mem ->
       parse_integer_value imp = Ok i ->
       parse_integer_value mem = Ok m ->
       extract_discovery_data cells
       = Ok {| start_date := a; end_date := b;
               total_impressions := i; members_reached := m |}.
Proof.
  intros Ha Hb.
  destruct (mdY_no_space a Ha) as [HA HAne].
  destruct (mdY_no_space b Hb) as [HB HBne].
  assert (Hp : parse_date_range (date_range_text a b) = Ok (a, b)).
  { pose proof (parse_date_range_cases (date_range_text a b)) as Hc.
    unfold date_range_text in Hc at 1.
    rewrite (strip_range _ _ HA HAne HB HBne), (split_range _ _ HA HB) in Hc.
    rewrite (strip_no_space _ HA), (strip_no_space _ HB) in Hc.
    rewrite (strptime_mdY_padded a Ha), (strptime_mdY_padded b Hb) in Hc.
    exact Hc. }
  split; [exact Hp |].
  intros cells imp mem i m Hop Himp Hmem Hi Hm.
  rewrite (extract_present _ _ _ _ Hop Himp Hmem).
  unfold extract_body. cbn [str]. rewrite Hp. cbn [mbind result_bind].
  rewrite Hi. cbn [mbind result_bind]. rewrite Hm. reflexivity.
Qed.

(** The range of the example. *)
Lemma well_formed_ranges_witness :
  valid_date (start_date sample_summary) /\ valid_date (end_date sample_summary)
  /\ date_range_text (start_date sample_summary) (end_date sample_summary)
     = "11/11/2024 - 11/10/2025"
  /\ parse_date_range "11/11/2024 - 11/10/2025"
     = Ok (start_date sample_summary, end_date sample_summary).
Proof.
  assert (Hs : valid_date (start_date sample_summary))
    by (unfold valid_date; simpl; repeat split; vm_compute; congruence).
  assert (He : valid_date (end_date sample_summary))
    by (unfold valid_date; simpl; repeat split; vm_compute; congruence).
  split; [exact Hs |]. split; [exact He |]. split; [reflexivity |].
  exact (proj1 (well_formed_ranges_are_parsed _ _ Hs He)).
Defined.

(** *** The decimal text of an integer is read back *)

Lemma is_digit_ord (c : ascii) : is_digit c = true -> 48 <= ord c <= 57.
Proof.
  unfold is_digit. intros H. apply andb_prop in H. destruct H as [H1 H2].
  apply Z.leb_le in H1, H2. lia.
Qed.

Lemma ascii_eqb_ord (c d : ascii) : ord c <> ord d -> Ascii.eqb c d = false.
Proof.
  intros H. destruct (Ascii.eqb_spec c d) as [-> | _]; [congruence | reflexivity].
Qed.

Lemma digit_not_float_space (c : ascii) : is_digit c = true -> float_isspace c = false.
Proof. intros H. apply is_digit_ord in H. unfold float_isspace. bool_cases. Qed.

Lemma digit_not_space (c : ascii) : is_digit c = true -> isspace c = false.
Proof. intros H. apply is_digit_ord in H. unfold isspace. bool_cases. Qed.

Lemma digit_lower (c : ascii) : is_digit c = true -> lower c = c.
Proof. intros H. apply is_digit_ord in H. unfold lower. bool_cases. Qed.

Lemma string_of_uint_digits (u : Decimal.uint) :
  Forall (fun c => is_digit c = true)
    (list_ascii_of_string (NilEmpty.string_of_uint u)).
Proof. induction u; simpl; constructor; try reflexivity; assumption. Qed.

Lemma digits_value_from (u : Decimal.uint) (acc : positive) :
  fold_left (fun acc c => 10 * acc + digit_value c)
    (list_ascii_of_string (NilEmpty.string_of_uint u)) (Zpos acc)
  = Zpos (Pos.of_uint_acc u acc).
Proof.
  revert acc. induction u as [| u IH | u IH | u IH | u IH | u IH | u IH | u IH
                              | u IH | u IH | u IH]; intros acc;
    [reflexivity | ..];
    cbn [NilEmpty.string_of_uint list_ascii_of_string fold_left Pos.of_uint_acc];
    rewrite <- IH; f_equal; unfold digit_value, ord; simpl; lia.
Qed.

Lemma digits_value_string_of_uint (u : Decimal.uint) :
  digits_value (list_ascii_of_string (NilEmpty.string_of_uint u))
  = Z.of_N (Pos.of_uint u).
Proof.
  unfold digits_value.
  induction u as [| u IH | u IH | u IH | u IH | u IH | u IH | u IH
                  | u IH | u IH | u IH];
    [reflexivity | exact IH | ..];
    cbn [NilEmpty.string_of_uint list_ascii_of_string fold_left Pos.of_uint];
    apply digits_value_from.
Qed.

Lemma float_lstrip_id (l : list ascii) :
  Forall (fun c => float_isspace c = false) l -> float_lstrip l = l.
Proof.
  destruct l as [| c l]; [reflexivity |].
  intros H. inversion H as [| ? ? Hc _]; subst. simpl. rewrite Hc. reflexivity.
Qed.

Lemma float_strip_id (l : list ascii) :
  Forall (fun c => float_isspace c = false) l -> float_strip l = l.
Proof.
  intros H. unfold float_strip.
  rewrite (float_lstrip_id l H), float_lstrip_id, rev_involutive; [reflexivity |].
  apply Forall_rev, H.
Qed.

Lemma drop_underscores_id (l : list ascii) :
  forall prev,
    Ascii.eqb prev underscore = false ->
    Forall (fun c => Ascii.eqb c underscore = false) l ->
    drop_underscores prev l = Some l.
Proof.
  induction l as [| c l IH]; intros prev Hp H; simpl.
  - rewrite Hp. reflexivity.
  - inversion H as [| ? ? Hc Hl]; subst.
    rewrite Hc, Hp. cbn [andb]. rewrite (IH c Hc Hl). reflexivity.
Qed.

Lemma span_digits_all (l : list ascii) :
  Forall (fun c => is_digit c = true) l -> span_digits l = (l, []).
Proof.
  induction 1 as [| c l Hc Hl IH]; [reflexivity |].
  simpl. rewrite Hc, IH. reflexivity.
Qed.

Lemma parse_special_digits (neg : bool) (c : ascii) (l : list ascii) :
  is_digit c = true -> parse_special neg (c :: l) = None.
Proof.
  intros Hc. unfold parse_special. cbn [map string_of_list_ascii].
  rewrite (digit_lower c Hc). apply is_digit_ord in Hc.
  cbn [String.eqb].
  rewrite (ascii_eqb_ord c "i"), (ascii_eqb_ord c "n");
    [reflexivity | change (ord "n") with 110; lia | change (ord "i") with 105; lia].
Qed.

Lemma parse_decimal_digits (neg : bool) (c : ascii) (l : list ascii) :
  Forall (fun c => is_digit c = true) (c :: l) ->
  parse_decimal neg (c :: l) = Some (float_of_decimal neg (digits_value (c :: l)) 0).
Proof.
  intros H. unfold parse_decimal. rewrite (span_digits_all _ H).
  cbn [app]. rewrite app_nil_r. reflexivity.
Qed.

Lemma float_of_str_digits (neg : bool) (c : ascii) (l : list ascii) :
  Forall (fun c => is_digit c = true) (c :: l) ->
  float_of_str
    (string_of_list_ascii ((if neg then ["-"%char] else []) ++ c :: l))
  = Ok (float_of_decimal neg (digits_value (c :: l)) 0).
Proof.
  intros H. unfold float_of_str.
  rewrite list_ascii_of_string_of_list_ascii.
  assert (Hsp : Forall (fun c => float_isspace c = false)
                  ((if neg then ["-"%char] else []) ++ c :: l)).
  { apply Forall_app. split; [destruct neg; repeat constructor |].
    eapply Forall_impl; [exact H | apply digit_not_float_space]. }
  assert (Hun : Forall (fun c => Ascii.eqb c underscore = false)
                  ((if neg then ["-"%char] else []) ++ c :: l)).
  { apply Forall_app. split; [destruct neg; repeat constructor |].
    eapply Forall_impl; [exact H |].
    intros d Hd. apply is_digit_ord in Hd. apply ascii_eqb_ord.
    change (ord underscore) with 95. lia. }
  rewrite (float_strip_id _ Hsp), (drop_underscores_id _ zero eq_refl Hun).
  assert (Hs : parse_sign ((if neg then ["-"%char] else []) ++ c :: l)
               = (neg, c :: l)).
  { destruct neg; [reflexivity |]. cbn [app parse_sign].
    inversion H as [| ? ? Hc _]; subst. apply is_digit_ord in Hc.
    rewrite (ascii_eqb_ord c "-"), (ascii_eqb_ord c "+");
      [reflexivity | change (ord "+") with 43; lia | change (ord "-") with 45; lia]. }
  rewrite Hs.
  inversion H as [| ? ? Hc _]; subst.
  rewrite (parse_special_digits neg c l Hc), (parse_decimal_digits neg c l H).
  reflexivity.
Qed.

Lemma str_of_int_shape (z : Z) :
  exists c l,
    Forall (fun c => is_digit c = true) (c :: l)
    /\ digits_value (c :: l) = Z.abs z
    /\ str_of_int z
       = string_of_list_ascii ((if z <? 0 then ["-"%char] else []) ++ c :: l).
Proof.
  destruct z as [| p | p].
  - exists "0"%char, []. split; [repeat constructor |]. split; reflexivity.
  - pose proof (string_of_uint_digits (Pos.to_uint p)) as Hd.
    pose proof (digits_value_string_of_uint (Pos.to_uint p)) as Hv.
    rewrite DecimalPos.Unsigned.of_to in Hv.
    assert (Hs : str_of_int (Zpos p) = NilEmpty.string_of_uint (Pos.to_uint p)).
    { unfold str_of_int. cbn [Z.to_int NilZero.string_of_int].
      unfold NilZero.string_of_uint.
      pose proof (DecimalPos.Unsigned.to_uint_nonnil p).
      destruct (Pos.to_uint p); congruence. }
    destruct (list_ascii_of_string (NilEmpty.string_of_uint (Pos.to_uint p)))
      as [| c l] eqn:El; [discriminate Hv |].
    exists c, l. split; [exact Hd |]. split; [exact Hv |].
    rewrite Hs. cbn [Z.ltb Z.compare app]. rewrite <- El.
    symmetry. apply string_of_list_ascii_of_string.
  - pose proof (string_of_uint_digits (Pos.to_uint p)) as Hd.
    pose proof (digits_value_string_of_uint (Pos.to_uint p)) as Hv.
    rewrite DecimalPos.Unsigned.of_to in Hv.
    assert (Hs : str_of_int (Zneg p)
                 = String "-" (NilEmpty.string_of_uint (Pos.to_uint p))).
    { unfold str_of_int. cbn [Z.to_int NilZero.string_of_int].
      unfold NilZero.string_of_uint.
      pose proof (DecimalPos.Unsigned.to_uint_nonnil p).
      destruct (Pos.to_uint p); congruence. }
    destruct (list_ascii_of_string (NilEmpty.string_of_uint (Pos.to_uint p)))
      as [| c l] eqn:El; [discriminate Hv |].
    exists c, l. split; [exact Hd |]. split; [exact Hv |].
    rewrite Hs, <- El. cbn [Z.ltb Z.compare app string_of_list_ascii].
    f_equal. symmetry. apply string_of_list_ascii_of_string.
Qed.

Lemma float_of_str_str_of_int (z : Z) :
  Z.abs z <= 2 ^ 53 ->
  exists f, float_of_str (str_of_int z) = Ok f /\ int_of_float f = Ok z.
Proof.
  intros Hz. destruct (str_of_int_shape z) as (c & l & Hd & Hv & ->).
  rewrite (float_of_str_digits _ c l Hd), Hv.
  eexists. split; [reflexivity |].
  unfold float_of_decimal.
  destruct (Z.eqb_spec (Z.abs z) 0) as [H0 | Hne].
  - assert (z = 0) by lia. subst z. reflexivity.
  - cbn [Z.leb Z.compare]. rewrite Z.pow_0_r, Z.mul_1_r.
    assert (Hc : cond_Zopp (z <? 0) (Z.abs z) = z).
    { destruct (Z.ltb_spec z 0); simpl; lia. }
    rewrite Hc.
    destruct (pow2_decompose (Z.abs z)) as (a & j & Hdec & Hj & Ha); [lia |].
    assert (Hlt : Z.abs z < 2 ^ 1024).
    { assert (2 ^ 53 < 2 ^ 1024) by (apply Z.pow_lt_mono_r; lia). lia. }
    assert (Ha' : 0 < a) by nia.
    destruct z as [| p | p]; [lia | |].
    + destruct (float_of_int_exact false p a j) as (f & Hf & Hi); try lia.
      unfold float_of_int in Hf. cbn [cond_Zopp] in Hf, Hi.
      revert Hf. destruct (binary_normalize prec emax (Zpos p) 0 false);
        intros Hf; try discriminate Hf; injection Hf as <-; exact Hi.
    + destruct (float_of_int_exact true p a j) as (f & Hf & Hi); try lia.
      change (cond_Zopp true (Zpos p)) with (Zneg p) in Hf, Hi.
      unfold float_of_int in Hf.
      revert Hf. destruct (binary_normalize prec emax (Zneg p) 0 false);
        intros Hf; try discriminate Hf; injection Hf as <-; exact Hi.
Qed.

Lemma str_of_int_plain (z : Z) :
  strip (remove_char "," (str_of_int z)) = str_of_int z.
Proof.
  destruct (str_of_int_shape z) as (c & l & Hd & _ & ->).
  set (cs := ((if z <? 0 then ["-"%char] else []) ++ c :: l)%list).
  assert (Hsp : Forall (fun c => isspace c = false) cs).
  { apply Forall_app. split; [destruct (z <? 0); repeat constructor |].
    eapply Forall_impl; [exact Hd | apply digit_not_space]. }
  assert (Hco : Forall (fun d => Ascii.eqb "," d = false) cs).
  { apply Forall_app. split; [destruct (z <? 0); repeat constructor |].
    eapply Forall_impl; [exact Hd |].
    intros d Hdd. apply is_digit_ord in Hdd. apply ascii_eqb_ord.
    change (ord ",") with 44. lia. }
  rewrite remove_char_absent
    by (rewrite list_ascii_of_string_of_list_ascii; exact Hco).
  apply strip_no_space. rewrite list_ascii_of_string_of_list_ascii. exact Hsp.
Qed.

(** A text cell that, once its commas and outer white space are gone, is
    the decimal text of an integer of magnitude at most [2^53] is read as
    that integer: the passage through [float] loses nothing there.  So
    the text of such an integer, with thousands separators or without, is
    read back. *)
Theorem integer_texts_are_read (s : string) (z : Z) :
  Z.abs z <= 2 ^ 53 ->
  strip (remove_char "," s) = str_of_int z ->
  parse_integer_value (VStr s) = Ok z
  /\ parse_integer_value (VStr (str_of_int z)) = Ok z.
Proof.
  intros Hz Hs.
  destruct (float_of_str_str_of_int z Hz) as (f & Hf & Hi).
  split.
  - apply (parse_integer_value_of_float (VStr s) f z); [| exact Hi].
    cbn [float]. rewrite Hs. exact Hf.
  - apply (parse_integer_value_of_float (VStr (str_of_int z)) f z); [| exact Hi].
    cbn [float]. rewrite str_of_int_plain. exact Hf.
Qed.

(** The text [297,771] between blanks. *)
Lemma integer_texts_witness :
  Z.abs 297771 <= 2 ^ 53
  /\ strip (remove_char "," " 297,771 ") = str_of_int 297771
  /\ parse_integer_value (VStr " 297,771 ") = Ok 297771.
Proof.
  assert (Hz : Z.abs 297771 <= 2 ^ 53) by (vm_compute; congruence).
  assert (Hs : strip (remove_char "," " 297,771 ") = str_of_int 297771)
    by reflexivity.
  split; [exact Hz |]. split; [exact Hs |].
  exact (proj1 (integer_texts_are_read " 297,771 " 297771 Hz Hs)).
Defined.

(* ===================================================================== *)
(** * Part XVII: sheet_parser.py *)
(* ===================================================================== *)

Lemma label_value_from (ws : worksheet) (rows : list nat) (k : string)
    (acc : option value) :
  fold_left
    (fun acc row =>
       if negb (is_None (cell ws row 1)) && bool_decide (str (cell ws row 1) = k)
       then Some (cell ws row 2) else acc)
    rows acc
  = match label_value ws rows k with Some v => Some v | None => acc end.
Proof.
  unfold label_value. revert acc.
  induction rows as [| row rows IH]; intros acc; [reflexivity |].
  simpl. rewrite IH. symmetry. rewrite IH.
  destruct (fold_left _ rows None); [reflexivity |].
  destruct (negb (is_None (cell ws row 1)) && bool_decide (str (cell ws row 1) = k));
    reflexivity.
Qed.

Lemma label_value_cons (ws : worksheet) (row : nat) (rows : list nat) (k : string) :
  label_value ws (row :: rows) k
  = match label_value ws rows k with
    | Some v => Some v
    | None =>
        if negb (is_None (cell ws row 1)) && bool_decide (str (cell ws row 1) = k)
        then Some (cell ws row 2) else None
    end.
Proof. unfold label_value at 1. simpl. apply label_value_from. Qed.

Lemma read_rows_lookup (ws : worksheet) (rows : list nat) (m : gmap string value)
    (k : string) :
  read_rows ws rows m !! k
  = match label_value ws rows k with Some v => Some v | None => m !! k end.
Proof.
  revert m. induction rows as [| row rows IH]; intros m; [reflexivity |].
  cbn [read_rows]. rewrite IH, label_value_cons.
  destruct (label_value ws rows k); [reflexivity |].
  destruct (is_None (cell ws row 1)); cbn [negb andb]; [reflexivity |].
  destruct (decide (str (cell ws row 1) = k)) as [Heq | Hne].
  - rewrite bool_decide_eq_true_2 by exact Heq. rewrite Heq. apply lookup_insert_eq.
  - rewrite bool_decide_eq_false_2 by exact Hne. apply lookup_insert_ne. exact Hne.
Qed.

Lemma label_value_is_Some (ws : worksheet) (rows : list nat) (k : string) :
  is_Some (label_value ws rows k) <-> k ∈ labels ws rows.
Proof.
  unfold labels. induction rows as [| row rows IH].
  - split; [intros [? ?]; discriminate | intros H; inversion H].
  - rewrite label_value_cons. cbn [omap list_omap].
    destruct (label_value ws rows k) as [v |] eqn:Hv.
    + split; [intros _ | eauto].
      destruct (is_None (cell ws row 1)); [| right]; apply IH; eauto.
    + destruct (is_None (cell ws row 1)); cbn [negb andb].
      * rewrite IH. reflexivity.
      * rewrite elem_of_cons, <- IH.
        destruct (decide (str (cell ws row 1) = k)) as [Heq | Hne].
        -- rewrite bool_decide_eq_true_2 by exact Heq. split; eauto.
        -- rewrite bool_decide_eq_false_2 by exact Hne.
           split; [intros [? ?]; discriminate |].
           intros [? | [? ?]]; congruence.
Qed.

Lemma label_value_elem_of (ws : worksheet) (rows : list nat) (k : string) (v : value) :
  label_value ws rows k = Some v ->
  exists row, row ∈ rows /\ cell ws row 1 <> VNone
              /\ str (cell ws row 1) = k /\ cell ws row 2 = v.
Proof.
  induction rows as [| row rows IH]; [discriminate |].
  rewrite label_value_cons.
  destruct (label_value ws rows k) as [v' |].
  - intros [= <-]. destruct (IH eq_refl) as (r & Hr & H). exists r.
    split; [right; exact Hr | exact H].
  - destruct (cell ws row 1) eqn:Hc; cbn [is_None negb andb]; try discriminate;
      (destruct (bool_decide _) eqn:Hb; [| discriminate]);
      apply bool_decide_eq_true_1 in Hb; intros [= <-];
      exists row; rewrite Hc; repeat split; try (left; reflexivity);
      try discriminate; exact Hb.
Qed.

Lemma read_rows_size (ws : worksheet) (rows : list nat) (m : gmap string value) :
  (size (read_rows ws rows m) <= size m + List.length rows)%nat.
Proof.
  revert m. induction rows as [| row rows IH]; intros m; simpl; [lia |].
  etransitivity; [apply IH |].
  destruct (negb (is_None (cell ws row 1))); [| lia].
  rewrite map_size_insert. destruct (m !! _); simpl; lia.
Qed.

Lemma read_rows_ext (ws ws' : worksheet) (rows : list nat) (m : gmap string value) :
  (forall r, r ∈ rows -> cell ws r 1 = cell ws' r 1 /\ cell ws r 2 = cell ws' r 2) ->
  read_rows ws rows m = read_rows ws' rows m.
Proof.
  revert m. induction rows as [| row rows IH]; intros m H; [reflexivity |].
  cbn [read_rows]. destruct (H row) as [-> ->]; [left |].
  apply IH. intros r Hr. apply H. right. exact Hr.
Qed.

Lemma parse_discovery_sheet_found (wb : workbook) (ws : worksheet) :
  dict_get "DISCOVERY" wb = Some ws ->
  parse_discovery_sheet wb = Ok (read_rows ws [1; 2; 3]%nat ∅).
Proof.
  intros H. unfold parse_discovery_sheet, sheet. rewrite H. reflexivity.
Qed.

Lemma parse_discovery_sheet_not_found (wb : workbook) :
  dict_get "DISCOVERY" wb = None ->
  parse_discovery_sheet wb
  = Raise (ValueError (failed_to_parse_discovery_sheet (sheet_not_found "DISCOVERY"))).
Proof.
  intros H. unfold parse_discovery_sheet, sheet. rewrite H. reflexivity.
Qed.

(** *** The order of the rows *)

Lemma labels_cons (ws : worksheet) (row : nat) (rows : list nat) :
  labels ws (row :: rows)
  = if is_None (cell ws row 1) then labels ws rows
    else str (cell ws row 1) :: labels ws rows.
Proof. unfold labels. cbn [omap list_omap]. destruct (is_None _); reflexivity. Qed.

Lemma labels_Permutation (ws : worksheet) (rows rows' : list nat) :
  Permutation rows rows' -> Permutation (labels ws rows) (labels ws rows').
Proof. intros H. unfold labels. rewrite H. reflexivity. Qed.

Lemma read_rows_Permutation (ws : worksheet) (rows rows' : list nat) :
  Permutation rows rows' ->
  forall m, NoDup (labels ws rows) -> read_rows ws rows m = read_rows ws rows' m.
Proof.
  induction 1 as [| x l l' Hp IH | x y l | l l' l'' Hp1 IH1 Hp2 IH2]; intros m Hnd.
  - reflexivity.
  - cbn [read_rows]. apply IH.
    rewrite labels_cons in Hnd. destruct (is_None (cell ws x 1)); [exact Hnd |].
    apply NoDup_cons in Hnd. tauto.
  - cbn [read_rows]. f_equal. rewrite !labels_cons in Hnd.
    destruct (is_None (cell ws x 1)), (is_None (cell ws y 1));
      cbn [negb]; try reflexivity.
    apply insert_insert_ne.
    apply NoDup_cons in Hnd. destruct Hnd as [Hni _].
    intros Heq. apply Hni. rewrite Heq. left.
  - rewrite (IH1 m Hnd). apply IH2.
    rewrite <- (labels_Permutation ws _ _ Hp1). exact Hnd.
Qed.

Lemma read_rows_permute_rows (sigma : nat -> nat) (ws : worksheet) (rows : list nat)
    (m : gmap string value) :
  read_rows (permute_rows sigma ws) rows m = read_rows ws (map sigma rows) m.
Proof.
  revert m. induction rows as [| row rows IH]; intros m; [reflexivity |].
  cbn [read_rows map]. rewrite IH. reflexivity.
Qed.

(** When the labels of rows 1 to 3 are pairwise distinct, the order of
    the three rows does not matter: a DISCOVERY sheet with the same rows in
    another order is read into the same dictionary, and the summary
    extracted from it is the same. *)
Theorem discovery_rows_in_any_order (wb wb' : workbook) (ws : worksheet)
    (sigma : nat -> nat) :
  dict_get "DISCOVERY" wb = Some ws ->
  dict_get "DISCOVERY" wb' = Some (permute_rows sigma ws) ->
  Permutation (map sigma [1; 2; 3]%nat) [1; 2; 3]%nat ->
  NoDup (labels ws [1; 2; 3]%nat) ->
  parse_discovery_sheet wb' = parse_discovery_sheet wb
  /\ discovery_pipeline wb' = discovery_pipeline wb.
Proof.
  intros Hs Hs' Hp Hnd.
  assert (H : parse_discovery_sheet wb' = parse_discovery_sheet wb).
  { rewrite (parse_discovery_sheet_found _ _ Hs),
      (parse_discovery_sheet_found _ _ Hs'), read_rows_permute_rows.
    f_equal. symmetry. apply read_rows_Permutation; [symmetry; exact Hp | exact Hnd]. }
  split; [exact H |]. unfold discovery_pipeline. rewrite H. reflexivity.
Qed.

(** The example's sheet with its rows rotated. *)
Lemma discovery_rows_in_any_order_witness :
  let sigma := fun r : nat => match r with 1 => 3 | 2 => 1 | _ => 2 end%nat in
  (forall r c, (1 <= r <= 3)%nat -> (1 <= c <= 2)%nat ->
     cell (permute_rows sigma sheet_discovery) r c = cell sheet_discovery_reordered r c)
  /\ discovery_pipeline [("DISCOVERY", permute_rows sigma sheet_discovery)]
     = discovery_pipeline [("DISCOVERY", sheet_discovery)]
  /\ discovery_pipeline [("DISCOVERY", sheet_discovery)] = Ok sample_summary.
Proof.
  intros sigma. split; [| split].
  - intros r c Hr Hc.
    assert (Hr' : r = 1%nat \/ r = 2%nat \/ r = 3%nat) by lia.
    assert (Hc' : c = 1%nat \/ c = 2%nat) by lia.
    destruct Hr' as [-> | [-> | ->]], Hc' as [-> | ->]; reflexivity.
  - apply (discovery_rows_in_any_order
             [("DISCOVERY", sheet_discovery)]
             [("DISCOVERY", permute_rows sigma sheet_discovery)]
             sheet_discovery sigma).
    + reflexivity.
    + reflexivity.
    + simpl. apply (bool_decide_unpack _). vm_compute. exact I.
    + apply (bool_decide_unpack _). vm_compute. exact I.
  - vm_compute. reflexivity.
Defined.

(** *** From the sheet to the summary *)

Lemma read_rows_dom (ws : worksheet) (k : string) :
  k ∈ dom (read_rows ws [1; 2; 3]%nat ∅) <-> k ∈ labels ws [1; 2; 3]%nat.
Proof.
  rewrite elem_of_dom, read_rows_lookup, lookup_empty, <- label_value_is_Some.
  destruct (label_value _ _ _); reflexivity.
Qed.

(** The two DISCOVERY parsers, one after the other, on a workbook that has
    the sheet: the missing-fields error is raised exactly when the text of
    a required label is not among the labels of rows 1 to 3, and it names
    exactly those labels; when the three are there, the summary is
    extracted from the values in column B of the last rows that carry
    them.  Without the sheet the first parser's error is the result. *)
Theorem discovery_pipeline_from_sheet (wb : workbook) :
  match dict_get "DISCOVERY" wb with
  | Some ws =>
      ((exists missing, MissingFieldError (discovery_pipeline wb) missing)
       <-> exists label, label ∈ required_fields /\ label ∉ labels ws [1; 2; 3]%nat)
      /\ (forall missing,
            MissingFieldError (discovery_pipeline wb) missing ->
            forall label,
              label ∈ missing
              <-> label ∈ required_fields /\ label ∉ labels ws [1; 2; 3]%nat)
      /\ (forall op imp mem,
            label_value ws [1; 2; 3]%nat "Overall Performance" = Some op ->
            label_value ws [1; 2; 3]%nat "Impressions" = Some imp ->
            label_value ws [1; 2; 3]%nat "Members reached" = Some mem ->
            discovery_pipeline wb = extract_body op imp mem)
  | None =>
      discovery_pipeline wb
      = Raise (ValueError
                 (failed_to_parse_discovery_sheet (sheet_not_found "DISCOVERY")))
  end.
Proof.
  unfold discovery_pipeline.
  destruct (dict_get "DISCOVERY" wb) as [ws |] eqn:Hs.
  2:{ rewrite (parse_discovery_sheet_not_found _ Hs). reflexivity. }
  rewrite (parse_discovery_sheet_found _ _ Hs). cbn [mbind result_bind].
  set (cells := read_rows ws [1; 2; 3]%nat ∅).
  assert (Hl : forall k, cells !! k = label_value ws [1; 2; 3]%nat k).
  { intros k. unfold cells. rewrite read_rows_lookup, lookup_empty.
    destruct (label_value _ _ _); reflexivity. }
  assert (Hdom : forall k, k ∈ dom cells <-> k ∈ labels ws [1; 2; 3]%nat)
    by (intros k; apply read_rows_dom).
  unfold MissingFieldError.
  destruct (decide (set_Forall (fun field => field ∈ dom cells) required_fields))
    as [Hall | Hnot].
  - destruct (required_present_lookup _ Hall) as (op & imp & mem & Hop & Himp & Hmem).
    rewrite (extract_present _ _ _ _ Hop Himp Hmem).
    split; [| split].
    + split.
      * intros (missing & H). destruct (extract_body_not_missing _ _ _ _ H).
      * intros (label & Hreq & Hni). destruct Hni. apply Hdom, Hall, Hreq.
    + intros missing H. destruct (extract_body_not_missing _ _ _ _ H).
    + intros op' imp' mem' Hop' Himp' Hmem'.
      rewrite <- Hl in Hop', Himp', Hmem'. congruence.
  - rewrite (extract_absent _ Hnot).
    split; [| split].
    + split; [intros _ | eauto].
      apply (not_set_Forall_Exists _) in Hnot.
      destruct Hnot as (label & Hreq & Hni). exists label.
      split; [exact Hreq |]. rewrite <- Hdom. exact Hni.
    + intros missing [= <-] label. rewrite elem_of_difference, Hdom. reflexivity.
    + intros op imp mem Hop Himp Hmem. destruct Hnot.
      apply required_fields_spec. rewrite !elem_of_dom, !Hl, Hop, Himp, Hmem. eauto.
Qed.

(** *** From the bytes of the file *)

Lemma parse_discovery_sheet_bytes_xlsx (wb : workbook) :
  parse_discovery_sheet_bytes (xlsx wb) = parse_discovery_sheet wb.
Proof. reflexivity. Qed.

(** What [parse_discovery_sheet] reads, from the bytes of the file.  It
    fails in two cases only, each reported as its own [ValueError]: the
    reader raises on the bytes (the text of its exception is wrapped), or
    the workbook has no DISCOVERY sheet.  Otherwise it returns a dictionary
    with at most three entries, whose keys are the texts of the labels of
    rows 1 to 3 that are not [None] and in which a label has the value of
    the last row that carries it (possibly [None]); of the sheet it reads
    the six cells A1 to B3 and nothing else. *)
Theorem parse_discovery_sheet_reads (file_content : file_content) :
  match file_content with
  | not_xlsx e =>
      parse_discovery_sheet_bytes file_content
      = Raise (ValueError (failed_to_parse_discovery_sheet (exn_message e)))
  | xlsx wb =>
      match dict_get "DISCOVERY" wb with
      | Some ws =>
          exists cells,
            parse_discovery_sheet_bytes file_content = Ok cells
            /\ parse_discovery_sheet wb = Ok cells
            /\ (forall k, cells !! k = label_value ws [1; 2; 3]%nat k)
            /\ (forall k, k ∈ dom cells <-> k ∈ labels ws [1; 2; 3]%nat)
            /\ (forall k v, cells !! k = Some v ->
                  exists row, (1 <= row <= 3)%nat /\ cell ws row 1 <> VNone
                              /\ str (cell ws row 1) = k /\ cell ws row 2 = v)
            /\ (size cells <= 3)%nat
            /\ (forall wb' ws',
                  dict_get "DISCOVERY" wb' = Some ws' ->
                  (forall r c, (1 <= r <= 3)%nat -> (1 <= c <= 2)%nat ->
                               cell ws r c = cell ws' r c) ->
                  parse_discovery_sheet_bytes (xlsx wb') = Ok cells)
      | None =>
          parse_discovery_sheet_bytes file_content
          = Raise (ValueError
                     (failed_to_parse_discovery_sheet (sheet_not_found "DISCOVERY")))
      end
  end.
Proof.
  destruct file_content as [wb | e]; [| reflexivity].
  rewrite parse_discovery_sheet_bytes_xlsx.
  destruct (dict_get "DISCOVERY" wb) as [ws |] eqn:Hs.
  2:{ apply parse_discovery_sheet_not_found, Hs. }
  exists (read_rows ws [1; 2; 3]%nat ∅).
  assert (Hl : forall k, read_rows ws [1; 2; 3]%nat ∅ !! k
                         = label_value ws [1; 2; 3]%nat k).
  { intros k. rewrite read_rows_lookup, lookup_empty.
    destruct (label_value _ _ _); reflexivity. }
  split; [apply parse_discovery_sheet_found, Hs |].
  split; [apply parse_discovery_sheet_found, Hs |].
  split; [exact Hl |]. split; [| split; [| split]].
  - intros k. rewrite elem_of_dom, Hl. apply label_value_is_Some.
  - intros k v Hk. rewrite Hl in Hk.
    destruct (label_value_elem_of _ _ _ _ Hk) as (row & Hr & H).
    exists row. split; [| exact H].
    rewrite !elem_of_cons in Hr. destruct Hr as [-> | [-> | [-> | Hr]]];
      [lia | lia | lia | inversion Hr].
  - pose proof (read_rows_size ws [1; 2; 3]%nat ∅) as H.
    rewrite map_size_empty in H. exact H.
  - intros wb' ws' Hs' Hc.
    rewrite parse_discovery_sheet_bytes_xlsx.
    rewrite (parse_discovery_sheet_found _ _ Hs'). f_equal. symmetry.
    apply read_rows_ext. intros r Hr.
    assert ((1 <= r <= 3)%nat).
    { rewrite !elem_of_cons in Hr. destruct Hr as [-> | [-> | [-> | Hr]]];
        [lia | lia | lia | inversion Hr]. }
    split; apply Hc; lia.
Qed.

(** The example's workbook, bytes that are not a workbook, and a workbook
    without the sheet. *)
Lemma parse_discovery_sheet_reads_witness :
  parse_discovery_sheet_bytes (xlsx sample_workbook) = Ok sample_cells
  /\ parse_discovery_sheet_bytes
       (not_xlsx (ValueError (library_message "File is not a zip file")))
     = Raise (ValueError
                (failed_to_parse_discovery_sheet
                   (library_message "File is not a zip file")))
  /\ parse_discovery_sheet_bytes (xlsx [("TOP POSTS", sheet_one_post)])
     = Raise (ValueError
                (failed_to_parse_discovery_sheet (sheet_not_found "DISCOVERY"))).
Proof.
  split; [| split].
  - destruct (parse_discovery_sheet_reads (xlsx sample_workbook))
      as (cells & Hb & Hw & _).
    rewrite Hb. rewrite <- Hw. vm_compute. reflexivity.
  - exact (parse_discovery_sheet_reads
             (not_xlsx (ValueError (library_message "File is not a zip file")))).
  - exact (parse_discovery_sheet_reads (xlsx [("TOP POSTS", sheet_one_post)])).
Defined.

(* ===================================================================== *)
(** * Part XVIII: top_posts_parser.py, further properties *)
(* ===================================================================== *)

(** *** An [int] below [2^1023] converts to a float *)

Lemma Zdigits2_round_nearest_even (m : Z) (l : location) :
  0 <= m -> Zdigits2 (round_nearest_even m l) <= Zdigits2 m + 1.
Proof.
  intros Hm.
  assert (Hs : Zdigits2 (m + 1) <= Zdigits2 m + 1).
  { destruct (Z.eq_dec m 0) as [-> | Hne]; [simpl; lia |].
    rewrite !Zdigits2_log2 by lia.
    pose proof (Z.log2_succ_le m). unfold Z.succ in *. lia. }
  destruct l as [| []]; simpl; try lia.
  destruct (Z.even m); lia.
Qed.

Lemma shr_fexp_exponent (m e : Z) (l : location) :
  0 <= m ->
  snd (shr_fexp prec emax m e l)
  = Z.max e (fexp prec emax (Zdigits2 m + e)).
Proof.
  intros Hm. unfold shr_fexp.
  destruct (shr_m_shr (shr_record_of_loc m l) e
              (fexp prec emax (Zdigits2 m + e) - e)) as [_ Hs].
  { rewrite shr_record_of_loc_m. exact Hm. }
  rewrite Hs. lia.
Qed.

Lemma shr_fexp_mantissa (m e : Z) (l : location) :
  0 <= m ->
  Zdigits2 (shr_m (fst (shr_fexp prec emax m e l)))
  + snd (shr_fexp prec emax m e l)
  <= Z.max (Zdigits2 m + e) (fexp prec emax (Zdigits2 m + e)).
Proof.
  intros Hm. rewrite shr_fexp_exponent by exact Hm. unfold shr_fexp.
  set (n := fexp prec emax (Zdigits2 m + e) - e).
  destruct (shr_m_shr (shr_record_of_loc m l) e n) as [Hs _].
  { rewrite shr_record_of_loc_m. exact Hm. }
  rewrite Hs, shr_record_of_loc_m.
  pose proof (Zdigits2_div_pow2 m (Z.max 0 n) Hm ltac:(lia)) as Hd.
  pose proof (Zdigits2_nonneg m).
  unfold n in *. lia.
Qed.

Lemma binary_round_aux_finite (s : bool) (mx ex : Z) (lx : location) :
  0 <= mx -> ex <= emax - prec -> Zdigits2 mx + ex <= 1023 ->
  forall s', binary_round_aux prec emax s mx ex lx <> S754_infinity s'.
Proof.
  intros Hm He Hd s'. unfold binary_round_aux.
  pose proof (shr_fexp_fits mx ex lx Hm) as [H1 _].
  pose proof (shr_fexp_exponent mx ex lx Hm) as He1.
  pose proof (shr_fexp_mantissa mx ex lx Hm) as Hd1.
  destruct (shr_fexp prec emax mx ex lx) as [mrs' e']. cbn [fst snd] in H1, He1, Hd1.
  set (m1 := round_nearest_even (shr_m mrs') (loc_of_shr_record mrs')).
  assert (Hm1 : 0 <= m1) by (apply round_nearest_even_nonneg; exact H1).
  pose proof (Zdigits2_round_nearest_even (shr_m mrs') (loc_of_shr_record mrs') H1)
    as Hr. fold m1 in Hr.
  pose proof (shr_fexp_exponent m1 e' loc_Exact Hm1) as He2.
  destruct (shr_fexp prec emax m1 e' loc_Exact) as [mrs'' e'']. cbn [fst snd] in He2.
  destruct (shr_m mrs'') as [| m | m]; try discriminate.
  assert (Hle : e'' <= emax - prec).
  { unfold fexp, emin, emax, prec in *. lia. }
  apply Z.leb_le in Hle. rewrite Hle. discriminate.
Qed.

Lemma binary_round_finite (s : bool) (p : positive) :
  Zpos p < 2 ^ 1023 ->
  forall s', binary_round prec emax s p 0 <> S754_infinity s'.
Proof.
  intros Hp s'.
  pose proof (digits2_pos_log2 p) as HD.
  assert (Hlp : Z.log2 (Zpos p) < 1023) by (apply Z.log2_lt_pow2; lia).
  unfold binary_round. rewrite Z.add_0_r.
  set (D := Zpos (digits2_pos p)) in *.
  unfold shl_align. rewrite Z.sub_0_r.
  destruct (fexp prec emax D) as [| d | d] eqn:Ef.
  - apply binary_round_aux_finite; [lia | unfold emax, prec; lia |].
    simpl Zdigits2. fold D. lia.
  - apply binary_round_aux_finite; [lia | unfold emax, prec; lia |].
    simpl Zdigits2. fold D. lia.
  - apply binary_round_aux_finite; [lia | unfold emax, prec; lia |].
    simpl Zdigits2. rewrite digits2_pos_log2, shift_left_pos.
    rewrite Z.log2_mul_pow2 by lia. lia.
Qed.

Lemma float_of_int_returns (z : Z) :
  Z.abs z < 2 ^ 1023 -> exists f, float_of_int z = Ok f.
Proof.
  intros Hz. unfold float_of_int.
  destruct (binary_normalize prec emax z 0 false) as [| s' | |] eqn:Hb; eauto.
  exfalso. destruct z as [| p | p]; simpl in Hb.
  - discriminate.
  - apply (binary_round_finite false p) in Hb; [exact Hb | lia].
  - apply (binary_round_finite true p) in Hb; [exact Hb | lia].
Qed.

(** *** What the extraction raises *)

Lemma count_of_cell_raises (v : value) (e : exn) :
  count_of_cell v = Raise e ->
  e = OverflowError int_too_large_for_float
  /\ exists z, v = VInt z /\ 2 ^ 1023 <= Z.abs z.
Proof.
  unfold count_of_cell. destruct (truthy v); [| discriminate].
  destruct (float v) as [f | e0] eqn:Hf; [discriminate |].
  destruct (float_raises _ _ Hf) as [-> | [-> | ->]]; try discriminate.
  intros [= <-]. split; [reflexivity |].
  destruct v as [| b | z | f | s | t b]; simpl in Hf; try discriminate.
  - destruct b; vm_compute in Hf; discriminate.
  - exists z. split; [reflexivity |].
    destruct (Z_lt_le_dec (Z.abs z) (2 ^ 1023)) as [Hlt | Hle]; [| exact Hle].
    destruct (float_of_int_returns z Hlt) as (f & Hf'). congruence.
  - apply float_of_str_raises in Hf. discriminate.
Qed.

Lemma engagement_rows_raises (ws : worksheet) (rows : list nat) (e : exn) :
  engagement_rows ws rows = Raise e ->
  exists row, row ∈ rows /\ count_of_cell (cell ws row 3) = Raise e.
Proof.
  induction rows as [| row rows IH]; [discriminate |].
  cbn [engagement_rows].
  destruct (is_None (cell ws row 1) && is_None (cell ws row 2)
            && is_None (cell ws row 3)); [discriminate |].
  destruct (is_None (cell ws row 1) || is_None (cell ws row 2)).
  - intros H. destruct (IH H) as (r & Hr & Hc). exists r. split; [right |]; assumption.
  - destruct (count_of_cell (cell ws row 3)) as [n | e0] eqn:Hc; simpl.
    + destruct (engagement_rows ws rows) as [found | e1]; simpl; [discriminate |].
      intros [= <-]. destruct (IH eq_refl) as (r & Hr & Hc').
      exists r. split; [right |]; assumption.
    + intros [= <-]. exists row. split; [left | exact Hc].
Qed.

Lemma impression_rows_raises (ws : worksheet) (rows : list nat) (e : exn) :
  impression_rows ws rows = Raise e ->
  exists row, row ∈ rows /\ count_of_cell (cell ws row 7) = Raise e.
Proof.
  induction rows as [| row rows IH]; [discriminate |].
  cbn [impression_rows].
  destruct (is_None (cell ws row 5) && is_None (cell ws row 7)); [discriminate |].
  destruct (is_None (cell ws row 5) || is_None (cell ws row 7)).
  - intros H. destruct (IH H) as (r & Hr & Hc). exists r. split; [right |]; assumption.
  - destruct (count_of_cell (cell ws row 7)) as [n | e0] eqn:Hc; simpl.
    + destruct (impression_rows ws rows) as [found | e1]; simpl; [discriminate |].
      intros [= <-]. destruct (IH eq_refl) as (r & Hr & Hc').
      exists r. split; [right |]; assumption.
    + intros [= <-]. exists row. split; [left | exact Hc].
Qed.

Lemma parse_top_posts_rows_raises (ws : worksheet) (e : exn) :
  parse_top_posts_rows ws = Raise e ->
  e = OverflowError int_too_large_for_float
  /\ exists row z,
       row ∈ data_rows ws
       /\ (cell ws row 3 = VInt z \/ cell ws row 7 = VInt z)
       /\ 2 ^ 1023 <= Z.abs z.
Proof.
  rewrite parse_top_posts_rows_views.
  destruct (engagement_rows ws (data_rows ws)) as [E | e0] eqn:HE; simpl.
  - destruct (impression_rows ws (data_rows ws)) as [I | e1] eqn:HI; simpl;
      [discriminate |].
    intros [= <-].
    destruct (impression_rows_raises _ _ _ HI) as (row & Hr & Hc).
    destruct (count_of_cell_raises _ _ Hc) as (-> & z & Hz & Hb).
    split; [reflexivity |]. exists row, z. auto.
  - intros [= <-].
    destruct (engagement_rows_raises _ _ _ HE) as (row & Hr & Hc).
    destruct (count_of_cell_raises _ _ Hc) as (-> & z & Hz & Hb).
    split; [reflexivity |]. exists row, z. auto.
Qed.

(** *** Rows below an empty row *)

Lemma is_None_true (v : value) : is_None v = true <-> v = VNone.
Proof. destruct v; simpl; split; congruence. Qed.

Lemma engagement_rows_blank (ws : worksheet) (rows1 rows2 : list nat) (r : nat) :
  blank_engagement ws r ->
  engagement_rows ws (rows1 ++ r :: rows2) = engagement_rows ws rows1.
Proof.
  intros (H1 & H2 & H3).
  induction rows1 as [| row rows1 IH].
  - simpl. rewrite H1, H2, H3. reflexivity.
  - cbn [app engagement_rows]. rewrite IH. reflexivity.
Qed.

Lemma impression_rows_blank (ws : worksheet) (rows1 rows2 : list nat) (r : nat) :
  blank_impression ws r ->
  impression_rows ws (rows1 ++ r :: rows2) = impression_rows ws rows1.
Proof.
  intros (H5 & H7).
  induction rows1 as [| row rows1 IH].
  - simpl. rewrite H5, H7. reflexivity.
  - cbn [app impression_rows]. rewrite IH. reflexivity.
Qed.

Lemma data_rows_split (ws : worksheet) (r : nat) :
  (4 <= r <= max_row ws)%nat ->
  data_rows ws
  = (data_rows (cut_after ws (r - 1)) ++ r :: seq (S r) (max_row ws - r))%list.
Proof.
  intros Hr. unfold data_rows, cut_after. cbn [max_row].
  replace (max_row ws - 3)%nat with ((r - 1 - 3) + S (max_row ws - r))%nat by lia.
  rewrite seq_app. cbn [seq].
  replace (4 + (r - 1 - 3))%nat with r by lia. reflexivity.
Qed.

Lemma engagement_rows_cut (ws : worksheet) (n : nat) (rows : list nat) :
  engagement_rows (cut_after ws n) rows = engagement_rows ws rows.
Proof.
  induction rows as [| row rows IH]; [reflexivity |].
  cbn [engagement_rows]. rewrite IH. reflexivity.
Qed.

Lemma impression_rows_cut (ws : worksheet) (n : nat) (rows : list nat) :
  impression_rows (cut_after ws n) rows = impression_rows ws rows.
Proof.
  induction rows as [| row rows IH]; [reflexivity |].
  cbn [impression_rows]. rewrite IH. reflexivity.
Qed.

(** Everything below an empty data row is ignored: when row [r] is empty
    in columns A to C, E and G, the extraction returns what it returns on
    the sheet cut after row [r - 1], whether it is a list or an error, so
    posts below the gap are lost and a cell below it cannot make the
    extraction fail.  Each view stops at its own first empty row. *)
Theorem rows_below_an_empty_row_are_ignored (ws : worksheet) (r : nat) :
  (4 <= r <= max_row ws)%nat ->
  (blank_engagement ws r ->
   engagement_rows ws (data_rows ws)
   = engagement_rows ws (data_rows (cut_after ws (r - 1))))
  /\ (blank_impression ws r ->
      impression_rows ws (data_rows ws)
      = impression_rows ws (data_rows (cut_after ws (r - 1))))
  /\ (blank_row ws r ->
      parse_top_posts_rows ws = parse_top_posts_rows (cut_after ws (r - 1))).
Proof.
  intros Hr. pose proof (data_rows_split ws r Hr) as Hsplit.
  split; [| split].
  - intros Hb. rewrite Hsplit at 1. apply engagement_rows_blank, Hb.
  - intros Hb. rewrite Hsplit at 1. apply impression_rows_blank, Hb.
  - intros [HbE HbI].
    assert (HE : engagement_rows ws (data_rows ws)
                 = engagement_rows (cut_after ws (r - 1))
                     (data_rows (cut_after ws (r - 1)))).
    { rewrite engagement_rows_cut, Hsplit at 1. apply engagement_rows_blank, HbE. }
    assert (HI : impression_rows ws (data_rows ws)
                 = impression_rows (cut_after ws (r - 1))
                     (data_rows (cut_after ws (r - 1)))).
    { rewrite impression_rows_cut, Hsplit at 1. apply impression_rows_blank, HbI. }
    rewrite !parse_top_posts_rows_views, HE.
    destruct (engagement_rows (cut_after ws (r - 1)) _); simpl; [| reflexivity].
    rewrite HI. reflexivity.
Qed.

(** The sheet with a gap: the post below the gap is lost. *)
Lemma rows_below_an_empty_row_witness :
  (4 <= 6 <= max_row sheet_with_gap)%nat
  /\ blank_row sheet_with_gap 6
  /\ parse_top_posts_rows sheet_with_gap
     = parse_top_posts_rows (cut_after sheet_with_gap 5)
  /\ exists l, parse_top_posts_rows sheet_with_gap = Ok l
               /\ map url l = ["https://x/2"; "https://x/1"].
Proof.
  assert (Hr : (4 <= 6 <= max_row sheet_with_gap)%nat) by (simpl; lia).
  assert (Hb : blank_row sheet_with_gap 6) by (repeat split).
  split; [exact Hr |]. split; [exact Hb |]. split.
  - exact (proj2 (proj2 (rows_below_an_empty_row_are_ignored sheet_with_gap 6 Hr)) Hb).
  - eexists. split; vm_compute; reflexivity.
Defined.

(** *** Every scanned row has its record *)

Lemma first_seen_from (keys seen : list string) (u : string) :
  u ∈ fold_left see keys seen <-> u ∈ seen \/ u ∈ keys.
Proof.
  revert seen. induction keys as [| k keys IH]; intros seen; simpl.
  - split; [auto | intros [H | H]; [exact H | inversion H]].
  - rewrite IH. unfold see. destruct (decide (k ∈ seen)) as [Hin | Hni].
    + rewrite elem_of_cons. split; [tauto |].
      intros [H | [-> | H]]; auto.
    + rewrite elem_of_app, list_elem_of_singleton, elem_of_cons. tauto.
Qed.

Lemma first_seen_elem_of (keys : list string) (u : string) :
  u ∈ first_seen keys <-> u ∈ keys.
Proof.
  unfold first_seen. rewrite first_seen_from. split; [| auto].
  intros [H | H]; [inversion H | exact H].
Qed.

Lemma engagement_rows_complete (ws : worksheet) (rows1 rows2 : list nat) (row : nat)
    (E : list (string * string * number)) :
  engagement_rows ws (rows1 ++ row :: rows2) = Ok E ->
  (forall r, r ∈ rows1 -> ~ blank_engagement ws r) ->
  cell ws row 1 <> VNone -> cell ws row 2 <> VNone ->
  str (cell ws row 1) ∈ map (fun x => x.1.1) E.
Proof.
  intros HE Hnb H1 H2. revert E HE.
  induction rows1 as [| r rows1 IH]; intros E HE.
  - cbn [app engagement_rows] in HE.
    destruct (is_None (cell ws row 1)) eqn:E1; [apply is_None_true in E1; congruence |].
    destruct (is_None (cell ws row 2)) eqn:E2; [apply is_None_true in E2; congruence |].
    cbn [andb orb] in HE.
    destruct (count_of_cell (cell ws row 3)); simpl in HE; [| discriminate].
    destruct (engagement_rows ws rows2); simpl in HE; [| discriminate].
    injection HE as <-. left.
  - cbn [app engagement_rows] in HE.
    destruct (is_None (cell ws r 1) && is_None (cell ws r 2)
              && is_None (cell ws r 3)) eqn:Eb.
    { exfalso. apply (Hnb r); [left |].
      apply andb_prop in Eb. destruct Eb as [Eb E3].
      apply andb_prop in Eb. destruct Eb as [E1 E2].
      rewrite !is_None_true in *. repeat split; assumption. }
    assert (Hnb' : forall r', r' ∈ rows1 -> ~ blank_engagement ws r')
      by (intros r' Hr'; apply Hnb; right; exact Hr').
    destruct (is_None (cell ws r 1) || is_None (cell ws r 2)).
    + apply (IH Hnb'), HE.
    + destruct (count_of_cell (cell ws r 3)); simpl in HE; [| discriminate].
      destruct (engagement_rows ws (rows1 ++ row :: rows2)) as [found |] eqn:Hf;
        simpl in HE; [| discriminate].
      injection HE as <-. right. apply (IH Hnb'). reflexivity.
Qed.

Lemma impression_rows_complete (ws : worksheet) (rows1 rows2 : list nat) (row : nat)
    (I : list (string * number)) :
  impression_rows ws (rows1 ++ row :: rows2) = Ok I ->
  (forall r, r ∈ rows1 -> ~ blank_impression ws r) ->
  cell ws row 5 <> VNone -> cell ws row 7 <> VNone ->
  str (cell ws row 5) ∈ map fst I.
Proof.
  intros HI Hnb H5 H7. revert I HI.
  induction rows1 as [| r rows1 IH]; intros I HI.
  - cbn [app impression_rows] in HI.
    destruct (is_None (cell ws row 5)) eqn:E5; [apply is_None_true in E5; congruence |].
    destruct (is_None (cell ws row 7)) eqn:E7; [apply is_None_true in E7; congruence |].
    cbn [andb orb] in HI.
    destruct (count_of_cell (cell ws row 7)); simpl in HI; [| discriminate].
    destruct (impression_rows ws rows2); simpl in HI; [| discriminate].
    injection HI as <-. left.
  - cbn [app impression_rows] in HI.
    destruct (is_None (cell ws r 5) && is_None (cell ws r 7)) eqn:Eb.
    { exfalso. apply (Hnb r); [left |].
      apply andb_prop in Eb. destruct Eb as [E5 E7].
      rewrite !is_None_true in *. split; assumption. }
    assert (Hnb' : forall r', r' ∈ rows1 -> ~ blank_impression ws r')
      by (intros r' Hr'; apply Hnb; right; exact Hr').
    destruct (is_None (cell ws r 5) || is_None (cell ws r 7)).
    + apply (IH Hnb'), HI.
    + destruct (count_of_cell (cell ws r 7)); simpl in HI; [| discriminate].
      destruct (impression_rows ws (rows1 ++ row :: rows2)) as [found |] eqn:Hf;
        simpl in HI; [| discriminate].
      injection HI as <-. right. apply (IH Hnb'). reflexivity.
Qed.

Lemma elem_of_data_rows_cut (ws : worksheet) (row r : nat) :
  r ∈ data_rows (cut_after ws (row - 1)) -> (4 <= r < row)%nat.
Proof.
  unfold data_rows, cut_after. cbn [max_row]. rewrite elem_of_seq. lia.
Qed.

Lemma urls_of_result (ws : worksheet) (l : list post) :
  parse_top_posts_rows ws = Ok l ->
  exists E I,
    engagement_rows ws (data_rows ws) = Ok E
    /\ impression_rows ws (data_rows ws) = Ok I
    /\ forall u, u ∈ map url l <-> u ∈ map (fun x => x.1.1) E \/ u ∈ map fst I.
Proof.
  intros H. destruct (parse_top_posts_rows_inv _ _ H) as (E & I & HE & HI & ->).
  exists E, I. split; [exact HE |]. split; [exact HI |].
  intros u.
  rewrite (Permutation_map url (sort_by_engagements_Permutation _)).
  rewrite (keyed_by_url_values _ (keyed_by_url_merge_views E I)).
  rewrite dict_keys_merge_views, first_seen_elem_of, elem_of_app. reflexivity.
Qed.

(** No post of the sheet is dropped and none is invented: the URLs of the
    records returned are exactly the URLs of the rows the two scans took,
    each once.  In sheet terms, a data row with a URL and a publish date
    in columns A and B has a record as soon as no row above it is empty in
    columns A to C, and a data row with a URL in column E and a value in
    column G has one as soon as no row above it is empty in columns E and
    G. *)
Theorem every_scanned_row_has_a_record (ws : worksheet) (l : list post) :
  parse_top_posts_rows ws = Ok l ->
  (exists E I,
     engagement_rows ws (data_rows ws) = Ok E
     /\ impression_rows ws (data_rows ws) = Ok I
     /\ (forall u, u ∈ map url l <-> u ∈ map (fun x => x.1.1) E \/ u ∈ map fst I)
     /\ List.length l
        = List.length (first_seen (map (fun x => x.1.1) E ++ map fst I)))
  /\ (forall row,
        (4 <= row <= max_row ws)%nat ->
        (forall r, (4 <= r < row)%nat -> ~ blank_engagement ws r) ->
        cell ws row 1 <> VNone -> cell ws row 2 <> VNone ->
        exists p, p ∈ l /\ url p = str (cell ws row 1))
  /\ (forall row,
        (4 <= row <= max_row ws)%nat ->
        (forall r, (4 <= r < row)%nat -> ~ blank_impression ws r) ->
        cell ws row 5 <> VNone -> cell ws row 7 <> VNone ->
        exists p, p ∈ l /\ url p = str (cell ws row 5)).
Proof.
  intros H. destruct (urls_of_result _ _ H) as (E & I & HE & HI & Hu).
  split; [| split].
  - exists E, I. split; [exact HE |]. split; [exact HI |]. split; [exact Hu |].
    destruct (parse_top_posts_rows_inv _ _ H) as (E' & I' & HE' & HI' & ->).
    assert (E' = E) by congruence. assert (I' = I) by congruence. subst E' I'.
    rewrite (Permutation_length (sort_by_engagements_Permutation _)).
    rewrite <- dict_keys_merge_views.
    unfold dict_values, dict_keys. rewrite !length_map. reflexivity.
  - intros row Hr Hnb H1 H2.
    assert (Hin : str (cell ws row 1) ∈ map url l).
    { apply Hu. left. rewrite (data_rows_split ws row Hr) in HE.
      apply (engagement_rows_complete _ _ _ _ _ HE); [| exact H1 | exact H2].
      intros r Hr'. apply Hnb. apply (elem_of_data_rows_cut ws). exact Hr'. }
    apply list_elem_of_fmap in Hin. destruct Hin as (p & Hp & Hin). eauto.
  - intros row Hr Hnb H5 H7.
    assert (Hin : str (cell ws row 5) ∈ map url l).
    { apply Hu. right. rewrite (data_rows_split ws row Hr) in HI.
      apply (impression_rows_complete _ _ _ _ _ HI); [| exact H5 | exact H7].
      intros r Hr'. apply Hnb. apply (elem_of_data_rows_cut ws). exact Hr'. }
    apply list_elem_of_fmap in Hin. destruct Hin as (p & Hp & Hin). eauto.
Qed.

(** The third data row of the sheet with three posts. *)
Lemma every_scanned_row_witness :
  parse_top_posts_rows sheet_three_posts = Ok three_posts
  /\ exists p, p ∈ three_posts /\ url p = str (cell sheet_three_posts 6 1).
Proof.
  assert (H : parse_top_posts_rows sheet_three_posts = Ok three_posts)
    by (vm_compute; reflexivity).
  split; [exact H |].
  apply (proj1 (proj2 (every_scanned_row_has_a_record sheet_three_posts three_posts H))).
  - simpl. lia.
  - intros r Hr (H1 & _).
    assert (Hr' : r = 4%nat \/ r = 5%nat) by lia.
    destruct Hr' as [-> | ->]; discriminate H1.
  - discriminate.
  - discriminate.
Defined.

(** *** An [int] of magnitude [2^1024] or more does not convert *)

Lemma shr_fexp_m (m e : Z) (l : location) :
  0 <= m ->
  shr_m (fst (shr_fexp prec emax m e l))
  = m / 2 ^ Z.max 0 (fexp prec emax (Zdigits2 m + e) - e).
Proof.
  intros Hm. unfold shr_fexp.
  destruct (shr_m_shr (shr_record_of_loc m l) e
              (fexp prec emax (Zdigits2 m + e) - e)) as [Hs _].
  { rewrite shr_record_of_loc_m. exact Hm. }
  rewrite Hs, shr_record_of_loc_m. reflexivity.
Qed.

Lemma round_nearest_even_bounds (m : Z) (l : location) :
  m <= round_nearest_even m l <= m + 1.
Proof. destruct l as [| []]; simpl; try lia. destruct (Z.even m); lia. Qed.

Lemma binary_round_overflows (s : bool) (p : positive) :
  2 ^ 1024 <= Zpos p -> binary_round prec emax s p 0 = S754_infinity s.
Proof.
  intros Hp.
  pose proof (digits2_pos_log2 p) as HD.
  assert (Hlog : 1024 <= Z.log2 (Zpos p)) by (apply Z.log2_le_pow2; lia).
  destruct (Z.log2_spec (Zpos p) ltac:(lia)) as [Hlo Hhi].
  unfold binary_round. rewrite Z.add_0_r.
  set (D := Zpos (digits2_pos p)) in *.
  assert (Hf : fexp prec emax D = D - 53) by (unfold fexp, emin, prec, emax; lia).
  assert (Hsh : shl_align p 0 (fexp prec emax D) = (p, 0)).
  { rewrite Hf. unfold shl_align. rewrite Z.sub_0_r.
    destruct (D - 53) eqn:En; try reflexivity; lia. }
  rewrite Hsh. unfold binary_round_aux.
  pose proof (shr_fexp_m (Zpos p) 0 loc_Exact ltac:(lia)) as Hm1.
  pose proof (shr_fexp_exponent (Zpos p) 0 loc_Exact ltac:(lia)) as He1.
  change (Zdigits2 (Zpos p)) with D in Hm1, He1.
  rewrite Z.add_0_r, Hf, Z.sub_0_r in Hm1. rewrite Z.add_0_r, Hf in He1.
  destruct (shr_fexp prec emax (Zpos p) 0 loc_Exact) as [mrs' e'].
  cbn [fst snd] in Hm1, He1.
  assert (He' : e' = D - 53) by lia.
  assert (Hpow : 2 ^ Z.log2 (Zpos p) = 2 ^ 52 * 2 ^ (D - 53)).
  { rewrite <- Z.pow_add_r by lia. f_equal. lia. }
  assert (Hpow' : 2 ^ Z.succ (Z.log2 (Zpos p)) = 2 ^ (D - 53) * 2 ^ 53).
  { rewrite <- Z.pow_add_r by lia. f_equal. lia. }
  assert (Hpos : 0 < 2 ^ (D - 53)) by (apply Z.pow_pos_nonneg; lia).
  assert (Hm' : 2 ^ 52 <= shr_m mrs' < 2 ^ 53).
  { rewrite Hm1. replace (Z.max 0 (D - 53)) with (D - 53) by lia. split.
    - apply Z.div_le_lower_bound; [exact Hpos |]. rewrite Z.mul_comm. lia.
    - apply Z.div_lt_upper_bound; [exact Hpos |]. lia. }
  set (m1 := round_nearest_even (shr_m mrs') (loc_of_shr_record mrs')).
  pose proof (round_nearest_even_bounds (shr_m mrs') (loc_of_shr_record mrs')) as Hr.
  fold m1 in Hr.
  assert (Hm1pos : 0 < m1) by lia.
  assert (Hd1 : 53 <= Zdigits2 m1 <= 54).
  { rewrite Zdigits2_log2 by exact Hm1pos.
    assert (52 <= Z.log2 m1) by (apply Z.log2_le_pow2; lia).
    assert (Z.log2 m1 < 54) by (apply Z.log2_lt_pow2; lia).
    lia. }
  pose proof (shr_fexp_m m1 e' loc_Exact ltac:(lia)) as Hm2.
  pose proof (shr_fexp_exponent m1 e' loc_Exact ltac:(lia)) as He2.
  assert (Hf2 : fexp prec emax (Zdigits2 m1 + e') = Zdigits2 m1 + e' - 53)
    by (unfold fexp, emin, prec, emax; lia).
  rewrite Hf2 in Hm2, He2.
  destruct (shr_fexp prec emax m1 e' loc_Exact) as [mrs'' e''].
  cbn [fst snd] in Hm2, He2.
  assert (Hpos2 : 0 < shr_m mrs'').
  { rewrite Hm2.
    assert (Hk : Z.max 0 (Zdigits2 m1 + e' - 53 - e') = 0
                 \/ Z.max 0 (Zdigits2 m1 + e' - 53 - e') = 1) by lia.
    destruct Hk as [-> | ->].
    - rewrite Z.pow_0_r, Z.div_1_r. exact Hm1pos.
    - apply Z.div_str_pos. lia. }
  destruct (shr_m mrs'') as [| m | m]; try lia.
  assert (Hgt : (e'' <=? emax - prec) = false)
    by (apply Z.leb_gt; unfold emax, prec; lia).
  rewrite Hgt. reflexivity.
Qed.

Lemma float_of_int_overflows (z : Z) :
  2 ^ 1024 <= Z.abs z ->
  float_of_int z = Raise (OverflowError int_too_large_for_float).
Proof.
  intros Hz. unfold float_of_int.
  destruct z as [| p | p]; [simpl in Hz; lia | |]; simpl binary_normalize;
    rewrite binary_round_overflows by (simpl in Hz; lia); reflexivity.
Qed.

(** *** What the extraction raises, from the bytes *)

Lemma count_of_cell_returns (v : value) :
  convertible_cell v -> exists n, count_of_cell v = Ok n.
Proof.
  intros Hc. destruct (count_of_cell v) as [n | e] eqn:H; [eauto |].
  destruct (count_of_cell_raises _ _ H) as (_ & z & -> & Hz).
  simpl in Hc. lia.
Qed.

Lemma count_of_cell_overflows (z : Z) :
  2 ^ 1024 <= Z.abs z ->
  count_of_cell (VInt z) = Raise (OverflowError int_too_large_for_float).
Proof.
  intros Hz. unfold count_of_cell. cbn [truthy float].
  destruct (Z.eqb_spec z 0) as [-> | _]; [simpl in Hz; lia |].
  cbn [negb]. rewrite (float_of_int_overflows z Hz). reflexivity.
Qed.

Lemma engagement_rows_raises_at (ws : worksheet) (rows1 rows2 : list nat) (row : nat)
    (e : exn) :
  (forall r, r ∈ rows1 ->
     ~ blank_engagement ws r /\ convertible_cell (cell ws r 3)) ->
  cell ws row 1 <> VNone -> cell ws row 2 <> VNone ->
  count_of_cell (cell ws row 3) = Raise e ->
  engagement_rows ws (rows1 ++ row :: rows2) = Raise e.
Proof.
  intros Hrows H1 H2 Hc.
  induction rows1 as [| r rows1 IH].
  - cbn [app engagement_rows].
    destruct (is_None (cell ws row 1)) eqn:E1; [apply is_None_true in E1; congruence |].
    destruct (is_None (cell ws row 2)) eqn:E2; [apply is_None_true in E2; congruence |].
    cbn [andb orb]. rewrite Hc. reflexivity.
  - cbn [app engagement_rows].
    destruct (Hrows r ltac:(left)) as [Hnb Hconv].
    assert (IH' : engagement_rows ws (rows1 ++ row :: rows2) = Raise e).
    { apply IH. intros r' Hr'. apply Hrows. right. exact Hr'. }
    destruct (is_None (cell ws r 1) && is_None (cell ws r 2)
              && is_None (cell ws r 3)) eqn:Eb.
    { exfalso. apply Hnb.
      apply andb_prop in Eb. destruct Eb as [Eb E3].
      apply andb_prop in Eb. destruct Eb as [E1 E2].
      rewrite !is_None_true in *. repeat split; assumption. }
    destruct (is_None (cell ws r 1) || is_None (cell ws r 2)); [exact IH' |].
    destruct (count_of_cell_returns _ Hconv) as (n & ->).
    cbn [mbind result_bind]. rewrite IH'. reflexivity.
Qed.

Lemma impression_rows_raises_at (ws : worksheet) (rows1 rows2 : list nat) (row : nat)
    (e : exn) :
  (forall r, r ∈ rows1 ->
     ~ blank_impression ws r /\ convertible_cell (cell ws r 7)) ->
  cell ws row 5 <> VNone -> cell ws row 7 <> VNone ->
  count_of_cell (cell ws row 7) = Raise e ->
  impression_rows ws (rows1 ++ row :: rows2) = Raise e.
Proof.
  intros Hrows H5 H7 Hc.
  induction rows1 as [| r rows1 IH].
  - cbn [app impression_rows].
    destruct (is_None (cell ws row 5)) eqn:E5; [apply is_None_true in E5; congruence |].
    destruct (is_None (cell ws row 7)) eqn:E7; [apply is_None_true in E7; congruence |].
    cbn [andb orb]. rewrite Hc. reflexivity.
  - cbn [app impression_rows].
    destruct (Hrows r ltac:(left)) as [Hnb Hconv].
    assert (IH' : impression_rows ws (rows1 ++ row :: rows2) = Raise e).
    { apply IH. intros r' Hr'. apply Hrows. right. exact Hr'. }
    destruct (is_None (cell ws r 5) && is_None (cell ws r 7)) eqn:Eb.
    { exfalso. apply Hnb.
      apply andb_prop in Eb. destruct Eb as [E5 E7].
      rewrite !is_None_true in *. split; assumption. }
    destruct (is_None (cell ws r 5) || is_None (cell ws r 7)); [exact IH' |].
    destruct (count_of_cell_returns _ Hconv) as (n & ->).
    cbn [mbind result_bind]. rewrite IH'. reflexivity.
Qed.

Lemma engagement_rows_returns (ws : worksheet) (rows : list nat) :
  (forall r, r ∈ rows -> convertible_cell (cell ws r 3)) ->
  exists E, engagement_rows ws rows = Ok E.
Proof.
  intros Hc. destruct (engagement_rows ws rows) as [E | e] eqn:HE; [eauto |].
  exfalso.
  destruct (engagement_rows_raises _ _ _ HE) as (row & Hr & Hraise).
  destruct (count_of_cell_raises _ _ Hraise) as (_ & z & Hz & Hb).
  specialize (Hc row Hr). rewrite Hz in Hc. simpl in Hc. lia.
Qed.

Lemma count_of_cell_raises_float (v : value) (e : exn) :
  count_of_cell v = Raise e -> float v = Raise e.
Proof.
  unfold count_of_cell. destruct (truthy v); [| discriminate].
  destruct (float v) as [f | [m | m | m | m]]; try discriminate; congruence.
Qed.

Lemma parse_top_posts_rows_overflow (ws : worksheet) (e : exn) :
  parse_top_posts_rows ws = Raise e ->
  e = OverflowError int_too_large_for_float
  /\ exists row z,
       row ∈ data_rows ws
       /\ (cell ws row 3 = VInt z \/ cell ws row 7 = VInt z)
       /\ float (VInt z) = Raise (OverflowError int_too_large_for_float)
       /\ 2 ^ 1023 <= Z.abs z.
Proof.
  rewrite parse_top_posts_rows_views.
  destruct (engagement_rows ws (data_rows ws)) as [E | e0] eqn:HE; simpl.
  - destruct (impression_rows ws (data_rows ws)) as [I | e1] eqn:HI; simpl;
      [discriminate |].
    intros [= <-].
    destruct (impression_rows_raises _ _ _ HI) as (row & Hr & Hc).
    pose proof (count_of_cell_raises_float _ _ Hc) as Hf.
    destruct (count_of_cell_raises _ _ Hc) as (-> & z & Hz & Hb).
    split; [reflexivity |]. exists row, z. rewrite Hz in Hf. auto.
  - intros [= <-].
    destruct (engagement_rows_raises _ _ _ HE) as (row & Hr & Hc).
    pose proof (count_of_cell_raises_float _ _ Hc) as Hf.
    destruct (count_of_cell_raises _ _ Hc) as (-> & z & Hz & Hb).
    split; [reflexivity |]. exists row, z. rewrite Hz in Hf. auto.
Qed.

Lemma parse_top_posts_sheet_bytes_xlsx (wb : workbook) :
  parse_top_posts_sheet_bytes (xlsx wb) = parse_top_posts_sheet wb.
Proof. reflexivity. Qed.

(** The TOP POSTS extraction, from the bytes of the file, is lenient.  It
    fails in three cases only, each reported as its own [ValueError]: the
    reader raises on the bytes; the workbook has no TOP POSTS sheet; or
    [float] raises an [OverflowError], which the inner [except (ValueError,
    TypeError)] lets through, on an engagements or impressions cell of a
    data row that holds an [int], and such an [int] has a magnitude of
    [2^1023] at least.  Each case does fail: bytes that are not a workbook,
    a workbook without the sheet, and an [int] of magnitude [2^1024] or
    more in column C of a row that the engagement scan reaches with a URL
    and a publish date, or in column G of a row that the impression scan
    reaches with a URL after an engagement scan that converts.  With the
    sheet there and every [int] of columns C and G below [2^1023], the
    extraction returns, whatever else the cells hold. *)
Theorem top_posts_extraction_failures (file_content : file_content) :
  (forall e,
      parse_top_posts_sheet_bytes file_content = Raise e ->
      (exists e0,
         file_content = not_xlsx e0
         /\ e = ValueError (failed_to_parse_top_posts_sheet (exn_message e0)))
      \/ (exists wb,
            file_content = xlsx wb
            /\ dict_get "TOP POSTS" wb = None
            /\ e = ValueError
                     (failed_to_parse_top_posts_sheet (sheet_not_found "TOP POSTS")))
      \/ (e = ValueError (failed_to_parse_top_posts_sheet int_too_large_for_float)
          /\ exists wb ws row z,
               file_content = xlsx wb
               /\ dict_get "TOP POSTS" wb = Some ws
               /\ row ∈ data_rows ws
               /\ (cell ws row 3 = VInt z \/ cell ws row 7 = VInt z)
               /\ float (VInt z) = Raise (OverflowError int_too_large_for_float)
               /\ 2 ^ 1023 <= Z.abs z))
  /\ (forall e0,
        file_content = not_xlsx e0 ->
        parse_top_posts_sheet_bytes file_content
        = Raise (ValueError (failed_to_parse_top_posts_sheet (exn_message e0))))
  /\ (forall wb,
        file_content = xlsx wb ->
        dict_get "TOP POSTS" wb = None ->
        parse_top_posts_sheet_bytes file_content
        = Raise (ValueError
                   (failed_to_parse_top_posts_sheet (sheet_not_found "TOP POSTS"))))
  /\ (forall wb ws row z,
        file_content = xlsx wb ->
        dict_get "TOP POSTS" wb = Some ws ->
        (4 <= row <= max_row ws)%nat ->
        (forall r, (4 <= r < row)%nat ->
           ~ blank_engagement ws r /\ convertible_cell (cell ws r 3)) ->
        cell ws row 1 <> VNone -> cell ws row 2 <> VNone ->
        cell ws row 3 = VInt z -> 2 ^ 1024 <= Z.abs z ->
        parse_top_posts_sheet_bytes file_content
        = Raise (ValueError
                   (failed_to_parse_top_posts_sheet int_too_large_for_float)))
  /\ (forall wb ws row z,
        file_content = xlsx wb ->
        dict_get "TOP POSTS" wb = Some ws ->
        (forall r, r ∈ data_rows ws -> convertible_cell (cell ws r 3)) ->
        (4 <= row <= max_row ws)%nat ->
        (forall r, (4 <= r < row)%nat ->
           ~ blank_impression ws r /\ convertible_cell (cell ws r 7)) ->
        cell ws row 5 <> VNone ->
        cell ws row 7 = VInt z -> 2 ^ 1024 <= Z.abs z ->
        parse_top_posts_sheet_bytes file_content
        = Raise (ValueError
                   (failed_to_parse_top_posts_sheet int_too_large_for_float)))
  /\ (forall wb ws,
        file_content = xlsx wb ->
        dict_get "TOP POSTS" wb = Some ws ->
        (forall row, row ∈ data_rows ws ->
           convertible_cell (cell ws row 3) /\ convertible_cell (cell ws row 7)) ->
        returns (parse_top_posts_sheet_bytes file_content)).
Proof.
  split; [| split; [| split; [| split; [| split]]]].
  - intros e. destruct file_content as [wb | e0].
    + rewrite parse_top_posts_sheet_bytes_xlsx. unfold parse_top_posts_sheet, sheet.
      destruct (dict_get "TOP POSTS" wb) as [ws |] eqn:Hs; simpl.
      * destruct (parse_top_posts_rows ws) as [l | e1] eqn:Hp; simpl; [discriminate |].
        intros [= <-]. right. right.
        destruct (parse_top_posts_rows_overflow _ _ Hp)
          as (-> & row & z & Hr & Hz & Hf & Hb).
        split; [reflexivity |]. exists wb, ws, row, z.
        split; [reflexivity |]. split; [exact Hs |]. split; [exact Hr |].
        split; [exact Hz |]. split; [exact Hf | exact Hb].
      * intros [= <-]. right. left. exists wb.
        split; [reflexivity |]. split; [exact Hs | reflexivity].
    + intros [= <-]. left. exists e0. split; reflexivity.
  - intros e0 ->. reflexivity.
  - intros wb -> Hs. rewrite parse_top_posts_sheet_bytes_xlsx.
    unfold parse_top_posts_sheet, sheet. rewrite Hs. reflexivity.
  - intros wb ws row z -> Hs Hr Hrows H1 H2 H3 Hz.
    rewrite parse_top_posts_sheet_bytes_xlsx.
    unfold parse_top_posts_sheet, sheet. rewrite Hs. cbn [mbind result_bind].
    rewrite parse_top_posts_rows_views, (data_rows_split ws row Hr).
    rewrite (engagement_rows_raises_at ws _ _ row
               (OverflowError int_too_large_for_float)); [reflexivity | | exact H1 | exact H2 |].
    + intros r Hr'. apply Hrows. apply (elem_of_data_rows_cut ws). exact Hr'.
    + rewrite H3. apply count_of_cell_overflows, Hz.
  - intros wb ws row z -> Hs Hconv Hr Hrows H5 H7 Hz.
    rewrite parse_top_posts_sheet_bytes_xlsx.
    unfold parse_top_posts_sheet, sheet. rewrite Hs. cbn [mbind result_bind].
    rewrite parse_top_posts_rows_views.
    destruct (engagement_rows_returns ws (data_rows ws) Hconv) as (E & ->).
    cbn [mbind result_bind]. rewrite (data_rows_split ws row Hr).
    rewrite (impression_rows_raises_at ws _ _ row
               (OverflowError int_too_large_for_float));
      [reflexivity | | exact H5 | rewrite H7; discriminate |].
    + intros r Hr'. apply Hrows. apply (elem_of_data_rows_cut ws). exact Hr'.
    + rewrite H7. apply count_of_cell_overflows, Hz.
  - intros wb ws -> Hs Hc. rewrite parse_top_posts_sheet_bytes_xlsx.
    unfold parse_top_posts_sheet, sheet. rewrite Hs. simpl.
    destruct (parse_top_posts_rows ws) as [l | e0] eqn:Hp; simpl;
      [exists l; reflexivity |].
    exfalso.
    destruct (parse_top_posts_rows_raises _ _ Hp) as (_ & row & z & Hr & Hz & Hb).
    destruct (Hc row Hr) as [H3 H7].
    destruct Hz as [Hz | Hz]; [rewrite Hz in H3 | rewrite Hz in H7];
      simpl in *; lia.
Qed.

(** The example's workbook is read; bytes that are not a workbook, a
    workbook without the sheet and the sheet with [2^1024] in column C
    are the three failures. *)
Lemma top_posts_extraction_failures_witness :
  returns (parse_top_posts_sheet_bytes (xlsx sample_workbook))
  /\ parse_top_posts_sheet_bytes
       (not_xlsx (ValueError (library_message "File is not a zip file")))
     = Raise (ValueError
                (failed_to_parse_top_posts_sheet
                   (library_message "File is not a zip file")))
  /\ parse_top_posts_sheet_bytes (xlsx [("DISCOVERY", sheet_discovery)])
     = Raise (ValueError
                (failed_to_parse_top_posts_sheet (sheet_not_found "TOP POSTS")))
  /\ parse_top_posts_sheet_bytes (xlsx [("TOP POSTS", sheet_too_large)])
     = Raise (ValueError
                (failed_to_parse_top_posts_sheet int_too_large_for_float)).
Proof.
  split; [| split; [| split]].
  - apply (proj2 (proj2 (proj2 (proj2 (proj2
             (top_posts_extraction_failures (xlsx sample_workbook))))))
             sample_workbook sheet_one_post eq_refl eq_refl).
    intros row Hr. change (data_rows sheet_one_post) with [4%nat] in Hr.
    apply list_elem_of_singleton in Hr. subst row. split; exact I.
  - exact (proj1 (proj2 (top_posts_extraction_failures
             (not_xlsx (ValueError (library_message "File is not a zip file")))))
             (ValueError (library_message "File is not a zip file")) eq_refl).
  - apply (proj1 (proj2 (proj2 (top_posts_extraction_failures
             (xlsx [("DISCOVERY", sheet_discovery)]))))
             [("DISCOVERY", sheet_discovery)] eq_refl eq_refl).
  - apply (proj1 (proj2 (proj2 (proj2 (top_posts_extraction_failures
             (xlsx [("TOP POSTS", sheet_too_large)])))))
             [("TOP POSTS", sheet_too_large)] sheet_too_large 4%nat (2 ^ 1024)
             eq_refl eq_refl).
    + simpl. lia.
    + intros r Hr. lia.
    + discriminate.
    + discriminate.
    + reflexivity.
    + rewrite Z.abs_eq; [lia |]. apply Z.pow_nonneg. lia.
Defined.

(** *** The last engagement row of a URL *)

Lemma last_engagement_app u E1 E2 :
  last_engagement u (E1 ++ E2)
  = match last_engagement u E2 with
    | Some x => Some x
    | None => last_engagement u E1
    end.
Proof.
  induction E2 as [| [[u' d] e] E2 IH] using rev_ind.
  - rewrite app_nil_r. reflexivity.
  - rewrite app_assoc, !last_engagement_snoc.
    destruct (decide (u' = u)); [reflexivity | exact IH].
Qed.

Lemma last_engagement_cons u u' d e E :
  last_engagement u ((u', d, e) :: E)
  = match last_engagement u E with
    | Some x => Some x
    | None => if decide (u' = u) then Some (d, e) else None
    end.
Proof.
  change ((u', d, e) :: E) with ([(u', d, e)] ++ E)%list.
  rewrite last_engagement_app. reflexivity.
Qed.

(** Rows whose URL is not [u], or that are skipped, seed no entry of [u]. *)
Lemma engagement_rows_without (ws : worksheet) (u : string) (rows : list nat) :
  forall E,
    engagement_rows ws rows = Ok E ->
    (forall r, r ∈ rows ->
       cell ws r 1 = VNone \/ cell ws r 2 = VNone \/ str (cell ws r 1) <> u) ->
    last_engagement u E = None.
Proof.
  induction rows as [| r rows IH]; intros E HE Hno.
  - injection HE as <-. reflexivity.
  - assert (Hno' : forall r', r' ∈ rows ->
              cell ws r' 1 = VNone \/ cell ws r' 2 = VNone \/ str (cell ws r' 1) <> u)
      by (intros r' Hr'; apply Hno; right; exact Hr').
    cbn [engagement_rows] in HE.
    destruct (is_None (cell ws r 1) && is_None (cell ws r 2)
              && is_None (cell ws r 3)).
    { injection HE as <-. reflexivity. }
    destruct (is_None (cell ws r 1) || is_None (cell ws r 2)) eqn:Es.
    { apply (IH E HE Hno'). }
    destruct (count_of_cell (cell ws r 3)) as [n | ex]; simpl in HE; [| discriminate].
    destruct (engagement_rows ws rows) as [found | ex]; simpl in HE; [| discriminate].
    injection HE as <-. rewrite last_engagement_cons, (IH found eq_refl Hno').
    apply orb_false_elim in Es as [E1 E2].
    destruct (Hno r) as [H | [H | H]]; [left | | |].
    + rewrite H in E1. discriminate.
    + rewrite H in E2. discriminate.
    + destruct (decide (str (cell ws r 1) = u)); [contradiction | reflexivity].
Qed.

(** The last engagement row of a URL that the first loop reaches is the
    last engagement of that URL. *)
Lemma engagement_rows_last (ws : worksheet) (rows1 rows2 : list nat) (row : nat) :
  forall E,
    engagement_rows ws (rows1 ++ row :: rows2) = Ok E ->
    (forall r, r ∈ rows1 -> ~ blank_engagement ws r) ->
    cell ws row 1 <> VNone -> cell ws row 2 <> VNone ->
    (forall r, r ∈ rows2 ->
       cell ws r 1 = VNone \/ cell ws r 2 = VNone
       \/ str (cell ws r 1) <> str (cell ws row 1)) ->
    exists e,
      count_of_cell (cell ws row 3) = Ok e
      /\ last_engagement (str (cell ws row 1)) E = Some (str (cell ws row 2), e).
Proof.
  intros E HE Hnb H1 H2 Hafter. revert E HE.
  induction rows1 as [| r rows1 IH]; intros E HE.
  - cbn [app engagement_rows] in HE.
    destruct (is_None (cell ws row 1)) eqn:E1; [apply is_None_true in E1; congruence |].
    destruct (is_None (cell ws row 2)) eqn:E2; [apply is_None_true in E2; congruence |].
    cbn [andb orb] in HE.
    destruct (count_of_cell (cell ws row 3)) as [e | ex]; simpl in HE; [| discriminate].
    destruct (engagement_rows ws rows2) as [E2' | ex] eqn:Hrest; simpl in HE;
      [| discriminate].
    injection HE as <-. exists e. split; [reflexivity |].
    rewrite last_engagement_cons.
    rewrite (engagement_rows_without _ _ _ _ Hrest Hafter).
    destruct (decide (str (cell ws row 1) = str (cell ws row 1)));
      [reflexivity | contradiction].
  - cbn [app engagement_rows] in HE.
    destruct (is_None (cell ws r 1) && is_None (cell ws r 2)
              && is_None (cell ws r 3)) eqn:Eb.
    { exfalso. apply (Hnb r); [left |].
      apply andb_prop in Eb. destruct Eb as [Eb E3].
      apply andb_prop in Eb. destruct Eb as [E1 E2].
      rewrite !is_None_true in *. repeat split; assumption. }
    assert (Hnb' : forall r', r' ∈ rows1 -> ~ blank_engagement ws r')
      by (intros r' Hr'; apply Hnb; right; exact Hr').
    destruct (is_None (cell ws r 1) || is_None (cell ws r 2)).
    + apply (IH Hnb'), HE.
    + destruct (count_of_cell (cell ws r 3)); simpl in HE; [| discriminate].
      destruct (engagement_rows ws (rows1 ++ row :: rows2)) as [found |] eqn:Hf;
        simpl in HE; [| discriminate].
      injection HE as <-.
      destruct (IH Hnb' found eq_refl) as (e & He & Hlast).
      exists e. split; [exact He |].
      rewrite last_engagement_cons, Hlast. reflexivity.
Qed.

Lemma parse_top_posts_sheet_bytes_inv (file_content : file_content) (l : list post) :
  parse_top_posts_sheet_bytes file_content = Ok l ->
  exists wb ws,
    file_content = xlsx wb /\ dict_get "TOP POSTS" wb = Some ws
    /\ parse_top_posts_rows ws = Ok l.
Proof.
  destruct file_content as [wb | e]; [| discriminate].
  rewrite parse_top_posts_sheet_bytes_xlsx. intros H.
  apply parse_top_posts_sheet_inv in H as (ws & Hs & H).
  exists wb, ws. repeat split; assumption.
Qed.

(** C10.  The URLs of the records returned by the TOP POSTS extraction
    are pairwise distinct: for the sheet, for the workbook and for the
    bytes of the file.  The record returned for a URL has the publish date
    and the engagements of the last engagement row of that URL (the empty
    text and 0 when only the impression view has it); in terms of the
    sheet: when rows 4 to [row - 1] are not empty in the engagement view,
    row [row] has a URL and a publish date, and no row below it that seeds
    an entry has the same URL text, then the list holds exactly one record
    with that URL, and it has the publish date and the converted
    engagements of row [row], whatever the rows above it hold.  Seeding an
    entry stores the record of the row under its URL, and when the URL is
    already a key the keys of the dictionary stay as they are. *)
Theorem C10_urls_pairwise_distinct :
  (forall ws l, parse_top_posts_rows ws = Ok l -> NoDup (map url l))
  /\ (forall wb l, parse_top_posts_sheet wb = Ok l -> NoDup (map url l))
  /\ (forall file_content l,
        parse_top_posts_sheet_bytes file_content = Ok l -> NoDup (map url l))
  /\ (forall wb ws l,
        dict_get "TOP POSTS" wb = Some ws ->
        parse_top_posts_sheet_bytes (xlsx wb) = Ok l ->
        (exists E,
           engagement_rows ws (data_rows ws) = Ok E
           /\ forall p, p ∈ l ->
                match last_engagement (url p) E with
                | Some (d, e) => publish_date p = d /\ engagements p = e
                | None => publish_date p = "" /\ engagements p = Int 0
                end)
        /\ (forall row,
              (4 <= row <= max_row ws)%nat ->
              (forall r, (4 <= r < row)%nat -> ~ blank_engagement ws r) ->
              cell ws row 1 <> VNone -> cell ws row 2 <> VNone ->
              (forall r, (row < r <= max_row ws)%nat ->
                 cell ws r 1 = VNone \/ cell ws r 2 = VNone
                 \/ str (cell ws r 1) <> str (cell ws row 1)) ->
              exists p,
                p ∈ l
                /\ url p = str (cell ws row 1)
                /\ publish_date p = str (cell ws row 2)
                /\ count_of_cell (cell ws row 3) = Ok (engagements p)
                /\ forall q, q ∈ l -> url q = url p -> q = p))
  /\ (forall posts u d e,
        dict_get u (seed_engagement posts (u, d, e))
        = Some {| url := u; publish_date := d; engagements := e; impressions := Int 0 |}
        /\ (dict_contains u posts = true ->
            dict_keys (seed_engagement posts (u, d, e)) = dict_keys posts)).
Proof.
  assert (Hrows : forall ws l, parse_top_posts_rows ws = Ok l -> NoDup (map url l)).
  { intros ws l H. apply parse_top_posts_rows_inv in H as (E & I & _ & _ & ->).
    rewrite (Permutation_map url (sort_by_engagements_Permutation _)).
    rewrite keyed_by_url_values by apply keyed_by_url_merge_views.
    apply keyed_by_url_merge_views. }
  split; [exact Hrows |]. split; [| split; [| split]].
  - intros wb l H. apply parse_top_posts_sheet_inv in H as (ws & _ & H).
    eapply Hrows, H.
  - intros fc l H. apply parse_top_posts_sheet_bytes_inv in H as (wb & ws & _ & _ & H).
    eapply Hrows, H.
  - intros wb ws l Hs H.
    apply parse_top_posts_sheet_bytes_inv in H as (wb' & ws' & Hwb & Hs' & H).
    injection Hwb as <-. rewrite Hs in Hs'. injection Hs' as <-.
    apply parse_top_posts_rows_inv in H as (E & I & HE & HI & ->).
    split.
    + exists E. split; [exact HE |]. intros p Hp.
      apply elem_of_merged in Hp. rewrite merge_views_get in Hp.
      destruct (last_engagement (url p) E) as [[d e] |],
        (last_impression (url p) I) as [i |];
        try discriminate; injection Hp as <-; split; reflexivity.
    + intros row Hrow Hnb H1 H2 Hafter.
      rewrite (data_rows_split ws row Hrow) in HE.
      destruct (engagement_rows_last _ _ _ _ _ HE) as (e & He & Hlast);
        [| exact H1 | exact H2 | |].
      { intros r Hr. apply Hnb. eapply elem_of_data_rows_cut, Hr. }
      { intros r Hr. apply Hafter. apply elem_of_seq in Hr. lia. }
      pose proof (merge_views_get (str (cell ws row 1)) E I) as Hget.
      rewrite Hlast in Hget.
      assert (Hp : exists p,
                 dict_get (str (cell ws row 1)) (merge_views E I) = Some p
                 /\ url p = str (cell ws row 1)
                 /\ publish_date p = str (cell ws row 2)
                 /\ engagements p = e).
      { destruct (last_impression (str (cell ws row 1)) I) as [i |];
          (eexists; split; [exact Hget | repeat split]). }
      destruct Hp as (p & Hp & Hu & Hd & Hen).
      exists p. split; [| split; [exact Hu | split; [exact Hd | split]]].
      * rewrite sort_by_engagements_Permutation.
        apply elem_of_dict_values. exists (str (cell ws row 1)).
        apply dict_get_elem_of, Hp.
      * rewrite Hen. exact He.
      * intros q Hq Huq. apply elem_of_merged in Hq.
        rewrite Huq, Hu, Hp in Hq. injection Hq as <-. reflexivity.
  - intros posts u d e. unfold seed_engagement. split.
    + apply dict_get_set_eq.
    + intros Hc. rewrite dict_keys_set, Hc. reflexivity.
Qed.

(** C10 at the sheet whose rows 4 and 6 have the same URL: the URLs
    returned are pairwise distinct, and the one record of that URL is the
    one of row 6. *)
Lemma C10_distinct_witness :
  parse_top_posts_sheet_bytes (xlsx [("TOP POSTS", sheet_repeated_url)])
  = Ok repeated_url_posts
  /\ str (cell sheet_repeated_url 4 1) = str (cell sheet_repeated_url 6 1)
  /\ NoDup (map url repeated_url_posts)
  /\ exists p,
       p ∈ repeated_url_posts
       /\ url p = "https://x/1"
       /\ publish_date p = "2024-12-05"
       /\ count_of_cell (VInt 3) = Ok (engagements p).
Proof.
  assert (H : parse_top_posts_sheet_bytes (xlsx [("TOP POSTS", sheet_repeated_url)])
              = Ok repeated_url_posts)
    by (vm_compute; reflexivity).
  split; [exact H |]. split; [reflexivity |]. split.
  - exact (proj1 (proj2 (proj2 C10_urls_pairwise_distinct)) _ _ H).
  - destruct (proj1 (proj2 (proj2 (proj2 C10_urls_pairwise_distinct)))
                [("TOP POSTS", sheet_repeated_url)] sheet_repeated_url
                repeated_url_posts eq_refl H) as [_ Hrow].
    assert (Hm : max_row sheet_repeated_url = 6%nat) by reflexivity.
    destruct (Hrow 6%nat) as (p & Hp & Hu & Hd & He & _).
    + rewrite Hm. lia.
    + intros r Hr [H1 _].
      assert (r = 4 \/ r = 5)%nat as [-> | ->] by lia; vm_compute in H1; discriminate.
    + vm_compute. discriminate.
    + vm_compute. discriminate.
    + intros r Hr. rewrite Hm in Hr. lia.
    + exists p. split; [exact Hp |]. split; [exact Hu |]. split; [exact Hd | exact He].
Defined.

(* ===================================================================== *)
(** * Part XIX: get_top_posts, further properties *)
(* ===================================================================== *)

Lemma set_ranks_returns (l : list loc) :
  forall (h : gmap loc object) (idx : Z),
    (forall p, p ∈ l -> exists d, h !! p = Some (Dict d)) ->
    exists h', set_ranks h l idx = Ok h'.
Proof.
  induction l as [| p l IH]; intros h idx Hd; [eexists; reflexivity |].
  cbn [set_ranks]. destruct (Hd p) as (d & Hp); [left |]. rewrite Hp.
  apply IH. intros q Hq.
  destruct (decide (q = p)) as [-> | Hne].
  - rewrite lookup_insert_eq. eauto.
  - rewrite lookup_insert_ne by congruence. apply Hd. right. exact Hq.
Qed.

Lemma set_ranks_raises (l : list loc) :
  forall (h : gmap loc object) (idx : Z) (e : exn),
    set_ranks h l idx = Raise e -> e = TypeError wrong_operand_type.
Proof.
  induction l as [| p l IH]; intros h idx e; [discriminate |].
  cbn [set_ranks]. destruct (h !! p) as [[items | d] |]; try congruence.
  apply IH.
Qed.

Lemma set_ranks_insert_other (l : list loc) :
  forall (h : gmap loc object) (idx : Z) (t : loc) (o : object),
    t ∉ l ->
    set_ranks (<[t := o]> h) l idx
    = match set_ranks h l idx with
      | Ok h' => Ok (<[t := o]> h')
      | Raise e => Raise e
      end.
Proof.
  induction l as [| p l IH]; intros h idx t o Ht; [reflexivity |].
  apply not_elem_of_cons in Ht. destruct Ht as [Hne Ht].
  cbn [set_ranks]. rewrite lookup_insert_ne by congruence.
  destruct (h !! p) as [[items | d] |]; try reflexivity.
  rewrite insert_insert_ne by congruence. apply IH, Ht.
Qed.

Lemma set_ranks_rank_blind (l : list loc) :
  forall (ha hb : gmap loc object) (idx : Z),
    (forall q, q ∉ l -> ha !! q = hb !! q) ->
    (forall q, q ∈ l -> without_rank (ha !! q) = without_rank (hb !! q)) ->
    set_ranks ha l idx = set_ranks hb l idx.
Proof.
  induction l as [| p l IH]; intros ha hb idx Hout Hin.
  - simpl. f_equal. apply map_eq. intros q. apply Hout. inversion 1.
  - cbn [set_ranks]. pose proof (Hin p ltac:(left)) as Hp.
    destruct (ha !! p) as [[ia | da] |] eqn:Ha, (hb !! p) as [[ib | db] |] eqn:Hb;
      simpl in Hp; try discriminate; try reflexivity.
    assert (Hd : <["rank" := VInt idx]> da = <["rank" := VInt idx]> db).
    { rewrite <- (insert_delete_eq da), <- (insert_delete_eq db). congruence. }
    rewrite Hd. apply IH.
    + intros q Hq. destruct (decide (q = p)) as [-> | Hne].
      * rewrite !lookup_insert_eq. reflexivity.
      * rewrite !lookup_insert_ne by congruence. apply Hout.
        intros Hc. apply elem_of_cons in Hc. tauto.
    + intros q Hq. destruct (decide (q = p)) as [-> | Hne].
      * rewrite !lookup_insert_eq. reflexivity.
      * rewrite !lookup_insert_ne by congruence. apply Hin. right. exact Hq.
Qed.

Lemma set_ranks_idem (l : list loc) :
  forall (h h' : gmap loc object) (idx : Z),
    set_ranks h l idx = Ok h' -> set_ranks h' l idx = Ok h'.
Proof.
  induction l as [| p l IH]; intros h h' idx Hs; [reflexivity |].
  cbn [set_ranks] in Hs.
  destruct (h !! p) as [[items | d] |] eqn:Hp; try discriminate.
  pose proof (IH _ _ _ Hs) as Hrest.
  destruct (set_ranks_frame l _ _ _ Hs) as [Hout Hin].
  cbn [set_ranks].
  destruct (decide (p ∈ l)) as [Hpl | Hpl].
  - destruct (Hin p Hpl) as (d0 & d' & _ & Hp' & _). rewrite Hp'.
    etransitivity; [| exact Hrest]. apply set_ranks_rank_blind.
    + intros q Hq. apply lookup_insert_ne. congruence.
    + intros q Hq. destruct (decide (q = p)) as [-> | Hne].
      * rewrite lookup_insert_eq, Hp'. simpl. rewrite delete_insert_eq. reflexivity.
      * rewrite lookup_insert_ne by congruence. reflexivity.
  - rewrite (Hout p Hpl), lookup_insert_eq, insert_insert_eq.
    rewrite insert_id; [exact Hrest |].
    rewrite (Hout p Hpl). apply lookup_insert_eq.
Qed.

Lemma get_top_posts_raises (h : gmap loc object) (posts : loc) (e : exn) :
  get_top_posts h posts = Raise e -> e = TypeError wrong_operand_type.
Proof.
  unfold get_top_posts.
  destruct (h !! posts) as [[items | d] |]; try congruence.
  destruct (set_ranks _ _ _) as [h1 | e0] eqn:E; simpl; [discriminate |].
  intros [= <-]. apply (set_ranks_raises _ _ _ _ E).
Qed.

(** [get_top_posts] returns exactly when its argument is a list whose
    first six entries are dictionaries, and raises a [TypeError] otherwise.
    Calling it a second time on the same list changes no object of the
    heap: the records keep the ranks of the first call, also when a record
    occurs twice, and only a new list with the same entries is made. *)
Theorem get_top_posts_returns_and_repeats (h : gmap loc object) (posts : loc) :
  (returns (get_top_posts h posts) <-> rankable h posts)
  /\ (forall e, get_top_posts h posts = Raise e -> e = TypeError wrong_operand_type)
  /\ (forall h1 t1,
        get_top_posts h posts = Ok (h1, t1) ->
        exists h2 t2,
          get_top_posts h1 posts = Ok (h2, t2)
          /\ t2 <> t1
          /\ h2 !! t2 = h1 !! t1
          /\ forall q, q <> t2 -> h2 !! q = h1 !! q).
Proof.
  split; [| split].
  - split.
    + intros [[h1 t1] H].
      destruct (get_top_posts_inv _ _ _ _ H) as (items & Hp & -> & Hs).
      exists items. split; [exact Hp |]. intros p Hin.
      destruct (set_ranks_frame _ _ _ _ Hs) as [_ Hd].
      destruct (Hd p Hin) as (d & _ & Hpd & _).
      destruct (decide (p = fresh (dom h))) as [-> | Hne].
      * rewrite lookup_insert_eq in Hpd. discriminate.
      * rewrite lookup_insert_ne in Hpd by congruence. eauto.
    + intros (items & Hp & Hd). unfold get_top_posts. rewrite Hp.
      destruct (set_ranks_returns (take 6 items)
                  (<[fresh (dom h) := List (take 6 items)]> h) 1) as (h1 & Hs).
      { intros p Hin. destruct (Hd p Hin) as (d & Hpd). exists d.
        rewrite lookup_insert_ne; [exact Hpd |].
        intros <-. rewrite fresh_not_in_heap in Hpd. discriminate. }
      rewrite Hs. eexists. reflexivity.
  - apply get_top_posts_raises.
  - intros h1 t1 H.
    destruct (get_top_posts_inv _ _ _ _ H) as (items & Hp & -> & Hs).
    set (top := take 6 items) in *. set (t1 := fresh (dom h)) in *.
    destruct (set_ranks_frame _ _ _ _ Hs) as [Hout Hin].
    assert (Hdict : forall p, p ∈ top -> exists d, h1 !! p = Some (Dict d)).
    { intros p Hp'. destruct (Hin p Hp') as (d & d' & _ & Hd' & _). eauto. }
    assert (Ht1 : t1 ∉ top).
    { intros Hc. destruct (Hin t1 Hc) as (d & _ & Hd & _).
      rewrite lookup_insert_eq in Hd. discriminate. }
    assert (Hposts : posts ∉ top).
    { intros Hc. destruct (Hin posts Hc) as (d & _ & Hd & _).
      destruct (decide (posts = t1)) as [Heq | Hne].
      - rewrite Heq, lookup_insert_eq in Hd. discriminate.
      - rewrite lookup_insert_ne in Hd by congruence. congruence. }
    assert (Hp1 : h1 !! posts = Some (List items)).
    { rewrite (Hout posts Hposts). rewrite lookup_insert_ne; [exact Hp |].
      intros Heq. unfold t1 in Heq. rewrite <- Heq, fresh_not_in_heap in Hp.
      discriminate. }
    assert (Ht1' : h1 !! t1 = Some (List top)).
    { rewrite (Hout t1 Ht1). apply lookup_insert_eq. }
    set (t2 := fresh (dom h1)).
    assert (Ht2 : t2 ∉ top).
    { intros Hc. destruct (Hdict t2 Hc) as (d & Hd).
      unfold t2 in Hd. rewrite fresh_not_in_heap in Hd. discriminate. }
    exists (<[t2 := List top]> h1), t2.
    split; [| split; [| split]].
    + unfold get_top_posts. rewrite Hp1. fold top. fold t2.
      rewrite (set_ranks_insert_other _ _ _ _ _ Ht2), (set_ranks_idem _ _ _ _ Hs).
      reflexivity.
    + intros Heq. unfold t2 in Heq. rewrite <- Heq, fresh_not_in_heap in Ht1'.
      discriminate.
    + rewrite lookup_insert_eq, Ht1'. reflexivity.
    + intros q Hq. apply lookup_insert_ne. congruence.
Qed.

(** The heap with the same record twice: rank 2 after the first call and after the second. *)
Lemma get_top_posts_repeats_witness :
  rankable heap_alias 0%nat
  /\ exists h1 t1 h2 t2,
       get_top_posts heap_alias 0%nat = Ok (h1, t1)
       /\ get_top_posts h1 0%nat = Ok (h2, t2)
       /\ rank_of h1 1%nat = Some (VInt 2)
       /\ rank_of h2 1%nat = Some (VInt 2).
Proof.
  assert (Hr : rankable heap_alias 0%nat).
  { exists [1; 1]%nat. split; [reflexivity |].
    intros p Hp. simpl in Hp. rewrite !elem_of_cons in Hp.
    destruct Hp as [-> | [-> | Hp]]; [eexists; reflexivity .. | inversion Hp]. }
  split; [exact Hr |].
  destruct (proj2 (proj1 (get_top_posts_returns_and_repeats heap_alias 0%nat)) Hr)
    as [[h1 t1] H1].
  destruct (proj2 (proj2 (get_top_posts_returns_and_repeats heap_alias 0%nat))
              h1 t1 H1) as (h2 & t2 & H2 & Hne & _ & Hsame).
  exists h1, t1, h2, t2. split; [exact H1 |]. split; [exact H2 |].
  assert (Hrank : rank_of h1 1%nat = Some (VInt 2)).
  { vm_compute in H1. injection H1 as <- <-. vm_compute. reflexivity. }
  split; [exact Hrank |].
  unfold rank_of. rewrite Hsame; [exact Hrank |].
  intros Heq. destruct (get_top_posts_inv _ _ _ _ H2) as (items & _ & Ht2 & _).
  vm_compute in H1. injection H1 as <- <-.
  rewrite <- Heq in Ht2. vm_compute in Ht2. discriminate.
Defined.

(* ===================================================================== *)
(** * Part XX: eda.py, the columns of the fallback *)
(* ===================================================================== *)









(* ===================================================================== *)
(** * Part XXI: what the parsers do not read *)
(* ===================================================================== *)

Lemma engagement_rows_ext (ws ws' : worksheet) (rows : list nat) :
  (forall r, r ∈ rows ->
     cell ws r 1 = cell ws' r 1 /\ cell ws r 2 = cell ws' r 2
     /\ cell ws r 3 = cell ws' r 3) ->
  engagement_rows ws rows = engagement_rows ws' rows.
Proof.
  induction rows as [| row rows IH]; intros H; [reflexivity |].
  cbn [engagement_rows].
  destruct (H row) as (-> & -> & ->); [left |].
  rewrite IH; [reflexivity |]. intros r Hr. apply H. right. exact Hr.
Qed.

Lemma impression_rows_ext (ws ws' : worksheet) (rows : list nat) :
  (forall r, r ∈ rows ->
     cell ws r 5 = cell ws' r 5 /\ cell ws r 7 = cell ws' r 7) ->
  impression_rows ws rows = impression_rows ws' rows.
Proof.
  induction rows as [| row rows IH]; intros H; [reflexivity |].
  cbn [impression_rows].
  destruct (H row) as (-> & ->); [left |].
  rewrite IH; [reflexivity |]. intros r Hr. apply H. right. exact Hr.
Qed.

(** The TOP POSTS extraction reads the number of rows and, in rows 4 and
    below, columns A, B, C, E and G, and nothing else: two sheets that
    agree there give the same result, list or error.  The note and the
    headers of rows 1 to 3 are not checked, and the publish date of the
    impression view (column F) is not read. *)
Theorem only_the_two_views_are_read (ws ws' : worksheet) :
  max_row ws = max_row ws' ->
  (forall r c, (4 <= r <= max_row ws)%nat -> c ∈ [1; 2; 3; 5; 7]%nat ->
               cell ws r c = cell ws' r c) ->
  parse_top_posts_rows ws = parse_top_posts_rows ws'
  /\ forall wb wb',
       dict_get "TOP POSTS" wb = Some ws -> dict_get "TOP POSTS" wb' = Some ws' ->
       parse_top_posts_sheet wb = parse_top_posts_sheet wb'.
Proof.
  intros Hmax Hc.
  assert (Hrows : data_rows ws' = data_rows ws)
    by (unfold data_rows; rewrite Hmax; reflexivity).
  assert (Hin : forall r, r ∈ data_rows ws -> (4 <= r <= max_row ws)%nat).
  { intros r. unfold data_rows. rewrite elem_of_seq. lia. }
  assert (HE : engagement_rows ws (data_rows ws)
               = engagement_rows ws' (data_rows ws)).
  { apply engagement_rows_ext. intros r Hr. pose proof (Hin r Hr).
    repeat split; apply Hc; try assumption; repeat constructor. }
  assert (HI : impression_rows ws (data_rows ws)
               = impression_rows ws' (data_rows ws)).
  { apply impression_rows_ext. intros r Hr. pose proof (Hin r Hr).
    repeat split; apply Hc; try assumption; repeat constructor. }
  assert (H : parse_top_posts_rows ws = parse_top_posts_rows ws').
  { rewrite !parse_top_posts_rows_views, Hrows, HE.
    destruct (engagement_rows ws' (data_rows ws)); simpl; [| reflexivity].
    rewrite HI. reflexivity. }
  split; [exact H |].
  intros wb wb' Hs Hs'. unfold parse_top_posts_sheet, sheet.
  rewrite Hs, Hs'. simpl. rewrite H. reflexivity.
Qed.

(** Two sheets that differ in the headers and in column F. *)
Lemma only_the_two_views_witness :
  max_row sheet_one_post = max_row sheet_other_headers
  /\ cell sheet_one_post 3 1 <> cell sheet_other_headers 3 1
  /\ cell sheet_one_post 4 6 <> cell sheet_other_headers 4 6
  /\ parse_top_posts_rows sheet_one_post = parse_top_posts_rows sheet_other_headers.
Proof.
  split; [reflexivity |]. split; [discriminate |]. split; [discriminate |].
  apply (only_the_two_views_are_read sheet_one_post sheet_other_headers eq_refl).
  intros r c Hr Hc. assert (r = 4%nat) by (simpl in Hr; lia). subst r.
  rewrite !elem_of_cons in Hc.
  destruct Hc as [-> | [-> | [-> | [-> | [-> | Hc]]]]];
    [reflexivity .. | inversion Hc].
Defined.

(** [extract_discovery_data] looks at the three required labels only: two
    dictionaries that agree on them give the same result, summary or
    error, whatever else they hold. *)
Theorem other_labels_are_ignored (cells cells' : gmap string value) :
  (forall label, label ∈ required_fields -> cells !! label = cells' !! label) ->
  extract_discovery_data cells = extract_discovery_data cells'.
Proof.
  intros H.
  assert (Hdom : forall label, label ∈ required_fields ->
                   (label ∈ dom cells <-> label ∈ dom cells')).
  { intros label Hl. rewrite !elem_of_dom, (H label Hl). reflexivity. }
  destruct (decide (set_Forall (fun field => field ∈ dom cells) required_fields))
    as [Hall | Hnot].
  - destruct (required_present_lookup _ Hall) as (op & imp & mem & Hop & Himp & Hmem).
    rewrite (extract_present _ _ _ _ Hop Himp Hmem).
    symmetry. apply extract_present.
    + rewrite <- H; [exact Hop |]. apply elem_of_required_fields. auto.
    + rewrite <- H; [exact Himp |]. apply elem_of_required_fields. auto.
    + rewrite <- H; [exact Hmem |]. apply elem_of_required_fields. auto.
  - rewrite (extract_absent _ Hnot), extract_absent.
    + do 3 f_equal. apply set_eq. intros label.
      rewrite !elem_of_difference. specialize (Hdom label). tauto.
    + intros Hall. apply Hnot. intros label Hl. apply Hdom; [exact Hl |].
      apply Hall, Hl.
Qed.

(** The example's block with one more label. *)
Lemma other_labels_witness :
  extract_discovery_data (<["Engagements" := VInt 12]> sample_cells)
  = extract_discovery_data sample_cells
  /\ extract_discovery_data sample_cells = Ok sample_summary.
Proof.
  split; [| vm_compute; reflexivity].
  apply (other_labels_are_ignored (<["Engagements" := VInt 12]> sample_cells)
           sample_cells).
  intros label Hl. apply lookup_insert_ne.
  apply elem_of_required_fields in Hl.
  destruct Hl as [-> | [-> | ->]]; discriminate.
Defined.

(* ===================================================================== *)
(** * Part XXII: from the sheet to the leaderboard *)
(* ===================================================================== *)

Lemma StronglySorted_lookup {A} (R : A -> A -> Prop) (l : list A) :
  StronglySorted R l ->
  forall (i j : nat) a b,
    (i < j)%nat -> l !! i = Some a -> l !! j = Some b -> R a b.
Proof.
  induction 1 as [| x l Hs IH Hx]; intros i j a b Hij Hi Hj; [discriminate |].
  destruct j as [| j]; [lia |]. cbn in Hj.
  destruct i as [| i]; cbn in Hi.
  - injection Hi as <-. eapply Forall_forall in Hx; [exact Hx |].
    eapply list_elem_of_lookup_2. exact Hj.
  - apply (IH i j); [lia | exact Hi | exact Hj].
Qed.

Lemma sorted_without_nan (posts_list : list post) :
  no_nan (sort_by_engagements posts_list) ->
  StronglySorted not_below (sort_by_engagements posts_list).
Proof.
  intros Hnan.
  pose proof (sort_by_engagements_Permutation posts_list) as Hperm.
  apply (sort_reverse_sorted
           (fun x y : post => number_ltb (engagements x) (engagements y))
           (fun p : post => xreal_is_nan (number_value (engagements p)) = false)).
  - intros a b. apply xreal_ltb_asym.
  - intros a b c. apply xreal_ltb_negtrans.
  - rewrite <- Hperm. apply no_nan_ok, Hnan.
Qed.

(** The extraction and [get_top_posts], one after the other.  When no
    engagements value is a NaN and the list returned by the extraction
    sits in the heap as a list of dictionary objects, [get_top_posts]
    returns the first six of them with the ranks 1, 2, ... in that order,
    and the order is that of the engagements: a record that stands before
    another one, and so every record of the leaderboard compared with
    every record left out, is not below it. *)
Theorem leaderboard_holds_the_most_engaging (ws : worksheet) (l : list post)
    (h : gmap loc object) (posts : loc) :
  parse_top_posts_rows ws = Ok l ->
  no_nan l ->
  holds_records h posts l ->
  exists h' top_posts items,
    get_top_posts h posts = Ok (h', top_posts)
    /\ h !! posts = Some (List items)
    /\ h' !! top_posts = Some (List (take 6 items))
    /\ (forall (i : nat) q p,
          (i < 6)%nat -> items !! i = Some q -> l !! i = Some p ->
          h' !! q
          = Some (Dict (<["rank" := VInt (Z.of_nat i + 1)]> (dict_of_post p))))
    /\ (forall (i j : nat) a b,
          (i < j)%nat -> l !! i = Some a -> l !! j = Some b -> not_below a b).
Proof.
  intros Hparse Hnan (items & Hp & Hnd & Hrec).
  set (top := fresh (dom h)).
  set (h1 := <[top := List (take 6 items)]> h).
  assert (Hdict : forall q, q ∈ items -> exists p, h !! q = Some (Dict (dict_of_post p))).
  { intros q Hq. apply list_elem_of_lookup_1 in Hq as (i & Hi).
    destruct (Forall2_lookup_l _ _ _ _ _ Hrec Hi) as (p & _ & Hq). eauto. }
  assert (Htop : forall q, q ∈ items -> q <> top).
  { intros q Hq ->. destruct (Hdict _ Hq) as (p & Hq').
    unfold top in Hq'. rewrite fresh_not_in_heap in Hq'. discriminate. }
  assert (Hsub : forall q, q ∈ take 6 items -> q ∈ items).
  { intros q Hq. apply list_elem_of_lookup_1 in Hq as (i & Hi).
    apply lookup_take_Some in Hi as [Hi _]. eapply list_elem_of_lookup_2, Hi. }
  destruct (set_ranks_distinct (take 6 items) h1 1) as (h' & Hs & Hranks).
  { pose proof (sublist_take items 6) as Hsl.
    eapply sublist_NoDup in Hsl; [exact Hsl | exact Hnd]. }
  { intros q Hq. destruct (Hdict q (Hsub q Hq)) as (p & Hq'). exists (dict_of_post p).
    unfold h1. rewrite lookup_insert_ne; [exact Hq' |].
    intros Heq. apply (Htop q (Hsub q Hq)). congruence. }
  exists h', top, items.
  split; [| split; [exact Hp | split; [| split]]].
  - unfold get_top_posts. rewrite Hp. fold top. fold h1. rewrite Hs. reflexivity.
  - destruct (set_ranks_frame _ _ _ _ Hs) as [Hout _].
    rewrite Hout; [apply lookup_insert_eq |].
    intros Hc. apply (Htop top (Hsub top Hc)). reflexivity.
  - intros i q p Hi Hq Hl.
    assert (Hq6 : take 6 items !! i = Some q).
    { apply lookup_take_Some. split; [exact Hq | exact Hi]. }
    destruct (Hranks i q Hq6) as (d & Hd & Hd').
    destruct (Forall2_lookup_l _ _ _ _ _ Hrec Hq) as (p' & Hl' & Hq').
    assert (p' = p) by congruence. subst p'.
    assert (Hne : top <> q).
    { intros Heq. apply (Htop q); [| congruence].
      eapply list_elem_of_lookup_2, Hq. }
    unfold h1 in Hd. rewrite lookup_insert_ne in Hd by exact Hne.
    assert (d = dict_of_post p) by congruence. subst d.
    rewrite Hd'. replace (1 + Z.of_nat i) with (Z.of_nat i + 1) by lia.
    reflexivity.
  - destruct (parse_top_posts_rows_inv _ _ Hparse) as (E & I & _ & _ & ->).
    apply StronglySorted_lookup, sorted_without_nan, Hnan.
Qed.

(** The sheet with three posts and the heap that holds its records. *)
Lemma leaderboard_witness :
  parse_top_posts_rows sheet_three_posts = Ok three_posts
  /\ no_nan three_posts
  /\ holds_records heap_three_posts 0%nat three_posts
  /\ exists h' top_posts,
       get_top_posts heap_three_posts 0%nat = Ok (h', top_posts)
       /\ h' !! top_posts = Some (List [1; 2; 3]%nat)
       /\ rank_of h' 1%nat = Some (VInt 1)
       /\ rank_of h' 3%nat = Some (VInt 3).
Proof.
  assert (Hp : parse_top_posts_rows sheet_three_posts = Ok three_posts)
    by (vm_compute; reflexivity).
  assert (Hn : no_nan three_posts) by (repeat constructor).
  assert (Hh : holds_records heap_three_posts 0%nat three_posts).
  { exists [1; 2; 3]%nat. split; [reflexivity |]. split.
    - apply (bool_decide_unpack _). vm_compute. exact I.
    - repeat constructor. }
  split; [exact Hp |]. split; [exact Hn |]. split; [exact Hh |].
  destruct (leaderboard_holds_the_most_engaging _ _ _ _ Hp Hn Hh)
    as (h' & top & items & Hg & Hi & Ht & Hr & _).
  assert (items = [1; 2; 3]%nat)
    by (change (heap_three_posts !! 0%nat) with (Some (List [1; 2; 3]%nat)) in Hi;
        congruence).
  subst items.
  exists h', top. split; [exact Hg |]. split; [exact Ht |].
  unfold rank_of. split.
  - rewrite (Hr 0%nat 1%nat _ ltac:(lia) eq_refl eq_refl). reflexivity.
  - rewrite (Hr 2%nat 3%nat _ ltac:(lia) eq_refl eq_refl). reflexivity.
Defined.
